(** * The supervised-embedding intent classifier

    A shallow embedding of
    [rasa_nlu/classifiers/embedding_intent_classifier.py]
    (class [EmbeddingIntentClassifier]) and the properties of its
    training, negative sampling, loss, inference and persistence code.

    Conventions of the model.
    - Python [int] is [Z]; Python [float] values that only flow through
      the tensor computations (embeddings, similarities, losses) are
      idealised as real numbers [R]; feature values and the operands of
      the batch-size interpolation are exact rationals [Q].
    - A method that mutates [self], logs, writes files, raises or calls
      [exit()] is a computation in the monad [M] below.
    - A TensorFlow tensor is represented by its denotation: a function
      from a run-time environment (feeds, variable values, random draws)
      to a value.  What TensorFlow computes inside its own layers
      (recurrent cells, optimizer, dataset pipeline) is taken from the
      class [External]. *)

From Stdlib Require Import ZArith QArith Qround Reals Lra Lia List String Ascii.
From stdpp Require Import gmap strings list fin_maps sorting.
Import ListNotations.

Local Open Scope string_scope.
Local Open Scope Z_scope.

(* ===================================================================== *)
(** * Part I. The model                                                   *)
(* ===================================================================== *)

(** ** Python values used by the classifier *)

(** Exceptions the modelled code raises.  [BackendError] stands for an
    error raised from inside TensorFlow or NumPy. *)
Inductive exn : Type :=
| ValueError (msg : string)
| ImportError (msg : string)
| IndexError
| KeyError
| TypeError
| AttributeError
| ZeroDivisionError
| OSError (errno : Z)
| BackendError.

(** How a call ends: it returns, it raises, or it reaches [exit()]. *)
Inductive outcome (A : Type) : Type :=
| Returned (a : A)
| Raised (e : exn)
| Exited.
Arguments Returned {A} a.
Arguments Raised {A} e.
Arguments Exited {A}.

(** Results of pure helpers that may raise. *)
Definition result (A : Type) : Type := exn + A.
Definition ok {A} (a : A) : result A := inr a.
Definition err {A} (e : exn) : result A := inl e.

(** A feature array: a dense one-dimensional [ndarray] (a row of
    [np.eye]), or a [seq_len x dim] scipy sparse matrix as the
    featurizers hand it over, given by its rows. *)
Inductive array : Type :=
| Vec (v : list Q)
| Mat (rows : list (list Q)).

(** [x.shape[0]] and [x.shape[-1]]. *)
Definition shape0 (x : array) : Z :=
  match x with
  | Vec v => Z.of_nat (length v)
  | Mat rows => Z.of_nat (length rows)
  end.

Definition shape_last (x : array) : Z :=
  match x with
  | Vec v => Z.of_nat (length v)
  | Mat rows => match rows with
                | [] => 0
                | r :: _ => Z.of_nat (length r)
                end
  end.

(** [x.any()]: some entry is nonzero. *)
Definition array_any (x : array) : bool :=
  match x with
  | Vec v => existsb (fun q => negb (Qeq_bool q 0)) v
  | Mat rows => existsb (existsb (fun q => negb (Qeq_bool q 0))) rows
  end.

(** A [tf.SparseTensor]: indices, values and dense shape. *)
Record SparseTensor : Type := {
  st_indices : list (nat * nat * nat);
  st_data : list Q;
  st_dense_shape : Z * Z * Z
}.

(** Dense numeric tensors of rank 2 and 3. *)
Definition mat2 : Type := list (list R).
Definition mat3 : Type := list (list (list R)).

(** A training example and the training data ([intent_examples]).  The
    featurizers of the pipeline set both feature fields; the intent
    features are read only when intent tokenization is on. *)
Record Example : Type := {
  ex_intent : string;
  ex_text_features : array;
  ex_intent_features : array
}.
Definition TrainingData : Type := list Example.

(** The dictionary [{"name": ..., "confidence": ...}]. *)
Record Prediction : Type := {
  pred_name : option string;
  pred_confidence : R
}.

(** A message: its features and the two output fields [process] sets. *)
Record Message : Type := {
  msg_text_features : array;
  msg_intent : option Prediction;
  msg_intent_ranking : option (list Prediction)
}.

(** ** Configuration *)

(** [batch_size] is either a number or a list [[start, end]]. *)
Inductive batch_size_cfg : Type :=
| BatchInt (b : Z)
| BatchList (l : list Z).

(** The component configuration, one field per key of [defaults]. *)
Record Config : Type := {
  cfg_hidden_layers_sizes_a : list Z;
  cfg_hidden_layers_sizes_b : list Z;
  cfg_share_embedding : bool;
  cfg_bidirectional : bool;
  cfg_fused_lstm : bool;
  cfg_gpu_lstm : bool;
  cfg_transformer : bool;
  cfg_pos_encoding : string;
  cfg_pos_max_timescale : R;
  cfg_max_seq_length : Z;
  cfg_num_heads : Z;
  cfg_layer_norm : bool;
  cfg_batch_size : batch_size_cfg;
  cfg_epochs : Z;
  cfg_embed_dim : Z;
  cfg_mu_pos : R;
  cfg_mu_neg : R;
  cfg_similarity_type : string;
  cfg_num_neg : Z;
  cfg_use_neg_from_batch : bool;
  cfg_use_iou : bool;
  cfg_use_max_sim_neg : bool;
  cfg_random_seed : option Z;
  cfg_C2 : R;
  cfg_C_emb : R;
  cfg_droprate : R;
  cfg_intent_tokenization_flag : bool;
  cfg_intent_split_symbol : string;
  cfg_evaluate_every_num_epochs : Z;
  cfg_evaluate_on_num_examples : Z
}.

(** The class attribute [defaults]. *)
Definition defaults : Config := {|
  cfg_hidden_layers_sizes_a := [256; 128];
  cfg_hidden_layers_sizes_b := [];
  cfg_share_embedding := false;
  cfg_bidirectional := false;
  cfg_fused_lstm := false;
  cfg_gpu_lstm := false;
  cfg_transformer := false;
  cfg_pos_encoding := "timing";
  cfg_pos_max_timescale := 100%R;
  cfg_max_seq_length := 256;
  cfg_num_heads := 4;
  cfg_layer_norm := true;
  cfg_batch_size := BatchList [64; 256];
  cfg_epochs := 300;
  cfg_embed_dim := 20;
  cfg_mu_pos := (8 / 10)%R;
  cfg_mu_neg := (- (4 / 10))%R;
  cfg_similarity_type := "cosine";
  cfg_num_neg := 20;
  cfg_use_neg_from_batch := true;
  cfg_use_iou := false;
  cfg_use_max_sim_neg := true;
  cfg_random_seed := None;
  cfg_C2 := (2 / 1000)%R;
  cfg_C_emb := (8 / 10)%R;
  cfg_droprate := (2 / 10)%R;
  cfg_intent_tokenization_flag := false;
  cfg_intent_split_symbol := "_";
  cfg_evaluate_every_num_epochs := 10;
  cfg_evaluate_on_num_examples := 1000
|}.

(** The attributes the [_load_*_params] helpers set on [self]. *)
Record Hyper : Type := {
  hidden_layer_sizes_a : list Z;
  hidden_layer_sizes_b : list Z;
  share_embedding : bool;
  bidirectional : bool;
  fused_lstm : bool;
  gpu_lstm : bool;
  transformer : bool;
  pos_encoding : string;
  pos_max_timescale : R;
  max_seq_length : Z;
  num_heads : Z;
  batch_size : batch_size_cfg;
  epochs : Z;
  layer_norm : bool;
  embed_dim : Z;
  mu_pos : R;
  mu_neg : R;
  similarity_type : string;
  num_neg : Z;
  use_neg_from_batch : bool;
  use_iou : bool;
  use_max_sim_neg : bool;
  random_seed : option Z;
  C2 : R;
  C_emb : R;
  droprate : R;
  intent_tokenization_flag : bool;
  intent_split_symbol : string;
  evaluate_every_num_epochs : Z;
  evaluate_on_num_examples : Z
}.

(** [self.num_neg = v]. *)
Definition with_num_neg (v : Z) (h : Hyper) : Hyper := {|
  hidden_layer_sizes_a := hidden_layer_sizes_a h;
  hidden_layer_sizes_b := hidden_layer_sizes_b h;
  share_embedding := share_embedding h;
  bidirectional := bidirectional h;
  fused_lstm := fused_lstm h;
  gpu_lstm := gpu_lstm h;
  transformer := transformer h;
  pos_encoding := pos_encoding h;
  pos_max_timescale := pos_max_timescale h;
  max_seq_length := max_seq_length h;
  num_heads := num_heads h;
  batch_size := batch_size h;
  epochs := epochs h;
  layer_norm := layer_norm h;
  embed_dim := embed_dim h;
  mu_pos := mu_pos h;
  mu_neg := mu_neg h;
  similarity_type := similarity_type h;
  num_neg := v;
  use_neg_from_batch := use_neg_from_batch h;
  use_iou := use_iou h;
  use_max_sim_neg := use_max_sim_neg h;
  random_seed := random_seed h;
  C2 := C2 h;
  C_emb := C_emb h;
  droprate := droprate h;
  intent_tokenization_flag := intent_tokenization_flag h;
  intent_split_symbol := intent_split_symbol h;
  evaluate_every_num_epochs := evaluate_every_num_epochs h;
  evaluate_on_num_examples := evaluate_on_num_examples h
|}.

(** Python's [any(first != size for size in sizes)] with
    [first = sizes[0]]: nothing is evaluated on an empty list. *)
Definition any_differs_from_first (sizes : list Z) : bool :=
  match sizes with
  | [] => false
  | first :: _ => existsb (fun size => negb (first =? size)) sizes
  end.

Definition list_Z_eqb (a b : list Z) : bool := bool_decide (a = b).

(** The checks of [_load_nn_architecture_params], the only loader that
    can raise. *)
Definition _load_nn_architecture_params (config : Config) : result unit :=
  if cfg_share_embedding config
     && negb (list_Z_eqb (cfg_hidden_layers_sizes_a config)
                         (cfg_hidden_layers_sizes_b config))
  then err (ValueError "If embeddings are shared hidden_layer_sizes must coincide")
  else if (cfg_gpu_lstm config && cfg_fused_lstm config)
          || (cfg_transformer config && cfg_fused_lstm config)
          || (cfg_gpu_lstm config && cfg_transformer config)
  then err (ValueError "Either `gpu_lstm` or `fused_lstm` or `transformer` should be specified")
  else if (cfg_gpu_lstm config || cfg_transformer config)
          && any_differs_from_first (cfg_hidden_layers_sizes_a config)
  then err (ValueError "GPU training only supports identical sizes among layers a")
  else if (cfg_gpu_lstm config || cfg_transformer config)
          && any_differs_from_first (cfg_hidden_layers_sizes_b config)
  then err (ValueError "GPU training only supports identical sizes among layers b")
  else ok tt.

(** The attributes the loaders assign, in the order [_load_params] calls
    them after [_load_nn_architecture_params] has passed its checks. *)
Definition load_attributes (config : Config) : Hyper :=
  let tokenize :=
    (* _load_flag_if_tokenize_intents *)
    if cfg_intent_tokenization_flag config
       && negb (bool_decide (cfg_intent_split_symbol config = ""))
    then true else false in
  {|
    hidden_layer_sizes_a := cfg_hidden_layers_sizes_a config;
    hidden_layer_sizes_b := cfg_hidden_layers_sizes_b config;
    share_embedding := cfg_share_embedding config;
    bidirectional := cfg_bidirectional config;
    fused_lstm := cfg_fused_lstm config;
    gpu_lstm := cfg_gpu_lstm config;
    transformer := cfg_transformer config;
    pos_encoding :=
      if bool_decide (cfg_pos_encoding config = "timing")
      then "custom_timing" else cfg_pos_encoding config;
    pos_max_timescale := cfg_pos_max_timescale config;
    max_seq_length := cfg_max_seq_length config;
    num_heads := cfg_num_heads config;
    batch_size := cfg_batch_size config;
    epochs := cfg_epochs config;
    (* _load_embedding_params: similarity_type is stored as given *)
    layer_norm := cfg_layer_norm config;
    embed_dim := cfg_embed_dim config;
    mu_pos := cfg_mu_pos config;
    mu_neg := cfg_mu_neg config;
    similarity_type := cfg_similarity_type config;
    num_neg := cfg_num_neg config;
    use_neg_from_batch := cfg_use_neg_from_batch config;
    use_iou := cfg_use_iou config;
    use_max_sim_neg := cfg_use_max_sim_neg config;
    random_seed := cfg_random_seed config;
    (* _load_regularization_params *)
    C2 := cfg_C2 config;
    C_emb := cfg_C_emb config;
    droprate := cfg_droprate config;
    intent_tokenization_flag := tokenize;
    intent_split_symbol := cfg_intent_split_symbol config;
    (* _load_visual_params *)
    evaluate_every_num_epochs :=
      if cfg_evaluate_every_num_epochs config <? 1
      then cfg_epochs config
      else cfg_evaluate_every_num_epochs config;
    evaluate_on_num_examples :=
      if cfg_gpu_lstm config then 0
      else cfg_evaluate_on_num_examples config
  |}.

Definition _load_params (config : Config) : result Hyper :=
  match _load_nn_architecture_params config with
  | inl e => err e
  | inr _ => ok (load_attributes config)
  end.

(** ** Linearly increasing batch size *)

(** Python's [int(x)] on a float: truncation toward zero. *)
Definition py_int (x : Q) : Z :=
  if Qle_bool 0 x then Qfloor x else Qceiling x.

(** [_linearly_increasing_batch_size(epoch)].  [l[0]] and [l[1]] raise
    [IndexError] on a list that is too short. *)
Definition _linearly_increasing_batch_size (h : Hyper) (epoch : Z) : result Z :=
  match batch_size h with
  | BatchInt b => ok b
  | BatchList l =>
    if 1 <? epochs h then
      match l with
      | b0 :: b1 :: _ =>
        let batch_size :=
          py_int (inject_Z b0
                  + inject_Z (epoch * (b1 - b0)) / inject_Z (epochs h - 1))%Q in
        ok (if batch_size mod 2 =? 0 then batch_size else batch_size + 1)
      | _ => err IndexError
      end
    else
      match l with
      | b0 :: _ => ok b0
      | [] => err IndexError
      end
  end.

(** ** What lies outside the file *)

(** The run-time environment a tensor is evaluated in: the values fed to
    (or drawn by the iterator for) the placeholders, the variable values
    of the session, and the random draws of the sampling ops. *)
Record env (V : Type) : Type := {
  env_a : list array;
  env_b : list array;
  env_all_intents_embed : mat3;
  env_is_training : bool;
  env_vars : V;
  env_rand : nat -> nat -> nat
}.
Arguments env_a {V} _.
Arguments env_b {V} _.
Arguments env_all_intents_embed {V} _.
Arguments env_is_training {V} _.
Arguments env_vars {V} _.
Arguments env_rand {V} _.

(** TensorFlow, the operating system and the constant imported from
    [rasa_nlu.classifiers]. *)
Class External : Type := {
  (** the values of the trainable variables a [tf.Session] holds *)
  Variables : Type;
  (** [tf.data.Dataset], [tf.data.Iterator] and initializer ops *)
  Dataset : Type;
  Iterator : Type;
  InitOp : Type;
  (** whether [import tensorflow] succeeded at module load *)
  tf_imported : bool;
  (** [from rasa_nlu.classifiers import INTENT_RANKING_LENGTH] *)
  INTENT_RANKING_LENGTH : nat;
  (** the layers built by [_create_tf_embed_nn] and
      [_create_tf_rnn_embed]: building them may raise, running them
      maps a batch to one embedding per row *)
  tf_embed_nn : Hyper -> list Z -> string ->
                result (bool -> Variables -> list array -> result mat2);
  tf_rnn_embed : Hyper -> list Z -> string ->
                 result (bool -> Variables -> list array -> result mat2);
  (** [tf.losses.get_regularization_loss()] *)
  regularization_loss : Variables -> R;
  (** [tf.data.Dataset.from_tensor_slices(...).shuffle(...).batch(...)]
      on the training tensors; the evaluation set drawn from a random
      permutation of the examples; the iterator *)
  make_train_dataset : Hyper -> SparseTensor -> SparseTensor -> result Dataset;
  make_val_dataset : Hyper -> list array -> list array -> Z -> Z -> result Dataset;
  iterator_from_structure : Dataset -> result Iterator;
  make_initializer : Iterator -> option Dataset -> result InitOp;
  (** the batches the iterator yields after [session.run(init_op)] with
      the given batch size, until [OutOfRangeError] *)
  iterator_batches : InitOp -> option Z -> nat -> result (list (list array * list array));
  (** [tf.Session()] and [tf.global_variables_initializer()] *)
  new_session : Variables;
  global_variables_initializer : Variables -> Variables;
  (** one run of [AdamOptimizer().minimize(loss)] *)
  adam_minimize : (env Variables -> result R) -> env Variables -> result Variables;
  (** the random numbers behind the sampling ops of one run *)
  random_draws : nat -> nat -> nat -> nat -> nat;
  (** [os.makedirs]: [None] on success, the [errno] otherwise *)
  os_makedirs : string -> option Z
}.

Section Model.
Context `{External}.

(** A tensor of the graph: its static rank and last dimension, and what
    a [session.run] of it computes. *)
Record Tensor (A : Type) : Type := {
  t_rank : nat;
  t_last_dim : option Z;
  t_run : env Variables -> result A
}.
Arguments t_rank {A} _.
Arguments t_last_dim {A} _.
Arguments t_run {A} _.

(** A [tf.Graph]: the names of its collections. *)
Record Graph : Type := { collections : list string }.

(** ** The classifier instance *)

Record Classifier : Type := {
  hp : Hyper;
  inv_intent_dict : option (gmap nat string);
  encoded_all_intents : option (list array);
  all_intents_embed_values : option mat3;
  iou : option (list (list Q));
  session : option Variables;
  graph : option Graph;
  iterator : option Iterator;
  a_in : option (Tensor (list array));
  b_in : option (Tensor (list array));
  sim_op : option (Tensor mat2);
  all_intents_embed_in : option (Tensor mat3);
  sim_all : option (Tensor mat2);
  sequence : option bool;
  word_embed : option (Tensor mat2);
  intent_embed : option (Tensor mat2)
}.


(** Attribute assignments [self.x = v]. *)
Definition set_hp (v : Hyper) (c : Classifier) : Classifier := {|
  hp := v; inv_intent_dict := inv_intent_dict c;
  encoded_all_intents := encoded_all_intents c;
  all_intents_embed_values := all_intents_embed_values c; iou := iou c;
  session := session c; graph := graph c; iterator := iterator c;
  a_in := a_in c; b_in := b_in c; sim_op := sim_op c;
  all_intents_embed_in := all_intents_embed_in c; sim_all := sim_all c;
  sequence := sequence c; word_embed := word_embed c;
  intent_embed := intent_embed c
|}.

Definition set_inv_intent_dict (v : option (gmap nat string)) (c : Classifier) : Classifier := {|
  hp := hp c; inv_intent_dict := v;
  encoded_all_intents := encoded_all_intents c;
  all_intents_embed_values := all_intents_embed_values c; iou := iou c;
  session := session c; graph := graph c; iterator := iterator c;
  a_in := a_in c; b_in := b_in c; sim_op := sim_op c;
  all_intents_embed_in := all_intents_embed_in c; sim_all := sim_all c;
  sequence := sequence c; word_embed := word_embed c;
  intent_embed := intent_embed c
|}.

Definition set_encoded_all_intents (v : option (list array)) (c : Classifier) : Classifier := {|
  hp := hp c; inv_intent_dict := inv_intent_dict c; encoded_all_intents := v;
  all_intents_embed_values := all_intents_embed_values c; iou := iou c;
  session := session c; graph := graph c; iterator := iterator c;
  a_in := a_in c; b_in := b_in c; sim_op := sim_op c;
  all_intents_embed_in := all_intents_embed_in c; sim_all := sim_all c;
  sequence := sequence c; word_embed := word_embed c;
  intent_embed := intent_embed c
|}.

Definition set_all_intents_embed_values (v : option mat3) (c : Classifier) : Classifier := {|
  hp := hp c; inv_intent_dict := inv_intent_dict c;
  encoded_all_intents := encoded_all_intents c;
  all_intents_embed_values := v; iou := iou c; session := session c;
  graph := graph c; iterator := iterator c; a_in := a_in c; b_in := b_in c;
  sim_op := sim_op c; all_intents_embed_in := all_intents_embed_in c;
  sim_all := sim_all c; sequence := sequence c; word_embed := word_embed c;
  intent_embed := intent_embed c
|}.

Definition set_session (v : option Variables) (c : Classifier) : Classifier := {|
  hp := hp c; inv_intent_dict := inv_intent_dict c;
  encoded_all_intents := encoded_all_intents c;
  all_intents_embed_values := all_intents_embed_values c; iou := iou c;
  session := v; graph := graph c; iterator := iterator c; a_in := a_in c;
  b_in := b_in c; sim_op := sim_op c;
  all_intents_embed_in := all_intents_embed_in c; sim_all := sim_all c;
  sequence := sequence c; word_embed := word_embed c;
  intent_embed := intent_embed c
|}.

Definition set_graph (v : option Graph) (c : Classifier) : Classifier := {|
  hp := hp c; inv_intent_dict := inv_intent_dict c;
  encoded_all_intents := encoded_all_intents c;
  all_intents_embed_values := all_intents_embed_values c; iou := iou c;
  session := session c; graph := v; iterator := iterator c; a_in := a_in c;
  b_in := b_in c; sim_op := sim_op c;
  all_intents_embed_in := all_intents_embed_in c; sim_all := sim_all c;
  sequence := sequence c; word_embed := word_embed c;
  intent_embed := intent_embed c
|}.

Definition set_iterator (v : option Iterator) (c : Classifier) : Classifier := {|
  hp := hp c; inv_intent_dict := inv_intent_dict c;
  encoded_all_intents := encoded_all_intents c;
  all_intents_embed_values := all_intents_embed_values c; iou := iou c;
  session := session c; graph := graph c; iterator := v; a_in := a_in c;
  b_in := b_in c; sim_op := sim_op c;
  all_intents_embed_in := all_intents_embed_in c; sim_all := sim_all c;
  sequence := sequence c; word_embed := word_embed c;
  intent_embed := intent_embed c
|}.

Definition set_a_in (v : option (Tensor (list array))) (c : Classifier) : Classifier := {|
  hp := hp c; inv_intent_dict := inv_intent_dict c;
  encoded_all_intents := encoded_all_intents c;
  all_intents_embed_values := all_intents_embed_values c; iou := iou c;
  session := session c; graph := graph c; iterator := iterator c; a_in := v;
  b_in := b_in c; sim_op := sim_op c;
  all_intents_embed_in := all_intents_embed_in c; sim_all := sim_all c;
  sequence := sequence c; word_embed := word_embed c;
  intent_embed := intent_embed c
|}.

Definition set_b_in (v : option (Tensor (list array))) (c : Classifier) : Classifier := {|
  hp := hp c; inv_intent_dict := inv_intent_dict c;
  encoded_all_intents := encoded_all_intents c;
  all_intents_embed_values := all_intents_embed_values c; iou := iou c;
  session := session c; graph := graph c; iterator := iterator c;
  a_in := a_in c; b_in := v; sim_op := sim_op c;
  all_intents_embed_in := all_intents_embed_in c; sim_all := sim_all c;
  sequence := sequence c; word_embed := word_embed c;
  intent_embed := intent_embed c
|}.

Definition set_sim_op (v : option (Tensor mat2)) (c : Classifier) : Classifier := {|
  hp := hp c; inv_intent_dict := inv_intent_dict c;
  encoded_all_intents := encoded_all_intents c;
  all_intents_embed_values := all_intents_embed_values c; iou := iou c;
  session := session c; graph := graph c; iterator := iterator c;
  a_in := a_in c; b_in := b_in c; sim_op := v;
  all_intents_embed_in := all_intents_embed_in c; sim_all := sim_all c;
  sequence := sequence c; word_embed := word_embed c;
  intent_embed := intent_embed c
|}.

Definition set_all_intents_embed_in (v : option (Tensor mat3)) (c : Classifier) : Classifier := {|
  hp := hp c; inv_intent_dict := inv_intent_dict c;
  encoded_all_intents := encoded_all_intents c;
  all_intents_embed_values := all_intents_embed_values c; iou := iou c;
  session := session c; graph := graph c; iterator := iterator c;
  a_in := a_in c; b_in := b_in c; sim_op := sim_op c;
  all_intents_embed_in := v; sim_all := sim_all c; sequence := sequence c;
  word_embed := word_embed c; intent_embed := intent_embed c
|}.

Definition set_sim_all (v : option (Tensor mat2)) (c : Classifier) : Classifier := {|
  hp := hp c; inv_intent_dict := inv_intent_dict c;
  encoded_all_intents := encoded_all_intents c;
  all_intents_embed_values := all_intents_embed_values c; iou := iou c;
  session := session c; graph := graph c; iterator := iterator c;
  a_in := a_in c; b_in := b_in c; sim_op := sim_op c;
  all_intents_embed_in := all_intents_embed_in c; sim_all := v;
  sequence := sequence c; word_embed := word_embed c;
  intent_embed := intent_embed c
|}.

Definition set_sequence (v : option bool) (c : Classifier) : Classifier := {|
  hp := hp c; inv_intent_dict := inv_intent_dict c;
  encoded_all_intents := encoded_all_intents c;
  all_intents_embed_values := all_intents_embed_values c; iou := iou c;
  session := session c; graph := graph c; iterator := iterator c;
  a_in := a_in c; b_in := b_in c; sim_op := sim_op c;
  all_intents_embed_in := all_intents_embed_in c; sim_all := sim_all c;
  sequence := v; word_embed := word_embed c; intent_embed := intent_embed c
|}.

Definition set_word_embed (v : option (Tensor mat2)) (c : Classifier) : Classifier := {|
  hp := hp c; inv_intent_dict := inv_intent_dict c;
  encoded_all_intents := encoded_all_intents c;
  all_intents_embed_values := all_intents_embed_values c; iou := iou c;
  session := session c; graph := graph c; iterator := iterator c;
  a_in := a_in c; b_in := b_in c; sim_op := sim_op c;
  all_intents_embed_in := all_intents_embed_in c; sim_all := sim_all c;
  sequence := sequence c; word_embed := v; intent_embed := intent_embed c
|}.

Definition set_intent_embed (v : option (Tensor mat2)) (c : Classifier) : Classifier := {|
  hp := hp c; inv_intent_dict := inv_intent_dict c;
  encoded_all_intents := encoded_all_intents c;
  all_intents_embed_values := all_intents_embed_values c; iou := iou c;
  session := session c; graph := graph c; iterator := iterator c;
  a_in := a_in c; b_in := b_in c; sim_op := sim_op c;
  all_intents_embed_in := all_intents_embed_in c; sim_all := sim_all c;
  sequence := sequence c; word_embed := word_embed c; intent_embed := v
|}.


(** ** The world and the monad of method calls *)

(** What [persist] leaves on disk. *)
Inductive Artifact : Type :=
| Checkpoint (vars : Variables) (g : Graph)
| PlaceholderDims (a_dim b_dim : Z)
| PickledInvIntentDict (d : option (gmap nat string))
| PickledEncodedAllIntents (t : option (list array))
| PickledAllIntentsEmbedValues (t : option mat3).

(** Log levels of [logger]. *)
Inductive level : Type := DEBUG | INFO | WARNING | ERROR.

(** The instance, the log and the files. *)
Record World : Type := {
  self : Classifier;
  logged : list (level * string);
  files : gmap string Artifact
}.

Definition M (A : Type) : Type := World -> outcome A * World.

Definition ret {A} (a : A) : M A := fun w => (Returned a, w).

Definition bind {A B} (m : M A) (k : A -> M B) : M B :=
  fun w =>
    match m w with
    | (Returned a, w') => k a w'
    | (Raised e, w') => (Raised e, w')
    | (Exited, w') => (Exited, w')
    end.

Definition raise {A} (e : exn) : M A := fun w => (Raised e, w).

(** Python's [exit()]: it raises [SystemExit], which unwinds every
    caller and ends the interpreter; nothing after it in the routine is
    executed. *)
Definition exit {A} : M A := fun w => (Exited, w).

Definition lift {A} (r : result A) : M A :=
  match r with
  | inl e => raise e
  | inr a => ret a
  end.

Definition get_self : M Classifier := fun w => (Returned (self w), w).

Definition update_self (f : Classifier -> Classifier) : M unit :=
  fun w => (Returned tt,
            {| self := f (self w); logged := logged w; files := files w |}).

Definition logger (l : level) (msg : string) : M unit :=
  fun w => (Returned tt,
            {| self := self w; logged := logged w ++ [(l, msg)]; files := files w |}).

Definition write_file (path : string) (a : Artifact) : M unit :=
  fun w => (Returned tt,
            {| self := self w; logged := logged w; files := <[path := a]> (files w) |}).

(** An attribute that must not be [None] where it is used. *)
Definition required {A} (e : exn) (o : option A) : M A :=
  match o with
  | Some a => ret a
  | None => raise e
  end.

End Model.

Arguments t_rank {_ A} _.
Arguments t_last_dim {_ A} _.
Arguments t_run {_ A} _.
Arguments Build_Tensor {_ A} _ _ _.

Declare Scope py_scope.
Delimit Scope py_scope with py.
Notation "x <- m ;; k" := (bind m (fun x => k))
  (at level 100, m at next level, k at level 200, right associativity) : py_scope.
Notation "m ;; k" := (bind m (fun _ => k))
  (at level 100, k at level 200, right associativity) : py_scope.

(** The order Python's [sorted] puts strings in, and the order on the
    similarities. *)
Definition str_le (a b : string) : Prop := String.leb a b = true.

#[global] Instance str_le_dec a b : Decision (str_le a b).
Proof. unfold str_le. apply _. Defined.

#[global] Instance Rle_decision (x y : R) : Decision (x <= y)%R := Rle_dec x y.

#[global] Instance R_inhabited : Inhabited R := populate 0%R.

Section Methods.
Context `{External}.
Local Open Scope py_scope.

(** ** Construction *)

Definition _check_tensorflow : result unit :=
  if tf_imported then ok tt
  else err (ImportError "Failed to import `tensorflow`.").

(** An instance whose optional constructor arguments all keep their
    default [None]. *)
Definition untrained (h : Hyper) : Classifier :=
  {| hp := h;
     inv_intent_dict := None;
     encoded_all_intents := None;
     all_intents_embed_values := None;
     iou := None;
     session := None;
     graph := None;
     iterator := None;
     a_in := None;
     b_in := None;
     sim_op := None;
     all_intents_embed_in := None;
     sim_all := None;
     sequence := None;
     word_embed := None;
     intent_embed := None |}.

(** [__init__] called with a configuration only, the way the pipeline
    creates a component before training. *)
Definition __init__ (component_config : Config) : result Classifier :=
  match _check_tensorflow with
  | inl e => err e
  | inr _ =>
    match _load_params component_config with
    | inl e => err e
    | inr h => ok (untrained h)
    end
  end.

(** ** Training data helpers *)

(** [sorted(set(...))] on intent labels. *)
Definition distinct_intents (training_data : TrainingData) : gset string :=
  list_to_set (map ex_intent training_data).

Definition sorted (s : gset string) : list string :=
  merge_sort str_le (elements s).

(** [_create_intent_dict]: the items of the dictionary in insertion
    order, [(intent, idx)] for [idx, intent in enumerate(sorted(...))]. *)
Definition _create_intent_dict (training_data : TrainingData)
  : list (string * nat) :=
  let labels := sorted (distinct_intents training_data) in
  zip labels (seq 0 (length labels)).

(** [intent_dict[key]]. *)
Fixpoint dict_get (d : list (string * nat)) (key : string) : option nat :=
  match d with
  | [] => None
  | (k, v) :: rest => if bool_decide (k = key) then Some v else dict_get rest key
  end.

(** [{v: k for k, v in intent_dict.items()}]. *)
Definition invert_dict (d : list (string * nat)) : gmap nat string :=
  list_to_map (map (fun kv => (snd kv, fst kv)) d).

Definition _find_example_for_intent (intent : string) (examples : list Example)
  : option Example :=
  List.find (fun ex => bool_decide (ex_intent ex = intent)) examples.

(** Python's [list.insert(i, x)]. *)
Definition py_insert {A} (i : nat) (x : A) (l : list A) : list A :=
  take i l ++ x :: drop i l.

(** [np.eye(n)], row by row. *)
Definition np_eye (n : nat) : list (list Q) :=
  map (fun i => map (fun j => if (i =? j)%nat then 1%Q else 0%Q) (seq 0 n))
      (seq 0 n).

(** [_create_encoded_intents]: one row per intent. *)
Definition _create_encoded_intents (h : Hyper) (intent_dict : list (string * nat))
           (training_data : TrainingData) : result (list array) :=
  if intent_tokenization_flag h then
    fold_left
      (fun acc kv =>
         match acc with
         | inl e => inl e
         | inr encoded =>
           match _find_example_for_intent (fst kv) training_data with
           | None => err AttributeError
           | Some ex => ok (py_insert (snd kv) (ex_intent_features ex) encoded)
           end
         end)
      intent_dict (ok [])
  else ok (map Vec (np_eye (length intent_dict))).

(** [_prepare_data_for_training]: [X], [Y] and [intents_for_X]. *)
Definition _prepare_data_for_training (h : Hyper)
           (encoded_all_intents : list array)
           (training_data : TrainingData) (intent_dict : list (string * nat))
  : result (list array * list array * list nat) :=
  let X := map ex_text_features training_data in
  match mapM (fun e => dict_get intent_dict (ex_intent e)) training_data with
  | None => err KeyError
  | Some intents_for_X =>
    if intent_tokenization_flag h then
      ok (X, map ex_intent_features training_data, intents_for_X)
    else
      match mapM (fun intent_idx => encoded_all_intents !! intent_idx) intents_for_X with
      | None => err IndexError
      | Some Y => ok (X, Y, intents_for_X)
      end
  end.

(** ** Tensor arithmetic

    The value-level meaning of the TensorFlow operations the classifier
    composes.  On ill-shaped operands TensorFlow raises; the list
    versions below work on the common prefix instead, and the properties
    stated about them assume well-shaped operands where that matters. *)

(** [tf.reduce_sum(v, -1)] on one row. *)
Definition reduce_sum (v : list R) : R := fold_right Rplus 0%R v.

(** [tf.reduce_max(v, -1)] on one row; [None] is the value TensorFlow
    yields on an empty row (minus infinity). *)
Definition reduce_max (v : list R) : option R :=
  match v with
  | [] => None
  | x :: rest => Some (fold_left Rmax rest x)
  end.

(** [tf.maximum(0., x)] where [x] may be minus infinity. *)
Definition maximum0 (x : option R) : R :=
  match x with
  | Some v => Rmax 0 v
  | None => 0%R
  end.

(** [tf.reduce_mean(v)]. *)
Definition reduce_mean (v : list R) : R :=
  (reduce_sum v / INR (length v))%R.

(** The default [epsilon=1e-12] of [tf.nn.l2_normalize]. *)
Definition l2_epsilon : R := (/ 10 ^ 12)%R.

(** [tf.nn.l2_normalize(v, -1)] on one row:
    [v * rsqrt(maximum(reduce_sum(square(v)), epsilon))]. *)
Definition l2_normalize (v : list R) : list R :=
  let square_sum := reduce_sum (map (fun x => x * x)%R v) in
  let x_inv_norm := (/ sqrt (Rmax square_sum l2_epsilon))%R in
  map (fun x => x * x_inv_norm)%R v.

(** [tf.reduce_sum(u * v, -1)]. *)
Definition dot (u v : list R) : R := reduce_sum (zip_with Rmult u v).

(** What the two tensors returned by [_tf_sim] evaluate to, for
    [a : [batch, dim]] and [b : [batch, candidates, dim]]. *)
Definition sim_values (similarity_type : string) (a : mat2) (b : mat3)
  : mat2 * mat2 :=
  let a := if bool_decide (similarity_type = "cosine")
           then map l2_normalize a else a in
  let b := if bool_decide (similarity_type = "cosine")
           then map (map l2_normalize) b else b in
  (* sim = tf.reduce_sum(tf.expand_dims(a, 1) * b, -1) *)
  let sim := zip_with (fun a_i b_i => map (dot a_i) b_i) a b in
  (* sim_emb = tf.reduce_sum(b[:, 0:1, :] * b[:, 1:, :], -1) *)
  let sim_emb := map (fun b_i => match b_i with
                                 | [] => []
                                 | b_0 :: rest => map (dot b_0) rest
                                 end) b in
  (sim, sim_emb).

(** [_tf_sim]: the check on [similarity_type] happens when the graph is
    built; the returned tensors compute [sim_values]. *)
Definition _tf_sim (h : Hyper) (a : Tensor mat2) (b : Tensor mat3)
  : result (Tensor mat2 * Tensor mat2) :=
  if bool_decide (similarity_type h = "cosine")
     || bool_decide (similarity_type h = "inner")
  then
    let both (e : env Variables) : result (mat2 * mat2) :=
      match t_run a e with
      | inl x => inl x
      | inr va =>
        match t_run b e with
        | inl x => inl x
        | inr vb => ok (sim_values (similarity_type h) va vb)
        end
      end in
    ok ({| t_rank := 2; t_last_dim := None;
           t_run := fun e => match both e with
                             | inl x => inl x
                             | inr p => ok (fst p)
                             end |},
        {| t_rank := 2; t_last_dim := None;
           t_run := fun e => match both e with
                             | inl x => inl x
                             | inr p => ok (snd p)
                             end |})
  else err (ValueError "Wrong similarity type, should be 'cosine' or 'inner'").

(** What the tensor returned by [_tf_loss] evaluates to; [reg] is the
    value of [tf.losses.get_regularization_loss()].  [sim[:, 0]] needs a
    column 0. *)
Definition loss_value (h : Hyper) (sim sim_emb : mat2) (reg : R) : result R :=
  match mapM head sim with
  | None => err BackendError
  | Some sim_0 =>
    (* loss for maximizing similarity with correct action *)
    let loss := map (fun s => Rmax 0 (mu_pos h - s)) sim_0 in
    let loss :=
      if use_max_sim_neg h then
        (* minimize only maximum similarity over incorrect actions *)
        let max_sim_neg := map (fun row => reduce_max (tail row)) sim in
        zip_with Rplus loss
          (map (fun m => maximum0 (option_map (Rplus (mu_neg h)) m)) max_sim_neg)
      else
        (* minimize all similarities with incorrect actions *)
        let max_margin :=
          map (fun row => map (fun s => Rmax 0 (mu_neg h + s)) (tail row)) sim in
        zip_with Rplus loss (map reduce_sum max_margin) in
    (* penalize max similarity between intent embeddings *)
    let max_sim_emb := map (fun row => maximum0 (reduce_max row)) sim_emb in
    let loss := zip_with Rplus loss (map (fun m => m * C_emb h)%R max_sim_emb) in
    (* average the loss over the batch and add regularization losses *)
    ok (reduce_mean loss + reg)%R
  end.

Definition _tf_loss (h : Hyper) (sim sim_emb : Tensor mat2) : Tensor R :=
  {| t_rank := 0; t_last_dim := None;
     t_run := fun e =>
       match t_run sim e with
       | inl x => inl x
       | inr vsim =>
         match t_run sim_emb e with
         | inl x => inl x
         | inr vemb => loss_value h vsim vemb (regularization_loss (env_vars e))
         end
       end |}.

(** The loss as the specification words it, one example at a time:
    [max(0, mu_pos - sim[i,0])], plus the negative term, plus
    [C_emb * max(0, max_j sim_among_b[i,j])]. *)
Fixpoint max_list (v : list R) : option R :=
  match v with
  | [] => None
  | x :: rest => match max_list rest with
                 | None => Some x
                 | Some m => Some (Rmax x m)
                 end
  end.

Definition spec_example_loss (h : Hyper) (sim_i sim_among_b_i : list R) : R :=
  match sim_i with
  | [] => 0%R
  | true_sim :: negatives =>
    (Rmax 0 (mu_pos h - true_sim)
     + (if use_max_sim_neg h
        then match max_list negatives with
             | Some m => Rmax 0 (mu_neg h + m)
             | None => 0
             end
        else fold_right (fun s acc => Rmax 0 (mu_neg h + s) + acc) 0 negatives)
     + C_emb h * match max_list sim_among_b_i with
                 | Some m => Rmax 0 m
                 | None => 0
                 end)%R
  end.

Definition spec_loss (h : Hyper) (sim sim_among_b : mat2) (reg : R) : R :=
  (fold_right Rplus 0 (zip_with (spec_example_loss h) sim sim_among_b)
   / INR (length sim) + reg)%R.

(** ** Negative sampling *)

(** [np.array_equal] on feature arrays. *)
Fixpoint row_equal (u v : list Q) : bool :=
  match u, v with
  | [], [] => true
  | x :: u', y :: v' => Qeq_bool x y && row_equal u' v'
  | _, _ => false
  end.

Fixpoint rows_equal (m n : list (list Q)) : bool :=
  match m, n with
  | [], [] => true
  | u :: m', v :: n' => row_equal u v && rows_equal m' n'
  | _, _ => false
  end.

Definition array_equal (x y : array) : bool :=
  match x, y with
  | Vec u, Vec v => row_equal u v
  | Mat m, Mat n => rows_equal m n
  | _, _ => false
  end.

(** [np.random.choice(a, size=size)]: [size] draws with replacement
    from [a]; [rnd k] is the random number behind draw [k]. *)
Definition np_random_choice (a : list nat) (size : Z) (rnd : nat -> nat)
  : result (list nat) :=
  if size <? 0 then err (ValueError "negative dimensions are not allowed")
  else
    match a with
    | [] => if size =? 0 then ok []
            else err (ValueError "'a' cannot be empty unless no samples are taken")
    | _ => ok (map (fun k => a !!! (rnd k mod length a)%nat)
                   (seq 0 (Z.to_nat size)))
    end.

(** [self.iou[i, j] < 0.66]; [self.iou] is [None] unless a caller
    assigns it. *)
Definition iou_below (iou : option (list (list Q))) (i j : nat) : result bool :=
  match iou with
  | None => err TypeError
  | Some table =>
    match table !! i with
    | None => err IndexError
    | Some row =>
      match row !! j with
      | None => err IndexError
      | Some v => ok (negb (Qle_bool (66 # 100) v))
      end
    end
  end.

(** A list comprehension whose condition may raise. *)
Fixpoint comprehension {A} (cond : A -> result bool) (l : list A)
  : result (list A) :=
  match l with
  | [] => ok []
  | x :: rest =>
    match cond x with
    | inl e => inl e
    | inr keep =>
      match comprehension cond rest with
      | inl e => inl e
      | inr kept => ok (if keep then x :: kept else kept)
      end
    end
  end.

(** Sequencing of [result]s over a list. *)
Fixpoint for_each {A B} (f : A -> result B) (l : list A) : result (list B) :=
  match l with
  | [] => ok []
  | x :: rest =>
    match f x with
    | inl e => inl e
    | inr y =>
      match for_each f rest with
      | inl e => inl e
      | inr ys => ok (y :: ys)
      end
    end
  end.

(** Strategy (a), [_create_batch_b]: the indices [negs] drawn for batch
    row [b], from the rows of [encoded_all_intents]. *)
Definition _create_batch_b_negs (c : Classifier) (intent_ids : list nat)
           (rnd : nat -> nat -> nat) (b : nat) : result (list nat) :=
  match encoded_all_intents c with
  | None => err AttributeError
  | Some encoded =>
    match intent_ids !! b with
    | None => err IndexError
    | Some intent_id =>
      match
        (if use_iou (hp c) then
           comprehension (fun i => iou_below (iou c) i intent_id)
                         (seq 0 (length encoded))
         else
           comprehension (fun i => ok (negb (i =? intent_id)%nat))
                         (seq 0 (length encoded)))
      with
      | inl e => inl e
      | inr negative_indexes =>
        np_random_choice negative_indexes (num_neg (hp c)) (rnd b)
      end
    end
  end.

(** [_create_batch_b]: per batch row, the correct intent followed by the
    rows of the sampled wrong intents. *)
Definition _create_batch_b (c : Classifier) (batch_pos_b : list array)
           (intent_ids : list nat) (rnd : nat -> nat -> nat)
  : result (list (list array)) :=
  if num_neg (hp c) <? 0
  then err (ValueError "negative dimensions are not allowed")
  else
    for_each
      (fun b =>
         match _create_batch_b_negs c intent_ids rnd b with
         | inl e => inl e
         | inr negs =>
           match mapM (fun i => default [] (encoded_all_intents c) !! i) negs,
                 batch_pos_b !! b with
           | Some batch_neg_b, Some pos => ok (pos :: batch_neg_b)
           | _, _ => err IndexError
           end
         end)
      (seq 0 (length batch_pos_b)).

(** Strategy (b), [_negs_from_batch]: the batch positions [negs_ids]
    drawn for batch row [b]. *)
Definition _negs_from_batch_ids (c : Classifier) (batch_pos_b : list array)
           (intent_ids : list nat) (rnd : nat -> nat -> nat) (b : nat)
  : result (list nat) :=
  match
    (if use_iou (hp c) then
       comprehension
         (fun i => match intent_ids !! i, intent_ids !! b with
                   | Some id_i, Some id_b => iou_below (iou c) id_i id_b
                   | _, _ => err IndexError
                   end)
         (seq 0 (length batch_pos_b))
     else
       comprehension
         (fun i => match batch_pos_b !! i, batch_pos_b !! b with
                   | Some row_i, Some row_b => ok (negb (array_equal row_i row_b))
                   | _, _ => err IndexError
                   end)
         (seq 0 (length batch_pos_b)))
  with
  | inl e => inl e
  | inr negative_indexes =>
    np_random_choice negative_indexes (num_neg (hp c)) (rnd b)
  end.

(** [_negs_from_batch]: [np.eye(batch)[negs_ids]] per batch row. *)
Definition _negs_from_batch (c : Classifier) (batch_pos_b : list array)
           (intent_ids : list nat) (rnd : nat -> nat -> nat)
  : result (list (list (list Q))) :=
  for_each
    (fun b =>
       match _negs_from_batch_ids c batch_pos_b intent_ids rnd b with
       | inl e => inl e
       | inr negs_ids =>
         ok (map (fun j => np_eye (length batch_pos_b) !!! j) negs_ids)
       end)
    (seq 0 (length batch_pos_b)).

(** [tf.random.categorical(tf.log(weights), num_samples)]: row [i] gets
    [num_samples] draws among the classes of positive weight (a class of
    weight 0 has logit minus infinity and is never drawn).  With no such
    class TensorFlow leaves the result unspecified; the lookup then
    yields 0, and [_tf_sample_neg] uses the draws only when the batch
    has at least two rows. *)
Definition tf_random_categorical_log (weights : list (list Q))
           (num_samples : nat) (rand : nat -> nat -> nat) : list (list nat) :=
  imap (fun i row =>
          let support :=
            map fst (List.filter (fun jw => negb (Qle_bool (snd jw) 0))
                                 (zip (seq 0 (length row)) row)) in
          map (fun k => support !!! (rand i k mod length support)%nat)
              (seq 0 num_samples))
       weights.

(** The tensor [negs_ids] of [train]:
    [tf.random.categorical(tf.log(1. - tf.eye(tf.shape(self.b_in)[0])), 3)]. *)
Definition train_negs_ids (b_in_value : list array) (rand : nat -> nat -> nat)
  : list (list nat) :=
  tf_random_categorical_log
    (map (map (fun x => 1 - x)%Q) (np_eye (length b_in_value))) 3 rand.

(** [_tf_sample_neg]: with [all_b] the batch of intent embeddings tiled
    once per row, a training run on more than one row pairs each row's
    own embedding with the gathered ones; any other run gets [all_b]. *)
Definition _tf_sample_neg (emb_b : mat2) (is_training : bool)
           (neg_ids : list (list nat)) : mat3 :=
  let all_b := map (fun _ => emb_b) emb_b in
  if is_training && (1 <? length neg_ids)%nat then
    (* tf.concat([emb_b[:, tf.newaxis, :], tf.batch_gather(all_b, neg_ids)], 1) *)
    zip_with (fun own gathered => own :: gathered) emb_b
             (zip_with (fun all_b_i ids => map (fun j => all_b_i !!! j) ids)
                       all_b neg_ids)
  else all_b.

(** ** Building the graph *)

(** Python's [max] on a list. *)
Definition py_max (l : list Z) : result Z :=
  match l with
  | [] => err (ValueError "max() arg is an empty sequence")
  | x :: rest => ok (fold_left Z.max rest x)
  end.

(** [x.tocoo()]: the nonzero entries of a sparse matrix with their row
    and column. *)
Definition tocoo (m : list (list Q)) : list (nat * nat * Q) :=
  concat (imap (fun r row =>
                  map (fun cv => (r, fst cv, snd cv))
                      (List.filter (fun cv => negb (Qeq_bool (snd cv) 0))
                                   (zip (seq 0 (length row)) row)))
               m).

(** [_to_sparse_tensor]: a dense row has no [tocoo]. *)
Definition _to_sparse_tensor (array_of_sparse : list array) (seq_len : Z)
  : result SparseTensor :=
  match for_each (fun x => match x with
                           | Mat m => ok (tocoo m)
                           | Vec _ => err AttributeError
                           end) array_of_sparse with
  | inl e => inl e
  | inr coo =>
    match array_of_sparse with
    | [] => err IndexError
    | x0 :: _ =>
      ok {| st_indices :=
              concat (imap (fun i x => map (fun e => (i, fst (fst e), snd (fst e))) x)
                           coo);
            st_data := concat (map (map snd) coo);
            st_dense_shape := (Z.of_nat (length array_of_sparse), seq_len,
                               shape_last x0) |}
    end
  end.

Definition is_vec (x : array) : bool :=
  match x with
  | Vec _ => true
  | Mat _ => false
  end.

(** [_create_tf_embed_a]: the feed-forward layers for a rank-2 input,
    the recurrent ones otherwise. *)
Definition _create_tf_embed_a (h : Hyper) (a_in : Tensor (list array))
  : result (Tensor mat2) :=
  let name := if share_embedding h then "a_and_b" else "a" in
  match (if (t_rank a_in =? 2)%nat
         then tf_embed_nn h (hidden_layer_sizes_a h) name
         else tf_rnn_embed h (hidden_layer_sizes_a h) name) with
  | inl e => inl e
  | inr layers =>
    ok {| t_rank := 2; t_last_dim := Some (embed_dim h);
          t_run := fun e => match t_run a_in e with
                            | inl x => inl x
                            | inr v => layers (env_is_training e) (env_vars e) v
                            end |}
  end.

(** [_create_tf_embed_b]: always the recurrent layers. *)
Definition _create_tf_embed_b (h : Hyper) (b_in : Tensor (list array))
  : result (Tensor mat2) :=
  let name := if share_embedding h then "a_and_b" else "b" in
  match tf_rnn_embed h (hidden_layer_sizes_b h) name with
  | inl e => inl e
  | inr layers =>
    ok {| t_rank := 2; t_last_dim := Some (embed_dim h);
          t_run := fun e => match t_run b_in e with
                            | inl x => inl x
                            | inr v => layers (env_is_training e) (env_vars e) v
                            end |}
  end.

(** The tensor [tiled_intent_embed] of [train]:
    [_tf_sample_neg(self.intent_embed, is_training, negs_ids)]. *)
Definition tiled_intent_embed (b_in : Tensor (list array))
           (intent_embed : Tensor mat2) : Tensor mat3 :=
  {| t_rank := 3; t_last_dim := None;
     t_run := fun e =>
       match t_run b_in e with
       | inl x => inl x
       | inr vb =>
         match t_run intent_embed e with
         | inl x => inl x
         | inr emb_b =>
           ok (_tf_sample_neg emb_b (env_is_training e)
                              (train_negs_ids vb (env_rand e)))
         end
       end |}.

(** ** The training loop *)

(** [np.argmax(row, -1)]: the first position of the largest entry. *)
Fixpoint argmax_from (best_i : nat) (best : R) (i : nat) (rest : list R) : nat :=
  match rest with
  | [] => best_i
  | x :: rest' =>
    if Rlt_dec best x then argmax_from i x (S i) rest'
    else argmax_from best_i best (S i) rest'
  end.

Definition np_argmax (row : list R) : nat :=
  match row with
  | [] => 0%nat
  | x :: rest => argmax_from 0 x 1 rest
  end.

(** [np.mean(np.argmax(train_sim, -1) == np.arange(len(train_sim)))]. *)
Definition accuracy (train_sim : mat2) : R :=
  (INR (length (List.filter (fun p => (np_argmax (snd p) =? fst p)%nat)
                            (zip (seq 0 (length train_sim)) train_sim)))
   / INR (length train_sim))%R.

(** [_output_training_stat_dataset]. *)
Definition _output_training_stat_dataset (val_init_op : InitOp) : M R :=
  c <- get_self;;
  vars <- required AttributeError (session c);;
  batches <- lift (iterator_batches val_init_op None 0);;
  op <- required TypeError (sim_op c);;
  match batches with
  | [] => raise BackendError
  | (a, b) :: _ =>
    train_sim <- lift (t_run op {| env_a := a; env_b := b;
                                   env_all_intents_embed := [];
                                   env_is_training := false;
                                   env_vars := vars;
                                   env_rand := random_draws 0 0 |});;
    ret (accuracy train_sim)
  end.

(** The [while True] loop of one epoch: one optimizer step per batch
    until the iterator is exhausted. *)
Fixpoint train_batches (loss : Tensor R)
         (train_op : env Variables -> result Variables) (ep : nat)
         (batches : list (list array * list array)) (k : nat)
         (ep_loss : R) (batches_per_epoch : Z) : M (R * Z) :=
  match batches with
  | [] => ret (ep_loss, batches_per_epoch)
  | (a, b) :: rest =>
    c <- get_self;;
    vars <- required AttributeError (session c);;
    let e := {| env_a := a; env_b := b; env_all_intents_embed := [];
                env_is_training := true; env_vars := vars;
                env_rand := random_draws ep k |} in
    batch_loss <- lift (t_run loss e);;
    vars' <- lift (train_op e);;
    update_self (set_session (Some vars'));;
    train_batches loss train_op ep rest (S k)
                  (ep_loss + batch_loss)%R (batches_per_epoch + 1)
  end.

(** The [for ep in pbar] loop. *)
Fixpoint train_epochs (train_init_op val_init_op : InitOp) (loss : Tensor R)
         (train_op : env Variables -> result Variables)
         (eps : list nat) (train_acc last_loss : R) : M (R * R) :=
  match eps with
  | [] => ret (train_acc, last_loss)
  | ep :: rest =>
    c <- get_self;;
    batch_size <- lift (_linearly_increasing_batch_size (hp c) (Z.of_nat ep));;
    batches <- lift (iterator_batches train_init_op (Some batch_size) ep);;
    r <- train_batches loss train_op ep batches 0 0%R 0;;
    if snd r =? 0 then raise ZeroDivisionError
    else
      let ep_loss := (fst r / IZR (snd r))%R in
      if evaluate_on_num_examples (hp c) =? 0
      then train_epochs train_init_op val_init_op loss train_op rest
                        train_acc last_loss
      else
        let every := evaluate_every_num_epochs (hp c) in
        if (Z.of_nat ep =? 0)
        then acc <- _output_training_stat_dataset val_init_op;;
             train_epochs train_init_op val_init_op loss train_op rest
                          acc ep_loss
        else if every =? 0 then raise ZeroDivisionError
        else if ((Z.of_nat ep + 1) mod every =? 0)
                || (Z.of_nat ep + 1 =? epochs (hp c))
        then acc <- _output_training_stat_dataset val_init_op;;
             train_epochs train_init_op val_init_op loss train_op rest
                          acc ep_loss
        else train_epochs train_init_op val_init_op loss train_op rest
                          train_acc last_loss
  end.

(** [_train_tf_dataset]. *)
Definition _train_tf_dataset (train_init_op val_init_op : InitOp)
           (loss : Tensor R) (train_op : env Variables -> result Variables)
  : M unit :=
  c <- get_self;;
  vars <- required AttributeError (session c);;
  update_self (set_session (Some (global_variables_initializer vars)));;
  (if evaluate_on_num_examples (hp c) =? 0 then ret tt
   else logger INFO "Accuracy is updated every {} epochs");;
  train_epochs train_init_op val_init_op loss train_op
               (seq 0 (Z.to_nat (epochs (hp c)))) 0%R 0%R;;
  if evaluate_on_num_examples (hp c) =? 0 then ret tt
  else logger INFO "Finished training embedding classifier, loss={:.3f}, train accuracy={:.3f}".

(** [np.stack]-like view of a slice of the encoded intents as one
    array: the rows of the slice, one after the other. *)
Definition rows_of (x : array) : list (list Q) :=
  match x with
  | Vec v => [v]
  | Mat m => m
  end.

(** [_create_all_intents_embed]: the intent embeddings, computed slice
    by slice and written into a [1 x len x embed_dim] table. *)
Fixpoint embed_slices (intent_embed : Tensor mat2) (vars : Variables)
         (batch_size : nat) (n_slices : nat) (rest : list array)
  : result (list (list R)) :=
  match n_slices with
  | O => ok []
  | S n' =>
    let batch_b := [Mat (concat (map rows_of (take batch_size rest)))] in
    match t_run intent_embed {| env_a := []; env_b := batch_b;
                                env_all_intents_embed := [];
                                env_is_training := false; env_vars := vars;
                                env_rand := random_draws 0 0 |} with
    | inl e => inl e
    | inr emb =>
      match embed_slices intent_embed vars batch_size n' (drop batch_size rest) with
      | inl e => inl e
      | inr more =>
        ok (map (fun _ => default [] (head emb)) (take batch_size rest) ++ more)%list
      end
    end
  end.

Definition _create_all_intents_embed (encoded_all_intents : list array) : M mat3 :=
  c <- get_self;;
  batch_size <- lift (_linearly_increasing_batch_size (hp c) 0);;
  if batch_size =? 0 then raise ZeroDivisionError
  else
    let len := Z.of_nat (length encoded_all_intents) in
    let batches_per_epoch :=
      len / batch_size + (if 0 <? len mod batch_size then 1 else 0) in
    vars <- required AttributeError (session c);;
    op <- required TypeError (intent_embed c);;
    rows <- lift (embed_slices op vars (Z.to_nat batch_size)
                               (Z.to_nat batches_per_epoch) encoded_all_intents);;
    ret [rows].

(** ** [train] *)

Definition train (training_data : TrainingData) : M unit :=
  let intent_dict := _create_intent_dict training_data in
  if (length intent_dict <? 2)%nat then
    logger ERROR "Can not train an intent classifier. Need at least 2 different classes. Skipping training of intent classifier."
  else
    update_self (set_inv_intent_dict (Some (invert_dict intent_dict)));;
    c <- get_self;;
    encoded <- lift (_create_encoded_intents (hp c) intent_dict training_data);;
    update_self (set_encoded_all_intents (Some encoded));;
    xyi <- lift (_prepare_data_for_training (hp c) encoded training_data intent_dict);;
    let X := fst (fst xyi) in
    let Y := snd (fst xyi) in
    update_self (set_sequence
                   (Some (negb (forallb is_vec X)
                          && existsb (fun x => negb (shape0 x =? 1)) X)));;
    (if share_embedding (hp c) then
       match X, Y with
       | x0 :: _, y0 :: _ =>
         if negb (shape_last x0 =? shape_last y0)
         then raise (ValueError "If embeddings are shared text features and intent features must coincide")
         else ret tt
       | _, _ => raise IndexError
       end
     else ret tt);;
    (* check if number of negatives is less than number of intents *)
    logger DEBUG "Check if num_neg {} is smaller than number of intents {}, else set num_neg to the number of intents - 1";;
    update_self (fun c => set_hp (with_num_neg
                                    (Z.min (num_neg (hp c))
                                           (Z.of_nat (length encoded) - 1))
                                    (hp c)) c);;
    update_self (set_graph (Some {| collections := [] |}));;
    c <- get_self;;
    let h := hp c in
    X_seq_len <- lift (py_max (map shape0 X));;
    Y_seq_len <- lift (py_max (map shape0 Y));;
    X_tensor <- lift (_to_sparse_tensor X X_seq_len);;
    Y_tensor <- lift (_to_sparse_tensor Y Y_seq_len);;
    train_dataset <- lift (make_train_dataset h X_tensor Y_tensor);;
    val_dataset <- (if evaluate_on_num_examples h =? 0 then ret None
                    else d <- lift (make_val_dataset h X Y X_seq_len Y_seq_len);;
                         ret (Some d));;
    it <- lift (iterator_from_structure train_dataset);;
    update_self (set_iterator (Some it));;
    let a_in := {| t_rank := 3;
                   t_last_dim := Some (snd (st_dense_shape X_tensor));
                   t_run := fun e => ok (env_a e) |} in
    let b_in := {| t_rank := 3;
                   t_last_dim := Some (snd (st_dense_shape Y_tensor));
                   t_run := fun e => ok (env_b e) |} in
    update_self (set_a_in (Some a_in));;
    update_self (set_b_in (Some b_in));;
    word_embed <- lift (_create_tf_embed_a h a_in);;
    update_self (set_word_embed (Some word_embed));;
    intent_embed <- lift (_create_tf_embed_b h b_in);;
    update_self (set_intent_embed (Some intent_embed));;
    sims <- lift (_tf_sim h word_embed (tiled_intent_embed b_in intent_embed));;
    update_self (set_sim_op (Some (fst sims)));;
    let loss := _tf_loss h (fst sims) (snd sims) in
    let train_op := adam_minimize (t_run loss) in
    train_init_op <- lift (make_initializer it (Some train_dataset));;
    val_init_op <- lift (make_initializer it val_dataset);;
    (* train tensorflow graph *)
    update_self (set_session (Some new_session));;
    _train_tf_dataset train_init_op val_init_op loss train_op;;
    (exit : M unit);;
    all_intents_embed <- _create_all_intents_embed encoded;;
    update_self (set_all_intents_embed_values (Some all_intents_embed));;
    let all_intents_embed_in :=
      {| t_rank := 3; t_last_dim := Some (embed_dim h);
         t_run := fun e => ok (env_all_intents_embed e) |} in
    update_self (set_all_intents_embed_in (Some all_intents_embed_in));;
    sims_all <- lift (_tf_sim h word_embed all_intents_embed_in);;
    update_self (set_sim_all (Some (fst sims_all))).

(** ** Inference *)

(** [v.argsort()] and [v.sort()], ascending. *)
Definition argsort (v : list R) : list nat :=
  merge_sort (fun i j => (v !!! i <= v !!! j)%R) (seq 0 (length v)).

Definition np_sort (v : list R) : list R := merge_sort Rle v.

(** [_calculate_message_sim_all]. *)
Definition _calculate_message_sim_all (X : list array) : M (list nat * list R) :=
  c <- get_self;;
  vars <- required AttributeError (session c);;
  op <- required TypeError (sim_all c);;
  values <- required TypeError (all_intents_embed_values c);;
  message_sim <- lift (t_run op {| env_a := X; env_b := [];
                                   env_all_intents_embed := values;
                                   env_is_training := false;
                                   env_vars := vars;
                                   env_rand := random_draws 0 0 |});;
  let message_sim := concat message_sim in
  let intent_ids := reverse (argsort message_sim) in
  let message_sim := reverse (np_sort message_sim) in
  let message_sim :=
    if bool_decide (similarity_type (hp c) = "cosine") then
      (* clip negative values to zero *)
      map (fun s => if Rlt_dec s 0 then 0%R else s) message_sim
    else if bool_decide (similarity_type (hp c) = "inner") then
      (* normalize result to [0, 1] with softmax *)
      let exps := map exp message_sim in
      map (fun x => x / reduce_sum exps)%R exps
    else message_sim in
  ret (intent_ids, message_sim).

(** [self.inv_intent_dict[i]]. *)
Definition inv_intent_name (c : Classifier) (i : nat) : M string :=
  d <- required TypeError (inv_intent_dict c);;
  required KeyError (d !! i).

(** The list comprehension that names the ranked intents. *)
Fixpoint name_ranking (c : Classifier) (ranking : list (nat * R))
  : M (list Prediction) :=
  match ranking with
  | [] => ret []
  | (intent_idx, score) :: rest =>
    n <- inv_intent_name c intent_idx;;
    more <- name_ranking c rest;;
    ret ({| pred_name := Some n; pred_confidence := score |} :: more)
  end.

Definition message_set (message : Message) (intent : Prediction)
           (intent_ranking : list Prediction) : Message :=
  {| msg_text_features := msg_text_features message;
     msg_intent := Some intent;
     msg_intent_ranking := Some intent_ranking |}.

Definition null_intent : Prediction :=
  {| pred_name := None; pred_confidence := 0%R |}.

(** [process]: returns the message with [intent] and [intent_ranking]
    set. *)
Definition process (message : Message) : M Message :=
  c <- get_self;;
  match session c with
  | None =>
    logger ERROR "There is no trained tf.session: component is either not trained or didn't receive enough training data";;
    ret (message_set message null_intent [])
  | Some _ =>
    (* get features (bag of words) for a message *)
    let X := [msg_text_features message] in
    r <- _calculate_message_sim_all X;;
    let intent_ids := fst r in
    let message_sim := snd r in
    (* if X contains all zeros do not predict some label *)
    if array_any (msg_text_features message) && (0 <? length intent_ids)%nat then
      match intent_ids, message_sim with
      | id0 :: _, sim0 :: _ =>
        name0 <- inv_intent_name c id0;;
        let intent := {| pred_name := Some name0; pred_confidence := sim0 |} in
        let ranking := take INTENT_RANKING_LENGTH (zip intent_ids message_sim) in
        intent_ranking <- name_ranking c ranking;;
        ret (message_set message intent intent_ranking)
      | _, _ => raise IndexError
      end
    else ret (message_set message null_intent [])
  end.

(** ** Persistence *)

(** The class attribute [name]. *)
Definition name : string := "intent_classifier_tensorflow_embedding".

Definition is_slash (ch : ascii) : bool := bool_decide (ch = "/"%char).

Fixpoint drop_while {A} (p : A -> bool) (l : list A) : list A :=
  match l with
  | [] => []
  | x :: rest => if p x then drop_while p rest else l
  end.

(** [os.path.join(a, b)] for a relative [b]. *)
Definition os_path_join (a b : string) : string :=
  match last (list_ascii_of_string a) with
  | None => b
  | Some ch => if is_slash ch then a ++ b else a ++ "/" ++ b
  end.

(** [os.path.dirname(p)]. *)
Definition os_path_dirname (p : string) : string :=
  let head_rev := drop_while (fun ch => negb (is_slash ch))
                             (reverse (list_ascii_of_string p)) in
  if forallb is_slash head_rev
  then string_of_list_ascii (reverse head_rev)
  else string_of_list_ascii (reverse (drop_while is_slash head_rev)).

Definition EEXIST : Z := 17.

(** [graph.clear_collection(n)] followed by
    [graph.add_to_collection(n, ...)]. *)
Definition reset_collection (n : string) (g : Graph) : Graph :=
  {| collections := n :: List.filter (fun m => negb (bool_decide (m = n)))
                                     (collections g) |}.

(** [persist]: returns the value stored under ["classifier_file"].  The
    files [saver.save] produces are one artifact under the checkpoint
    path. *)
Definition persist (model_dir : string) : M (option string) :=
  c <- get_self;;
  match session c with
  | None => ret None
  | Some vars =>
    let checkpoint := os_path_join model_dir (name ++ ".ckpt") in
    match os_makedirs (os_path_dirname checkpoint) with
    | None => ret tt
    | Some errno =>
      (* be happy if someone already created the path *)
      if errno =? EEXIST then ret tt else raise (OSError errno)
    end;;
    g <- required AttributeError (graph c);;
    let g' :=
      if negb (gpu_lstm (hp c)) then
        reset_collection "intent_embed"
          (reset_collection "word_embed"
             (reset_collection "sim_all"
                (reset_collection "all_intents_embed_in"
                   (reset_collection "similarity_op"
                      (reset_collection "intent_placeholder"
                         (reset_collection "message_placeholder" g))))))
      else g in
    update_self (set_graph (Some g'));;
    write_file checkpoint (Checkpoint vars g');;
    a <- required AttributeError (a_in c);;
    a_dim <- required TypeError (t_last_dim a);;
    b <- required AttributeError (b_in c);;
    b_dim <- required TypeError (t_last_dim b);;
    write_file (os_path_join model_dir (name ++ "_placeholder_dims.pkl"))
               (PlaceholderDims a_dim b_dim);;
    write_file (os_path_join model_dir (name ++ "_inv_intent_dict.pkl"))
               (PickledInvIntentDict (inv_intent_dict c));;
    write_file (os_path_join model_dir (name ++ "_encoded_all_intents.pkl"))
               (PickledEncodedAllIntents (encoded_all_intents c));;
    write_file (os_path_join model_dir (name ++ "_all_intents_embed_values.pkl"))
               (PickledAllIntentsEmbedValues (all_intents_embed_values c));;
    ret (Some (name ++ ".ckpt"))
  end.

End Methods.

(** ** Outcomes of calls *)

(** [wp m Q w]: the call [m], made in world [w], ends with an outcome
    and in a world that satisfy [Q]. *)
Definition wp `{External} {A} (m : M A) (Q : outcome A -> World -> Prop)
           (w : World) : Prop :=
  Q (fst (m w)) (snd (m w)).

(** [only_session w w']: from [w] to [w'] nothing of the instance but
    its [session] attribute has changed, and no file was written. *)
Definition only_session `{External} (w w' : World) : Prop :=
  (exists s, self w' = set_session s (self w)) /\ files w' = files w.

(** ** Concrete inputs

    A small backend under which every external operation succeeds, and
    the configurations, data sets and instances the examples below run
    on. *)

Definition toy_backend : External := {|
  Variables := nat;
  Dataset := unit;
  Iterator := unit;
  InitOp := unit;
  tf_imported := true;
  INTENT_RANKING_LENGTH := 10;
  tf_embed_nn := fun _ _ _ =>
    ok (fun _ _ batch => ok (map (fun _ => [1%R; 0%R]) batch));
  tf_rnn_embed := fun _ _ _ =>
    ok (fun _ _ batch => ok (map (fun _ => [1%R; 0%R]) batch));
  regularization_loss := fun _ => 0%R;
  make_train_dataset := fun _ _ _ => ok tt;
  make_val_dataset := fun _ _ _ _ _ => ok tt;
  iterator_from_structure := fun _ => ok tt;
  make_initializer := fun _ d => match d with
                                 | Some d => ok d
                                 | None => err AttributeError
                                 end;
  iterator_batches := fun _ _ _ =>
    ok [([Mat [[1; 0]%Q]; Mat [[0; 1]%Q]], [Mat [[1; 0]%Q]; Mat [[0; 1]%Q]])];
  new_session := 0%nat;
  global_variables_initializer := fun v => v;
  adam_minimize := fun _ e => ok (S (env_vars e));
  random_draws := fun _ _ _ _ => 0%nat;
  os_makedirs := fun _ => None
|}.

(** [defaults] with intent tokenization on and some keys overridden. *)
Definition config_with (sizes_b : list Z) (share fused gpu transf : bool)
           (bs : batch_size_cfg) (n_epochs : Z) (sim : string) (negs : Z)
  : Config := {|
  cfg_hidden_layers_sizes_a := [256; 128];
  cfg_hidden_layers_sizes_b := sizes_b;
  cfg_share_embedding := share;
  cfg_bidirectional := false;
  cfg_fused_lstm := fused;
  cfg_gpu_lstm := gpu;
  cfg_transformer := transf;
  cfg_pos_encoding := "timing";
  cfg_pos_max_timescale := 100%R;
  cfg_max_seq_length := 256;
  cfg_num_heads := 4;
  cfg_layer_norm := true;
  cfg_batch_size := bs;
  cfg_epochs := n_epochs;
  cfg_embed_dim := 20;
  cfg_mu_pos := (8 / 10)%R;
  cfg_mu_neg := (- (4 / 10))%R;
  cfg_similarity_type := sim;
  cfg_num_neg := negs;
  cfg_use_neg_from_batch := true;
  cfg_use_iou := false;
  cfg_use_max_sim_neg := true;
  cfg_random_seed := None;
  cfg_C2 := (2 / 1000)%R;
  cfg_C_emb := (8 / 10)%R;
  cfg_droprate := (2 / 10)%R;
  cfg_intent_tokenization_flag := true;
  cfg_intent_split_symbol := "_";
  cfg_evaluate_every_num_epochs := 10;
  cfg_evaluate_on_num_examples := 1000
|}.


Definition similarity_config (sim : string) : Config :=
  config_with [] false false false false (BatchList [2; 4]) 2 sim 20.

(** An example with one token of text features; the intent features
    are those of the label. *)
Definition example (intent : string) (text_features intent_features : list Q)
  : Example :=
  {| ex_intent := intent;
     ex_text_features := Mat [text_features];
     ex_intent_features := Mat [intent_features] |}.

Definition greet_bye : TrainingData :=
  [example "greet" [1; 0; 0]%Q [1; 0]%Q; example "bye" [0; 1; 0]%Q [0; 1]%Q;
   example "greet" [1; 0; 1]%Q [1; 0]%Q].

Definition only_greet : TrainingData :=
  [example "greet" [1; 0; 0]%Q [1; 0]%Q; example "greet" [1; 0; 1]%Q [1; 0]%Q].

(** A world with nothing logged and no files. *)
Definition fresh_world `{External} (c : Classifier) : World :=
  {| self := c; logged := []; files := ∅ |}.

#[local] Existing Instance toy_backend.

(** A freshly constructed instance, and one in the state [load] leaves
    a trained model in: two intents, their embeddings, a session, a
    graph and the ops. *)
Definition toy_untrained (sim : string) : World :=
  fresh_world (untrained (load_attributes (similarity_config sim))).

Definition toy_placeholder : Tensor (list array) :=
  {| t_rank := 3; t_last_dim := Some 2; t_run := fun e => ok (env_a e) |}.

Definition toy_sim_all : Tensor mat2 :=
  {| t_rank := 2; t_last_dim := None;
     t_run := fun e =>
       ok (fst (sim_values "cosine" [[1; 0]%R] (env_all_intents_embed e))) |}.

Definition toy_trained : World :=
  fresh_world
    (set_sim_all (Some toy_sim_all)
       (set_all_intents_embed_values (Some [[[1; 0]%R; [0; 1]%R]])
          (set_b_in (Some toy_placeholder)
             (set_a_in (Some toy_placeholder)
                (set_graph (Some {| collections := [] |})
                   (set_session (Some 7%nat)
                      (set_encoded_all_intents
                         (Some [Mat [[0; 1]%Q]; Mat [[1; 0]%Q]])
                         (set_inv_intent_dict
                            (Some (invert_dict (_create_intent_dict greet_bye)))
                            (untrained (load_attributes
                                          (similarity_config "cosine"))))))))))).

Definition greeting : Message :=
  {| msg_text_features := Mat [[1; 0; 0]%Q];
     msg_intent := None;
     msg_intent_ranking := None |}.
(** A configuration loaded with intent tokenization, used by the
    examples of Part III. *)
Definition tokenized_hyper : Hyper :=
  load_attributes
    (config_with [] false false false false (BatchInt 2) 1 "cosine" 1).

(** An instance that holds two encoded intents and draws two negatives. *)
Definition sampling_classifier : Classifier :=
  set_encoded_all_intents (Some [Vec [1; 0]%Q; Vec [0; 1]%Q])
    (untrained
       (load_attributes
          (config_with [] false false false false (BatchInt 2) 1 "cosine" 2))).

(** A message whose bag of words is empty. *)
Definition silence : Message :=
  {| msg_text_features := Mat [[0; 0; 0]%Q];
     msg_intent := None;
     msg_intent_ranking := None |}.

(** The toy backend on a disk that refuses new directories
    ([EACCES]). *)
Definition read_only_disk : External := {|
  Variables := nat;
  Dataset := unit;
  Iterator := unit;
  InitOp := unit;
  tf_imported := true;
  INTENT_RANKING_LENGTH := 10;
  tf_embed_nn := fun _ _ _ =>
    ok (fun _ _ batch => ok (map (fun _ => [1%R; 0%R]) batch));
  tf_rnn_embed := fun _ _ _ =>
    ok (fun _ _ batch => ok (map (fun _ => [1%R; 0%R]) batch));
  regularization_loss := fun _ => 0%R;
  make_train_dataset := fun _ _ _ => ok tt;
  make_val_dataset := fun _ _ _ _ _ => ok tt;
  iterator_from_structure := fun _ => ok tt;
  make_initializer := fun _ d => match d with
                                 | Some d => ok d
                                 | None => err AttributeError
                                 end;
  iterator_batches := fun _ _ _ => ok [];
  new_session := 0%nat;
  global_variables_initializer := fun v => v;
  adam_minimize := fun _ e => ok (S (env_vars e));
  random_draws := fun _ _ _ _ => 0%nat;
  os_makedirs := fun _ => Some 13
|}.

(** An instance with a session on that disk. *)
Definition trained_on_read_only_disk : @World read_only_disk :=
  @fresh_world read_only_disk
    (@set_session read_only_disk (Some 7%nat)
       (@untrained read_only_disk
          (load_attributes (similarity_config "cosine")))).

(** An instance that has a session and a graph but no placeholders. *)
Definition half_built : World :=
  fresh_world
    (set_graph (Some {| collections := ["word_embed"; "mine"] |})
       (set_session (Some 7%nat)
          (untrained (load_attributes (similarity_config "cosine"))))).

(** ** Sequence masks

    The mask tensors that [_create_tf_rnn_embed] and
    [_create_tf_gpu_predict_embed] compute from one row of [x_in], a
    list of tokens with their features.  The masks hold the floats -1,
    0 and 1 and small whole numbers; they are written as integers. *)

(** [tf.sign]. *)
Definition tf_sign (x : Q) : Z :=
  match Qcompare x 0 with
  | Lt => -1
  | Eq => 0
  | Gt => 1
  end.

(** [tf.reduce_max(x, -1)] over the features of one token; [None] is
    the minus infinity of an empty axis. *)
Definition token_max (token : list Q) : option Q :=
  match token with
  | [] => None
  | x :: rest => Some (fold_left (fun m y => if Qle_bool m y then y else m) rest x)
  end.

(** [tf.cumprod(v, exclusive=True, reverse=True)]. *)
Fixpoint tf_cumprod_exclusive_reverse (v : list Z) : list Z :=
  match v with
  | [] => []
  | _ :: rest => fold_right Z.mul 1 rest :: tf_cumprod_exclusive_reverse rest
  end.

(** [tf.cumsum(v, reverse=True)]. *)
Fixpoint tf_cumsum_reverse (v : list Z) : list Z :=
  match v with
  | [] => []
  | x :: rest => (x + fold_right Z.add 0 rest) :: tf_cumsum_reverse rest
  end.

(** [mask * tf.cumprod(1 - mask, axis=1, exclusive=True, reverse=True)]. *)
Definition last_of_mask (mask : list Z) : list Z :=
  zip_with Z.mul mask
           (tf_cumprod_exclusive_reverse (map (fun m => 1 - m) mask)).

(** [_create_tf_rnn_embed]: [mask = tf.sign(tf.reduce_max(x_in, -1))]. *)
Definition rnn_embed_sign (x_in : list (list Q)) : list Z :=
  map (fun token => match token_max token with
                    | None => -1
                    | Some m => tf_sign m
                    end) x_in.

(** [last], the second [mask] and [real_length] of
    [_create_tf_rnn_embed]. *)
Definition rnn_embed_last (x_in : list (list Q)) : list Z :=
  last_of_mask (rnn_embed_sign x_in).

Definition rnn_embed_mask (x_in : list (list Q)) : list Z :=
  tf_cumsum_reverse (rnn_embed_last x_in).

Definition rnn_embed_real_length (x_in : list (list Q)) : Z :=
  fold_right Z.add 0 (rnn_embed_mask x_in).

(** [_create_tf_gpu_predict_embed]:
    [mask = tf.sign(tf.reduce_max(x_in, -1) + 1)], [last] and
    [real_length]. *)
Definition gpu_predict_mask (x_in : list (list Q)) : list Z :=
  map (fun token => match token_max token with
                    | None => -1
                    | Some m => tf_sign (m + 1)
                    end) x_in.

Definition gpu_predict_last (x_in : list (list Q)) : list Z :=
  last_of_mask (gpu_predict_mask x_in).

Definition gpu_predict_real_length (x_in : list (list Q)) : Z :=
  fold_right Z.add 0 (gpu_predict_mask x_in).


(* ===================================================================== *)
(** * Part II. Properties                                                 *)
(* ===================================================================== *)

(** ** Batch size *)









(** ** Loss *)

Lemma reduce_max_max_list (row : list R) : reduce_max row = max_list row.
Proof.
  destruct row as [| x rest]; [reflexivity |]. simpl.
  revert x. induction rest as [| y rest IH]; intros x; simpl.
  - reflexivity.
  - rewrite IH. simpl. destruct (max_list rest) as [m |].
    + now rewrite Rmax_assoc.
    + reflexivity.
Qed.

Lemma reduce_sum_margins (mu : R) (negatives : list R) :
  reduce_sum (map (fun s => Rmax 0 (mu + s)) negatives)
  = fold_right (fun s acc => (Rmax 0 (mu + s) + acc)%R) 0%R negatives.
Proof.
  induction negatives as [| s rest IH]; simpl; [reflexivity | now rewrite IH].
Qed.

Lemma heads_of_rows (sim : mat2) :
  Forall (fun row => row <> []) sim ->
  mapM head sim = Some (map (fun row => hd 0%R row) sim).
Proof.
  induction 1 as [| row sim Hrow _ IH]; [reflexivity |].
  destruct row as [| s row]; [congruence |].
  simpl. rewrite IH. reflexivity.
Qed.

Lemma loss_rows (h : Hyper) (sim sim_emb : mat2) :
  Forall (fun row => row <> []) sim ->
  length sim = length sim_emb ->
  zip_with Rplus
    (if use_max_sim_neg h then
       zip_with Rplus
         (map (fun s => Rmax 0 (mu_pos h - s)) (map (fun row => hd 0%R row) sim))
         (map (fun m => maximum0 (option_map (Rplus (mu_neg h)) m))
              (map (fun row => reduce_max (tail row)) sim))
     else
       zip_with Rplus
         (map (fun s => Rmax 0 (mu_pos h - s)) (map (fun row => hd 0%R row) sim))
         (map reduce_sum
              (map (fun row => map (fun s => Rmax 0 (mu_neg h + s)) (tail row)) sim)))
    (map (fun m => m * C_emb h)%R
         (map (fun row => maximum0 (reduce_max row)) sim_emb))
  = zip_with (spec_example_loss h) sim sim_emb.
Proof.
  intros Hrows. revert sim_emb.
  induction Hrows as [| row sim Hrow _ IH]; intros sim_emb Hlen.
  - destruct (use_max_sim_neg h); reflexivity.
  - destruct sim_emb as [| among sim_emb]; [discriminate |].
    injection Hlen as Hlen. specialize (IH sim_emb Hlen).
    destruct row as [| true_sim negatives]; [congruence |].
    destruct (use_max_sim_neg h) eqn:Hmax; cbn [map zip_with hd tail] in *;
      rewrite IH; f_equal; unfold spec_example_loss; rewrite Hmax;
      rewrite ?reduce_sum_margins, ?reduce_max_max_list.
    + destruct (max_list negatives), (max_list among); simpl; ring.
    + destruct (max_list among); simpl; ring.
Qed.

(** C4: on a similarity matrix with a column 0 and one row of
    [sim_among_b] per example, the value of the loss tensor is the mean
    over the batch of [max(0, mu_pos - sim[i,0])] plus the configured
    negative term plus [C_emb * max(0, max_j sim_among_b[i,j])], plus the
    regularization loss. *)
Theorem loss_value_is_spec_loss (h : Hyper) (sim sim_among_b : mat2) (reg : R) :
  Forall (fun row => row <> []) sim ->
  length sim = length sim_among_b ->
  loss_value h sim sim_among_b reg = ok (spec_loss h sim sim_among_b reg).
Proof.
  intros Hrows Hlen. unfold loss_value, spec_loss.
  rewrite (heads_of_rows sim Hrows).
  assert (Hrows' := loss_rows h sim sim_among_b Hrows Hlen).
  destruct (use_max_sim_neg h); rewrite Hrows'; unfold reduce_mean, reduce_sum;
    rewrite length_zip_with, <- Hlen, Nat.min_id; reflexivity.
Qed.

Lemma loss_value_is_spec_loss_witness :
  loss_value (load_attributes defaults)
             [[1; 0]%R; [0; 1]%R] [[0%R]; [1%R]] 0%R
  = ok (spec_loss (load_attributes defaults)
                  [[1; 0]%R; [0; 1]%R] [[0%R]; [1%R]] 0%R).
Proof.
  apply loss_value_is_spec_loss.
  - repeat constructor; discriminate.
  - reflexivity.
Defined.

(** ** Similarity *)








(** ** Calls and their outcomes *)

Section Calls.
Context `{External}.

Lemma wp_mono {A} (m : M A) (Q Q' : outcome A -> World -> Prop) w :
  (forall o w', Q o w' -> Q' o w') -> wp m Q w -> wp m Q' w.
Proof. unfold wp. auto. Qed.

Lemma wp_bind {A B} (m : M A) (k : A -> M B) Q w :
  wp m (fun o w' => match o with
                    | Returned a => wp (k a) Q w'
                    | Raised e => Q (Raised e) w'
                    | Exited => Q Exited w'
                    end) w ->
  wp (bind m k) Q w.
Proof.
  unfold wp, bind. destruct (m w) as [[a | e |] w']; simpl; auto.
Qed.

Lemma wp_ret {A} (a : A) Q w : Q (Returned a) w -> wp (ret a) Q w.
Proof. exact (fun q => q). Qed.

Lemma wp_raise {A} (e : exn) (Q : outcome A -> World -> Prop) w :
  Q (Raised e) w -> wp (raise e) Q w.
Proof. exact (fun q => q). Qed.

Lemma wp_exit {A} (Q : outcome A -> World -> Prop) w :
  Q Exited w -> wp exit Q w.
Proof. exact (fun q => q). Qed.

Lemma wp_get_self Q w : Q (Returned (self w)) w -> wp get_self Q w.
Proof. exact (fun q => q). Qed.

Lemma wp_update_self f Q w :
  Q (Returned tt) {| self := f (self w); logged := logged w; files := files w |} ->
  wp (update_self f) Q w.
Proof. exact (fun q => q). Qed.

Lemma wp_logger l msg Q w :
  Q (Returned tt)
    {| self := self w; logged := logged w ++ [(l, msg)]; files := files w |} ->
  wp (logger l msg) Q w.
Proof. exact (fun q => q). Qed.

Lemma wp_write_file path a Q w :
  Q (Returned tt)
    {| self := self w; logged := logged w; files := <[path := a]> (files w) |} ->
  wp (write_file path a) Q w.
Proof. exact (fun q => q). Qed.

Lemma wp_lift {A} (r : result A) Q w :
  match r with
  | inl e => Q (Raised e) w
  | inr a => Q (Returned a) w
  end ->
  wp (lift r) Q w.
Proof. destruct r; exact (fun q => q). Qed.

Lemma wp_required {A} (e : exn) (o : option A) Q w :
  match o with
  | Some a => Q (Returned a) w
  | None => Q (Raised e) w
  end ->
  wp (required e o) Q w.
Proof. destruct o; exact (fun q => q). Qed.

End Calls.

Ltac wp_step :=
  lazymatch goal with
  | |- wp (bind _ _) _ _ => apply wp_bind
  | |- wp (update_self _) _ _ => apply wp_update_self
  | |- wp get_self _ _ => apply wp_get_self
  | |- wp (logger _ _) _ _ => apply wp_logger
  | |- wp (ret _) _ _ => apply wp_ret
  | |- wp (raise _) _ _ => apply wp_raise
  | |- wp exit _ _ => apply wp_exit
  | |- wp (write_file _ _) _ _ => apply wp_write_file
  | |- wp (lift ?r) _ _ => apply wp_lift; destruct r eqn:?
  | |- wp (required _ ?o) _ _ => apply wp_required; destruct o eqn:?
  | |- wp (if ?b then _ else _) _ _ => destruct b eqn:?
  | |- wp (match ?x with _ => _ end) _ _ => destruct x eqn:?
  end; cbv beta iota zeta; cbn [self logged files].

Section Training.
Context `{External}.

Lemma set_session_same (c : Classifier) : set_session (session c) c = c.
Proof. destruct c; reflexivity. Qed.

Lemma only_session_refl w : only_session w w.
Proof. split; [exists (session (self w)); now rewrite set_session_same | reflexivity]. Qed.

Lemma _output_training_stat_dataset_frame val_init_op w :
  wp (_output_training_stat_dataset val_init_op) (fun _ w' => w' = w) w.
Proof.
  unfold _output_training_stat_dataset. repeat wp_step; reflexivity.
Qed.


Lemma only_session_trans w w1 w2 :
  only_session w w1 -> only_session w1 w2 -> only_session w w2.
Proof.
  intros [[s1 H1] F1] [[s2 H2] F2]. split.
  - exists s2. rewrite H2, H1. reflexivity.
  - congruence.
Qed.

Lemma only_session_step w s l :
  only_session w {| self := set_session s (self w); logged := l; files := files w |}.
Proof. split; [now exists s | reflexivity]. Qed.

Lemma only_session_log w l :
  only_session w {| self := self w; logged := l; files := files w |}.
Proof.
  split; [exists (session (self w)); simpl; now rewrite set_session_same | reflexivity].
Qed.

Lemma train_batches_frame loss train_op ep batches :
  forall k ep_loss n w,
    wp (train_batches loss train_op ep batches k ep_loss n)
       (fun _ w' => only_session w w') w.
Proof.
  induction batches as [| [a b] rest IH]; intros k ep_loss n w; simpl.
  - apply only_session_refl.
  - repeat wp_step; try apply only_session_refl.
    eapply wp_mono; [| apply IH].
    intros o w' Hw'. eapply only_session_trans; [| exact Hw'].
    apply only_session_step.
Qed.

Lemma train_epochs_frame train_init_op val_init_op loss train_op eps :
  forall train_acc last_loss w,
    wp (train_epochs train_init_op val_init_op loss train_op eps
                     train_acc last_loss)
       (fun _ w' => only_session w w') w.
Proof.
  induction eps as [| ep rest IH]; intros train_acc last_loss w; simpl.
  - apply only_session_refl.
  - wp_step. wp_step. wp_step. wp_step; [apply only_session_refl |].
    wp_step. wp_step; [apply only_session_refl |].
    wp_step.
    eapply wp_mono; [| apply train_batches_frame].
    intros o w1 Hw1. destruct o as [r | e |]; [| exact Hw1 | exact Hw1].
    assert (Hrest : forall acc ll,
               wp (train_epochs train_init_op val_init_op loss train_op rest acc ll)
                  (fun _ w' => only_session w w') w1).
    { intros acc ll. eapply wp_mono; [| apply IH].
      intros o' w' Hw'. eapply only_session_trans; eassumption. }
    assert (Hstat : wp (acc <- _output_training_stat_dataset val_init_op;;
                        train_epochs train_init_op val_init_op loss train_op rest
                                     acc (fst r / IZR (snd r))%R)%py
                       (fun _ w' => only_session w w') w1).
    { apply wp_bind. eapply wp_mono;
        [| apply _output_training_stat_dataset_frame].
      intros o' w' ->. destruct o'; [apply Hrest | exact Hw1 | exact Hw1]. }
    repeat (wp_step; try exact Hw1; try apply Hrest; try exact Hstat).
Qed.

Lemma _train_tf_dataset_frame train_init_op val_init_op loss train_op w :
  wp (_train_tf_dataset train_init_op val_init_op loss train_op)
     (fun _ w' => only_session w w') w.
Proof.
  unfold _train_tf_dataset. wp_step. wp_step. wp_step. wp_step;
    [| apply only_session_refl].
  wp_step. wp_step. wp_step.
  assert (Hloop : forall w1, only_session w w1 ->
            wp (train_epochs train_init_op val_init_op loss train_op
                  (seq 0 (Z.to_nat (epochs (hp (self w))))) 0%R 0%R;;
                (if evaluate_on_num_examples (hp (self w)) =? 0 then ret tt
                 else logger INFO "Finished training embedding classifier, loss={:.3f}, train accuracy={:.3f}"))%py
               (fun _ w' => only_session w w') w1).
  { intros w1 Hw1. apply wp_bind.
    eapply wp_mono; [| apply train_epochs_frame].
    intros o w2 Hw2.
    assert (Hw : only_session w w2) by (eapply only_session_trans; eassumption).
    destruct o; [| exact Hw | exact Hw].
    repeat wp_step; [exact Hw |].
    eapply only_session_trans; [exact Hw | apply only_session_log]. }
  wp_step; wp_step; apply Hloop.
  - apply only_session_step.
  - apply only_session_step.
Qed.

End Training.

(** ** Training data *)

Section Data.
Context `{External}.

Lemma sorted_length (s : gset string) : length (sorted s) = size s.
Proof.
  unfold sorted. now rewrite (Permutation_length (merge_sort_Permutation _ _)).
Qed.

Lemma _create_intent_dict_length (training_data : TrainingData) :
  length (_create_intent_dict training_data)
  = size (distinct_intents training_data).
Proof.
  unfold _create_intent_dict.
  rewrite length_zip_with, length_seq, Nat.min_id. apply sorted_length.
Qed.

Lemma sorted_elem_of (training_data : TrainingData) (label : string) :
  label ∈ sorted (distinct_intents training_data)
  <-> In label (map ex_intent training_data).
Proof.
  unfold sorted, distinct_intents.
  rewrite (merge_sort_Permutation _ _), elem_of_elements, elem_of_list_to_set.
  apply list_elem_of_In.
Qed.

Lemma _find_example_for_intent_Some (training_data : TrainingData) label :
  In label (map ex_intent training_data) ->
  exists ex, _find_example_for_intent label training_data = Some ex.
Proof.
  intros Hin. unfold _find_example_for_intent.
  destruct (List.find _ training_data) as [ex |] eqn:Hfind; [now exists ex |].
  apply in_map_iff in Hin as (ex & Hex & Hin).
  pose proof (find_none _ _ Hfind ex Hin) as Hno. simpl in Hno.
  now rewrite bool_decide_eq_true_2 in Hno.
Qed.

Lemma py_insert_length {A} (i : nat) (x : A) (l : list A) :
  length (py_insert i x l) = S (length l).
Proof.
  unfold py_insert. rewrite length_app, length_take. simpl.
  rewrite length_drop. lia.
Qed.

Lemma np_eye_length (n : nat) : length (np_eye n) = n.
Proof. unfold np_eye. now rewrite length_map, length_seq. Qed.

Lemma encoded_by_insertion (training_data : TrainingData)
      (d : list (string * nat)) :
  (forall kv, kv ∈ d -> In (fst kv) (map ex_intent training_data)) ->
  forall acc,
  exists encoded,
    fold_left
      (fun acc kv =>
         match acc with
         | inl e => inl e
         | inr encoded =>
           match _find_example_for_intent (fst kv) training_data with
           | None => err AttributeError
           | Some ex => ok (py_insert (snd kv) (ex_intent_features ex) encoded)
           end
         end) d (ok acc) = ok encoded
    /\ length encoded = (length acc + length d)%nat.
Proof.
  induction d as [| kv d IH]; intros Hkeys acc; simpl.
  - exists acc. split; [reflexivity | lia].
  - destruct (_find_example_for_intent_Some training_data (fst kv)) as [ex Hex].
    { apply Hkeys. left. }
    rewrite Hex.
    destruct (IH (fun kv' Hin => Hkeys kv' (list_elem_of_further _ _ _ Hin))
                 (py_insert (snd kv) (ex_intent_features ex) acc))
      as (encoded & Hfold & Hlen).
    exists encoded. split; [exact Hfold |].
    rewrite Hlen, py_insert_length. lia.
Qed.

(** [_create_encoded_intents] never raises on the dictionary built from
    the same data, and yields one row per distinct intent. *)
Lemma _create_encoded_intents_ok (h : Hyper) (training_data : TrainingData) :
  exists encoded,
    _create_encoded_intents h (_create_intent_dict training_data) training_data
    = ok encoded
    /\ length encoded = size (distinct_intents training_data).
Proof.
  unfold _create_encoded_intents.
  destruct (intent_tokenization_flag h).
  - destruct (encoded_by_insertion training_data
                (_create_intent_dict training_data)) with (acc := @nil array)
      as (encoded & Hfold & Hlen).
    + intros [label idx] Hin. simpl. apply sorted_elem_of.
      unfold _create_intent_dict in Hin. now apply elem_of_zip_l in Hin.
    + exists encoded. split; [exact Hfold |].
      now rewrite Hlen, _create_intent_dict_length.
  - eexists. split; [reflexivity |].
    now rewrite length_map, np_eye_length, _create_intent_dict_length.
Qed.

Lemma dict_get_zip (labels : list string) (key : string) :
  key ∈ labels ->
  forall start,
  exists idx,
    dict_get (zip labels (seq start (length labels))) key = Some idx
    /\ (idx < start + length labels)%nat.
Proof.
  induction labels as [| label labels IH]; intros Hin start.
  - now apply elem_of_nil in Hin.
  - simpl. destruct (bool_decide (label = key)) eqn:Hdec.
    + exists start. split; [reflexivity | lia].
    + apply bool_decide_eq_false in Hdec.
      apply elem_of_cons in Hin as [-> | Hin]; [congruence |].
      destruct (IH Hin (S start)) as (idx & Hget & Hlt).
      exists idx. split; [exact Hget | lia].
Qed.

(** [_prepare_data_for_training] never raises on the dictionary and the
    encoded intents built from the same data; [X] holds the text
    features and [Y] has one row per example. *)
Lemma _prepare_data_for_training_ok (h : Hyper) (encoded : list array)
      (training_data : TrainingData) :
  length encoded = size (distinct_intents training_data) ->
  exists Y intents_for_X,
    _prepare_data_for_training h encoded training_data
                               (_create_intent_dict training_data)
    = ok (map ex_text_features training_data, Y, intents_for_X)
    /\ length Y = length training_data.
Proof.
  intros Hlen. unfold _prepare_data_for_training.
  destruct (mapM (fun e => dict_get (_create_intent_dict training_data)
                                    (ex_intent e)) training_data)
    as [intents_for_X |] eqn:Hids.
  - destruct (intent_tokenization_flag h).
    + do 2 eexists. split; [reflexivity | now rewrite length_map].
    + destruct (mapM (fun intent_idx => encoded !! intent_idx) intents_for_X)
        as [Y |] eqn:HY.
      * do 2 eexists. split; [reflexivity |].
        apply length_mapM in HY. apply length_mapM in Hids. congruence.
      * exfalso. apply mapM_None in HY. apply Exists_exists in HY
          as (idx & Hin & Hnone).
        apply mapM_Some in Hids.
        apply list_elem_of_lookup in Hin as [i Hi].
        destruct (Forall2_lookup_r _ _ _ _ _ Hids Hi) as (e & He & Hget).
        apply list_elem_of_lookup_2 in He.
        unfold _create_intent_dict in Hget.
        destruct (dict_get_zip (sorted (distinct_intents training_data))
                               (ex_intent e)) with (start := 0%nat)
          as (idx' & Hget' & Hlt).
        { apply sorted_elem_of, in_map, list_elem_of_In, He. }
        rewrite Hget' in Hget. injection Hget as ->.
        rewrite sorted_length, <- Hlen in Hlt.
        apply lookup_ge_None in Hnone. lia.
  - exfalso. apply mapM_None in Hids. apply Exists_exists in Hids
      as (e & Hin & Hnone).
    unfold _create_intent_dict in Hnone.
    destruct (dict_get_zip (sorted (distinct_intents training_data))
                           (ex_intent e)) with (start := 0%nat)
      as (idx & Hget & _).
    { apply sorted_elem_of, in_map, list_elem_of_In, Hin. }
    congruence.
Qed.

Lemma distinct_intents_nonempty (training_data : TrainingData) :
  (1 <= size (distinct_intents training_data))%nat ->
  training_data <> [].
Proof.
  intros Hsize ->. unfold distinct_intents in Hsize.
  change (1 <= size (∅ : gset string))%nat in Hsize.
  rewrite size_empty in Hsize. lia.
Qed.

End Data.

(** ** [train] *)

Section Train.
Context `{External}.

Ltac wp_upto_lift :=
  repeat lazymatch goal with
         | |- wp (lift _) _ _ => fail
         | |- _ => wp_step
         end.

Ltac not_wp :=
  lazymatch goal with
  | |- wp _ _ _ => fail
  | |- _ => idtac
  end.

Ltac leaf :=
  not_wp; cbn [self logged files]; simpl;
  repeat match goal with
         | |- _ /\ _ => split
         end;
  try reflexivity; try discriminate; try (right; eexists; reflexivity);
  try (left; reflexivity); eauto.

(** C1, what the code does: on data with at least two distinct intents
    [train] never returns to its caller.  It raises, or it reaches the
    [exit()] placed right after the epoch loop; either way the
    all-intents embedding table and the [sim_all] op are left as they
    were before the call. *)
Theorem train_never_returns (training_data : TrainingData) (w : World) :
  (2 <= size (distinct_intents training_data))%nat ->
  (fst (train training_data w) = Exited
   \/ exists e, fst (train training_data w) = Raised e)
  /\ sim_all (self (snd (train training_data w))) = sim_all (self w)
  /\ all_intents_embed_values (self (snd (train training_data w)))
     = all_intents_embed_values (self w).
Proof.
  intros Hsize.
  change (wp (train training_data)
             (fun o w' => (o = Exited \/ exists e, o = Raised e)
                          /\ sim_all (self w') = sim_all (self w)
                          /\ all_intents_embed_values (self w')
                             = all_intents_embed_values (self w)) w).
  unfold train. cbv zeta.
  rewrite _create_intent_dict_length.
  destruct (Nat.ltb_spec (size (distinct_intents training_data)) 2); [lia |].
  repeat (wp_step; try solve [leaf]).
  all: eapply wp_mono; [| apply _train_tf_dataset_frame].
  all: intros o w' [[sess Hself] _]; cbn [self] in Hself.
  all: destruct o; cbv beta iota;
    [| rewrite Hself; leaf | rewrite Hself; leaf].
  all: repeat (wp_step; try solve [rewrite Hself; leaf]).
Qed.


(** C5: with fewer than two distinct intents [train] only logs an error
    and returns, leaving every attribute of the instance as it was; on
    such an instance without a session, [process] then sets the intent
    to the null prediction with confidence 0.0 and an empty ranking. *)
Theorem too_few_intents_skip_training (training_data : TrainingData)
        (message : Message) (w : World) :
  (size (distinct_intents training_data) < 2)%nat ->
  session (self w) = None ->
  exists w1 w2,
    train training_data w = (Returned tt, w1)
    /\ self w1 = self w /\ files w1 = files w
    /\ (exists text, logged w1 = (logged w ++ [(ERROR, text)])%list)
    /\ process message w1
       = (Returned {| msg_text_features := msg_text_features message;
                      msg_intent := Some {| pred_name := None;
                                            pred_confidence := 0%R |};
                      msg_intent_ranking := Some [] |}, w2)
    /\ self w2 = self w.
Proof.
  intros Hsize Hsession. unfold train. cbv zeta.
  rewrite _create_intent_dict_length.
  destruct (Nat.ltb_spec (size (distinct_intents training_data)) 2); [| lia].
  do 2 eexists. split; [reflexivity |].
  split; [reflexivity |]. split; [reflexivity |].
  split; [eexists; reflexivity |].
  unfold process, bind, get_self. cbn [self fst snd]. rewrite Hsession.
  split; reflexivity.
Qed.

Lemma _tf_sim_unsupported (h : Hyper) a b :
  similarity_type h <> "cosine" -> similarity_type h <> "inner" ->
  exists msg, _tf_sim h a b = err (ValueError msg).
Proof.
  intros Hc Hi. unfold _tf_sim.
  rewrite (bool_decide_eq_false_2 _ Hc), (bool_decide_eq_false_2 _ Hi).
  eexists. reflexivity.
Qed.

(** C6: when [train] gets past its input checks on data with [n >= 2]
    distinct intents, [num_neg] becomes the minimum of its configured
    value and [n - 1], and nothing later in [train] changes it. *)
Theorem num_neg_clamped (training_data : TrainingData) (w : World) :
  let n := Z.of_nat (size (distinct_intents training_data)) in
  2 <= n ->
  fst (train training_data w)
  <> Raised (ValueError "If embeddings are shared text features and intent features must coincide") ->
  num_neg (hp (self (snd (train training_data w)))) <= n - 1
  /\ (num_neg (hp (self w)) <= n - 1 ->
      num_neg (hp (self (snd (train training_data w)))) = num_neg (hp (self w))).
Proof.
  intros n Hsize.
  cut (wp (train training_data)
          (fun o w' =>
             o <> Raised (ValueError "If embeddings are shared text features and intent features must coincide") ->
             num_neg (hp (self w')) = Z.min (num_neg (hp (self w))) (n - 1)) w).
  { unfold wp. intros Hwp Hne. rewrite (Hwp Hne). lia. }
  unfold train. cbv zeta.
  rewrite _create_intent_dict_length.
  destruct (Nat.ltb_spec (size (distinct_intents training_data)) 2); [lia |].
  wp_upto_lift. apply wp_lift.
  destruct (_create_encoded_intents_ok
              (hp (set_inv_intent_dict
                     (Some (invert_dict (_create_intent_dict training_data)))
                     (self w))) training_data) as (encoded & -> & Hlen).
  cbv beta iota delta [ok]. wp_upto_lift. apply wp_lift.
  destruct (_prepare_data_for_training_ok
              (hp (set_inv_intent_dict
                     (Some (invert_dict (_create_intent_dict training_data)))
                     (self w))) encoded training_data Hlen)
    as (Y & ids & -> & HY).
  cbv beta iota zeta delta [ok]. cbn [fst snd].
  assert (Hdata : training_data <> []) by (apply distinct_intents_nonempty; lia).
  destruct training_data as [| ex training_data]; [congruence |].
  destruct Y as [| y0 Y]; [discriminate |]. cbn [map].
  assert (Hn : Z.of_nat (length encoded) - 1 = n - 1) by (unfold n; lia).
  do 3 wp_step.
  wp_step; [wp_step; [wp_step; intros Hne; exfalso; apply Hne; reflexivity |] |].
  all: repeat (wp_step; try solve [not_wp; intros _; simpl; now rewrite Hn]).
  all: eapply wp_mono; [| apply _train_tf_dataset_frame].
  all: intros o w' [[sess Hself] _]; cbn [self] in Hself.
  all: assert (Hw' : num_neg (hp (self w'))
                     = Z.min (num_neg (hp (self w))) (n - 1))
      by (rewrite Hself; simpl; now rewrite Hn).
  all: destruct o; cbv beta iota; try (intros _; exact Hw').
  all: repeat (wp_step; try solve [not_wp; intros _; exact Hw']).
Qed.

(** C7, as the code has it: selecting more than one of [gpu_lstm],
    [fused_lstm], [transformer], or sharing embeddings with different
    hidden-layer size lists, makes the constructor raise; an unsupported
    similarity type is not looked at by the constructor, and is reported
    by [train] on data with at least two intents, which then raises
    without having created a session. *)
Theorem configuration_errors (config : Config) (training_data : TrainingData)
        (w : World) :
  ((2 <= length (List.filter (fun flag : bool => flag)
                             [cfg_gpu_lstm config; cfg_fused_lstm config;
                              cfg_transformer config]))%nat ->
   exists e, __init__ config = err e)
  /\ (cfg_share_embedding config = true ->
      cfg_hidden_layers_sizes_a config <> cfg_hidden_layers_sizes_b config ->
      exists e, __init__ config = err e)
  /\ (similarity_type (hp (self w)) <> "cosine" ->
      similarity_type (hp (self w)) <> "inner" ->
      (2 <= size (distinct_intents training_data))%nat ->
      (exists e, fst (train training_data w) = Raised e)
      /\ session (self (snd (train training_data w))) = session (self w)).
Proof.
  split; [| split].
  - intros Hflags. unfold __init__.
    destruct _check_tensorflow; [eexists; reflexivity |].
    unfold _load_params, _load_nn_architecture_params.
    destruct (cfg_share_embedding config
              && negb (list_Z_eqb (cfg_hidden_layers_sizes_a config)
                                  (cfg_hidden_layers_sizes_b config)));
      [eexists; reflexivity |].
    destruct (cfg_gpu_lstm config), (cfg_fused_lstm config),
      (cfg_transformer config); simpl in Hflags; try lia;
      eexists; reflexivity.
  - intros Hshare Hsizes. unfold __init__.
    destruct _check_tensorflow; [eexists; reflexivity |].
    unfold _load_params, _load_nn_architecture_params, list_Z_eqb.
    rewrite Hshare, (bool_decide_eq_false_2 _ Hsizes).
    eexists. reflexivity.
  - intros Hcos Hinner Hsize.
    change (wp (train training_data)
               (fun o w' => (exists e, o = Raised e)
                            /\ session (self w') = session (self w)) w).
    unfold train. cbv zeta.
    rewrite _create_intent_dict_length.
    destruct (Nat.ltb_spec (size (distinct_intents training_data)) 2); [lia |].
    repeat (lazymatch goal with
            | |- wp (lift (_tf_sim _ _ _)) _ _ => fail
            | |- _ => wp_step
            end;
            try solve [not_wp; cbn [self]; simpl; split; [eexists |]; reflexivity]).
    all: apply wp_lift.
    all: match goal with
         | |- context [_tf_sim ?h ?a ?b] =>
           destruct (_tf_sim_unsupported h a b Hcos Hinner) as [msg ->]
         end.
    all: cbn [self]; simpl; split; [eexists |]; reflexivity.
Qed.

End Train.

(** ** Negative sampling *)

Section Sampling.
Context `{External}.

Lemma comprehension_kept {A} (cond : A -> result bool) (l kept : list A) :
  comprehension cond l = ok kept ->
  forall x, x ∈ kept -> x ∈ l /\ cond x = ok true.
Proof.
  revert kept. induction l as [| y l IH]; intros kept Hc x Hx; simpl in Hc.
  - injection Hc as <-. now apply elem_of_nil in Hx.
  - destruct (cond y) as [e | keep] eqn:Hy; [discriminate |].
    destruct (comprehension cond l) as [e | kept'] eqn:Hl; [discriminate |].
    injection Hc as <-. destruct keep.
    + apply elem_of_cons in Hx as [-> | Hx].
      * split; [left | exact Hy].
      * destruct (IH kept' eq_refl x Hx). split; [now right | assumption].
    + destruct (IH kept' eq_refl x Hx). split; [now right | assumption].
Qed.

Lemma np_random_choice_elem (a : list nat) (size : Z) (rnd : nat -> nat)
      (negs : list nat) :
  np_random_choice a size rnd = ok negs ->
  forall i, i ∈ negs -> i ∈ a.
Proof.
  unfold np_random_choice. intros Hc i Hi.
  destruct (size <? 0); [discriminate |].
  destruct a as [| x a].
  - destruct (size =? 0); [| discriminate].
    injection Hc as <-. now apply elem_of_nil in Hi.
  - injection Hc as <-.
    apply list_elem_of_In, in_map_iff in Hi as (k & <- & _).
    apply list_elem_of_lookup_total_2.
    exact (Nat.mod_upper_bound (rnd k) (length (x :: a)) ltac:(discriminate)).
Qed.

(** Strategy (a): without the IoU table, no index drawn by
    [_create_batch_b] for a batch row is that row's own intent id. *)
Lemma _create_batch_b_excludes_true_intent (c : Classifier)
      (intent_ids : list nat) (rnd : nat -> nat -> nat) (b : nat)
      (negs : list nat) (intent_id : nat) :
  use_iou (hp c) = false ->
  _create_batch_b_negs c intent_ids rnd b = ok negs ->
  intent_ids !! b = Some intent_id ->
  forall i, i ∈ negs -> i <> intent_id.
Proof.
  unfold _create_batch_b_negs. intros Hiou Hnegs Hid i Hi.
  destruct (encoded_all_intents c) as [encoded |]; [| discriminate].
  rewrite Hid, Hiou in Hnegs.
  destruct (comprehension _ _) as [e | negative_indexes] eqn:Hpool;
    [discriminate |].
  apply (np_random_choice_elem _ _ _ _ Hnegs) in Hi.
  destruct (comprehension_kept _ _ _ Hpool i Hi) as [_ Hcond].
  injection Hcond as Hcond. apply negb_true_iff, Nat.eqb_neq in Hcond.
  exact Hcond.
Qed.

(** Strategy (b): without the IoU table, no batch position drawn by
    [_negs_from_batch] holds a row equal to the anchor's own row. *)
Lemma _negs_from_batch_excludes_equal_rows (c : Classifier)
      (batch_pos_b : list array) (intent_ids : list nat)
      (rnd : nat -> nat -> nat) (b : nat) (negs_ids : list nat) :
  use_iou (hp c) = false ->
  _negs_from_batch_ids c batch_pos_b intent_ids rnd b = ok negs_ids ->
  forall j, j ∈ negs_ids ->
    exists row_j row_b,
      batch_pos_b !! j = Some row_j /\ batch_pos_b !! b = Some row_b
      /\ array_equal row_j row_b = false.
Proof.
  unfold _negs_from_batch_ids. intros Hiou Hnegs j Hj. rewrite Hiou in Hnegs.
  destruct (comprehension _ _) as [e | negative_indexes] eqn:Hpool;
    [discriminate |].
  apply (np_random_choice_elem _ _ _ _ Hnegs) in Hj.
  destruct (comprehension_kept _ _ _ Hpool j Hj) as [_ Hcond].
  destruct (batch_pos_b !! j) as [row_j |]; [| discriminate].
  destruct (batch_pos_b !! b) as [row_b |]; [| discriminate].
  injection Hcond as Hcond. apply negb_true_iff in Hcond.
  now exists row_j, row_b.
Qed.

(** With the IoU option on and no table assigned, both samplers raise
    on a non-empty candidate range instead of drawing anything. *)
Lemma samplers_raise_without_iou_table (c : Classifier)
      (batch_pos_b : list array) (intent_ids : list nat)
      (rnd : nat -> nat -> nat) (b : nat) (id0 : nat) (row : array) :
  use_iou (hp c) = true -> iou c = None ->
  intent_ids !! 0%nat = Some id0 -> intent_ids !! b = Some id0 ->
  batch_pos_b !! 0%nat = Some row ->
  _negs_from_batch_ids c batch_pos_b intent_ids rnd b = err TypeError.
Proof.
  unfold _negs_from_batch_ids. intros -> Hnone H0 Hb Hrow.
  destruct batch_pos_b as [| r rest]; [discriminate |].
  simpl. rewrite H0, Hb, Hnone. reflexivity.
Qed.


End Sampling.

(** ** Persistence *)

Section Persist.
Context `{External}.

Lemma string_app_inv_head (a x y : string) : a ++ x = a ++ y -> x = y.
Proof.
  induction a as [| ch a IH]; simpl; intros Heq; [exact Heq |].
  injection Heq as Heq. exact (IH Heq).
Qed.

Lemma os_path_join_inj (dir x y : string) :
  os_path_join dir x = os_path_join dir y -> x = y.
Proof.
  unfold os_path_join.
  destruct (last (list_ascii_of_string dir)) as [ch |]; [| exact (fun e => e)].
  destruct (is_slash ch); intros Heq.
  - exact (string_app_inv_head _ _ _ Heq).
  - apply string_app_inv_head in Heq. exact (string_app_inv_head _ _ _ Heq).
Qed.

Lemma persisted_paths_differ (dir suffix suffix' : string) :
  suffix <> suffix' ->
  os_path_join dir (name ++ suffix) <> os_path_join dir (name ++ suffix').
Proof.
  intros Hne Heq. apply Hne.
  exact (string_app_inv_head _ _ _ (os_path_join_inj _ _ _ Heq)).
Qed.

(** C8: without a session [persist] returns the null reference and
    touches nothing.  With a session, a graph and both placeholders,
    and a model directory that can be created or already exists, it
    returns the checkpoint's name and leaves exactly five artifacts
    behind: the checkpoint, the placeholder dimensions, the inverse
    intent dictionary, the encoded intents and the all-intents embedding
    values; every other file is as before. *)
Theorem persist_artifacts (model_dir : string) (w : World) :
  (session (self w) = None -> persist model_dir w = (Returned None, w))
  /\ (forall vars g a b a_dim b_dim,
        session (self w) = Some vars ->
        graph (self w) = Some g ->
        a_in (self w) = Some a -> t_last_dim a = Some a_dim ->
        b_in (self w) = Some b -> t_last_dim b = Some b_dim ->
        (os_makedirs (os_path_dirname (os_path_join model_dir (name ++ ".ckpt")))
         = None
         \/ os_makedirs (os_path_dirname (os_path_join model_dir (name ++ ".ckpt")))
            = Some EEXIST) ->
        exists g' w',
          persist model_dir w = (Returned (Some (name ++ ".ckpt")), w')
          /\ self w' = set_graph (Some g') (self w)
          /\ logged w' = logged w
          /\ files w' !! os_path_join model_dir (name ++ ".ckpt")
             = Some (Checkpoint vars g')
          /\ files w' !! os_path_join model_dir (name ++ "_placeholder_dims.pkl")
             = Some (PlaceholderDims a_dim b_dim)
          /\ files w' !! os_path_join model_dir (name ++ "_inv_intent_dict.pkl")
             = Some (PickledInvIntentDict (inv_intent_dict (self w)))
          /\ files w' !! os_path_join model_dir (name ++ "_encoded_all_intents.pkl")
             = Some (PickledEncodedAllIntents (encoded_all_intents (self w)))
          /\ files w' !! os_path_join model_dir
                           (name ++ "_all_intents_embed_values.pkl")
             = Some (PickledAllIntentsEmbedValues
                       (all_intents_embed_values (self w)))
          /\ forall path,
               path <> os_path_join model_dir (name ++ ".ckpt") ->
               path <> os_path_join model_dir (name ++ "_placeholder_dims.pkl") ->
               path <> os_path_join model_dir (name ++ "_inv_intent_dict.pkl") ->
               path <> os_path_join model_dir (name ++ "_encoded_all_intents.pkl") ->
               path <> os_path_join model_dir
                         (name ++ "_all_intents_embed_values.pkl") ->
               files w' !! path = files w !! path).
Proof.
  split.
  - intros Hsession. unfold persist, bind, get_self. cbn [fst snd].
    rewrite Hsession. destruct w; reflexivity.
  - intros vars g a b a_dim b_dim Hsession Hgraph Ha Hadim Hb Hbdim Hdir.
    assert (Hrun : exists g',
      wp (persist model_dir)
         (fun o w' =>
            o = Returned (Some (name ++ ".ckpt"))
            /\ w' =
         {| self := set_graph (Some g') (self w);
            logged := logged w;
            files :=
              <[os_path_join model_dir (name ++ "_all_intents_embed_values.pkl")
                := PickledAllIntentsEmbedValues (all_intents_embed_values (self w))]>
              (<[os_path_join model_dir (name ++ "_encoded_all_intents.pkl")
                 := PickledEncodedAllIntents (encoded_all_intents (self w))]>
               (<[os_path_join model_dir (name ++ "_inv_intent_dict.pkl")
                  := PickledInvIntentDict (inv_intent_dict (self w))]>
                (<[os_path_join model_dir (name ++ "_placeholder_dims.pkl")
                   := PlaceholderDims a_dim b_dim]>
                 (<[os_path_join model_dir (name ++ ".ckpt")
                    := Checkpoint vars g']> (files w))))) |}) w).
    { eexists. unfold persist. do 2 wp_step.
      rewrite Hsession, Hgraph, Ha, Hb.
      destruct Hdir as [Hdir | Hdir]; rewrite Hdir;
        change (EEXIST =? EEXIST) with true; cbv iota;
        repeat first [ rewrite Hadim | rewrite Hbdim
                     | wp_step; try discriminate;
                       repeat match goal with
                              | Heq : Some _ = Some _ |- _ =>
                                injection Heq as <-
                              end ];
        (split; reflexivity). }
    destruct Hrun as [g' Hrun]. unfold wp in Hrun.
    destruct (persist model_dir w) as [o w'] eqn:Hp.
    cbn [fst snd] in Hrun. destruct Hrun as [-> ->].
    exists g'. eexists. split; [reflexivity |].
    cbn [self logged files].
    split; [reflexivity |]. split; [reflexivity |].
    repeat split.
    all: try (intros path H1 H2 H3 H4 H5).
    all: repeat first
           [ rewrite lookup_insert_eq; reflexivity
           | rewrite lookup_insert_ne
               by (first [ apply persisted_paths_differ; discriminate
                         | congruence ]) ].
    all: reflexivity.
Qed.

End Persist.

(** ** Inference *)

Section Inference.
Context `{External}.

#[local] Instance Rle_transitive : Transitive Rle.
Proof. intros x y z. apply Rle_trans. Qed.

#[local] Instance Rle_total : Total Rle.
Proof. intros x y. destruct (Rle_or_lt x y); [now left | right; lra]. Qed.

Lemma argsort_length (v : list R) : length (argsort v) = length v.
Proof.
  unfold argsort.
  now rewrite (Permutation_length (merge_sort_Permutation _ _)), length_seq.
Qed.

Lemma argsort_bound (v : list R) (i : nat) :
  i ∈ argsort v -> (i < length v)%nat.
Proof.
  unfold argsort. rewrite (merge_sort_Permutation _ _).
  intros Hi. apply elem_of_seq in Hi. lia.
Qed.














Lemma wp_run {A} (m : M A) (w : World) (a : outcome A) (w' : World) :
  wp m (fun o w1 => o = a /\ w1 = w') w -> m w = (a, w').
Proof.
  unfold wp. destruct (m w) as [o w1]. cbn [fst snd]. now intros [-> ->].
Qed.

Lemma world_eta (w : World) :
  {| self := self w; logged := logged w; files := files w |} = w.
Proof. destruct w; reflexivity. Qed.

Lemma _calculate_message_sim_all_run (X : list array) (w : World)
      vars op values raw :
  session (self w) = Some vars ->
  sim_all (self w) = Some op ->
  all_intents_embed_values (self w) = Some values ->
  t_run op {| env_a := X; env_b := [];
              env_all_intents_embed := values;
              env_is_training := false; env_vars := vars;
              env_rand := random_draws 0 0 |} = ok raw ->
  _calculate_message_sim_all X w
  = (Returned
       (reverse (argsort (concat raw)),
        if bool_decide (similarity_type (hp (self w)) = "cosine") then
          map (fun s => if Rlt_dec s 0 then 0%R else s)
              (reverse (np_sort (concat raw)))
        else if bool_decide (similarity_type (hp (self w)) = "inner") then
          map (fun x => x / reduce_sum (map exp (reverse (np_sort (concat raw)))))%R
              (map exp (reverse (np_sort (concat raw))))
        else reverse (np_sort (concat raw))), w).
Proof.
  intros Hsession Hop Hvalues Hrun. apply wp_run.
  unfold _calculate_message_sim_all. do 2 wp_step.
  rewrite Hsession, Hop, Hvalues.
  do 2 wp_step; [| discriminate]. do 2 wp_step; [| discriminate].
  do 2 wp_step; [| discriminate].
  repeat match goal with
         | Heq : Some _ = Some _ |- _ => injection Heq as <-
         end.
  wp_step. rewrite Hrun. apply wp_lift. cbv beta iota delta [ok].
  apply wp_ret. split; reflexivity.
Qed.




End Inference.

(** ** The properties at concrete inputs *)

Lemma train_never_returns_witness :
  (2 <= size (distinct_intents greet_bye))%nat
  /\ (fst (train greet_bye (toy_untrained "cosine")) = Exited
      \/ exists e, fst (train greet_bye (toy_untrained "cosine")) = Raised e)
  /\ sim_all (self (snd (train greet_bye (toy_untrained "cosine")))) = None.
Proof.
  assert (Hsize : (2 <= size (distinct_intents greet_bye))%nat)
    by (vm_compute; lia).
  destruct (train_never_returns greet_bye (toy_untrained "cosine") Hsize)
    as (Hout & Hsim & _).
  split; [exact Hsize |]. split; [exact Hout | exact Hsim].
Defined.

(** On the toy backend, where no external operation fails, the run on
    two intents ends in [exit()]. *)
Example train_greet_bye_exits :
  fst (train greet_bye (toy_untrained "cosine")) = Exited.
Proof. vm_compute. reflexivity. Qed.

Lemma too_few_intents_skip_training_witness :
  (size (distinct_intents only_greet) < 2)%nat
  /\ exists w1 w2,
       train only_greet (toy_untrained "cosine") = (Returned tt, w1)
       /\ process greeting w1
          = (Returned {| msg_text_features := msg_text_features greeting;
                         msg_intent := Some {| pred_name := None;
                                               pred_confidence := 0%R |};
                         msg_intent_ranking := Some [] |}, w2).
Proof.
  assert (Hsize : (size (distinct_intents only_greet) < 2)%nat)
    by (vm_compute; lia).
  destruct (too_few_intents_skip_training only_greet greeting
              (toy_untrained "cosine") Hsize eq_refl)
    as (w1 & w2 & Htrain & _ & _ & _ & Hprocess & _).
  split; [exact Hsize |]. exists w1, w2. split; [exact Htrain | exact Hprocess].
Defined.

Lemma num_neg_clamped_witness :
  num_neg (hp (self (toy_untrained "cosine"))) = 20
  /\ num_neg (hp (self (snd (train greet_bye (toy_untrained "cosine"))))) <= 1.
Proof.
  split; [reflexivity |].
  assert (Hsize : 2 <= Z.of_nat (size (distinct_intents greet_bye)))
    by (vm_compute; discriminate).
  assert (Hok : fst (train greet_bye (toy_untrained "cosine"))
                <> Raised (ValueError "If embeddings are shared text features and intent features must coincide"))
    by (vm_compute; discriminate).
  exact (proj1 (num_neg_clamped greet_bye (toy_untrained "cosine") Hsize Hok)).
Defined.

Lemma configuration_errors_witness :
  (exists e, __init__ (config_with [64] true true true false
                                   (BatchList [2; 4]) 2 "cosine" 20) = err e)
  /\ (exists e, fst (train greet_bye (toy_untrained "euclidean")) = Raised e)
  /\ session (self (snd (train greet_bye (toy_untrained "euclidean")))) = None.
Proof.
  destruct (configuration_errors
              (config_with [64] true true true false (BatchList [2; 4]) 2
                           "cosine" 20)
              greet_bye (toy_untrained "euclidean")) as (Hflags & Hshare & Hsim).
  assert (H1 := Hflags ltac:(simpl; lia)).
  assert (H2 := Hshare eq_refl ltac:(discriminate)).
  destruct (Hsim ltac:(discriminate) ltac:(discriminate)
                 ltac:(vm_compute; lia)) as [H3 H4].
  split; [exact H1 |]. split; [exact H3 | exact H4].
Defined.

(** On the toy backend the error [train] raises for an unsupported
    similarity type is the [ValueError] of [_tf_sim]. *)
Example train_unsupported_similarity_raises :
  fst (train greet_bye (toy_untrained "euclidean"))
  = Raised (ValueError "Wrong similarity type, should be 'cosine' or 'inner'").
Proof. vm_compute. reflexivity. Qed.

(** C7 as stated fails: the constructor accepts a configuration whose
    similarity type is neither 'cosine' nor 'inner', and training on a
    single intent then returns without any error. *)
Lemma unsupported_similarity_counterexample :
  cfg_similarity_type (similarity_config "euclidean") <> "cosine"
  /\ cfg_similarity_type (similarity_config "euclidean") <> "inner"
  /\ __init__ (similarity_config "euclidean")
     = ok (untrained (load_attributes (similarity_config "euclidean")))
  /\ fst (train only_greet (toy_untrained "euclidean")) = Returned tt.
Proof.
  split; [discriminate |]. split; [discriminate |].
  split; [reflexivity |]. vm_compute. reflexivity.
Qed.

Lemma persist_artifacts_witness :
  persist "models" (toy_untrained "cosine")
  = (Returned None, toy_untrained "cosine")
  /\ exists g' w',
       persist "models" toy_trained
       = (Returned (Some "intent_classifier_tensorflow_embedding.ckpt"), w')
       /\ files w' !! "models/intent_classifier_tensorflow_embedding.ckpt"
          = Some (Checkpoint 7%nat g').
Proof.
  split.
  - exact (proj1 (persist_artifacts "models" (toy_untrained "cosine")) eq_refl).
  - destruct (proj2 (persist_artifacts "models" toy_trained)
                    7%nat {| collections := [] |} toy_placeholder toy_placeholder
                    2 2 eq_refl eq_refl eq_refl eq_refl eq_refl eq_refl
                    (or_introl eq_refl))
      as (g' & w' & Hrun & _ & _ & Hckpt & _).
    exists g', w'. split; [exact Hrun | exact Hckpt].
Defined.


(* ===================================================================== *)
(** * Part III. Further properties of the code                            *)
(* ===================================================================== *)

(** ** Construction and hyperparameters *)

Section Construction.
Context `{External}.

Lemma any_differs_from_first_false (sizes : list Z) :
  any_differs_from_first sizes = false
  <-> forall first, head sizes = Some first -> Forall (fun size => size = first) sizes.
Proof.
  destruct sizes as [| first sizes]; simpl.
  - split; [intros _ first Hf; discriminate | reflexivity].
  - rewrite Z.eqb_refl. simpl. split.
    + intros Hno first' Hf. injection Hf as <-. constructor; [reflexivity |].
      apply Forall_forall. intros size Hin.
      destruct (Z.eqb_spec first size) as [-> | Hne]; [reflexivity |].
      exfalso. apply list_elem_of_In in Hin.
      assert (Hex : existsb (fun size0 => negb (first =? size0)) sizes = true).
      { apply existsb_exists. exists size. split; [exact Hin |].
        apply negb_true_iff, Z.eqb_neq, Hne. }
      congruence.
    + intros Hall. specialize (Hall first eq_refl).
      apply Forall_inv_tail in Hall.
      destruct (existsb _ sizes) eqn:Hex; [| reflexivity].
      apply existsb_exists in Hex as (size & Hin & Hne).
      apply negb_true_iff, Z.eqb_neq in Hne.
      apply list_elem_of_In in Hin.
      pose proof (proj1 (Forall_forall _ _) Hall size Hin). congruence.
Qed.

(** X1: The constructor succeeds exactly when TensorFlow was imported,
    shared embeddings come with equal hidden-layer size lists, at most
    one of [gpu_lstm], [fused_lstm], [transformer] is set, and with
    [gpu_lstm] or [transformer] every hidden layer of a side has the
    size of the first one; the instance it returns is untrained. *)
Theorem __init___succeeds_iff (config : Config) :
  (exists c, __init__ config = ok c)
  <-> (tf_imported = true
       /\ (cfg_share_embedding config = true ->
           cfg_hidden_layers_sizes_a config = cfg_hidden_layers_sizes_b config)
       /\ (length (List.filter (fun flag : bool => flag)
                               [cfg_gpu_lstm config; cfg_fused_lstm config;
                                cfg_transformer config]) <= 1)%nat
       /\ (cfg_gpu_lstm config || cfg_transformer config = true ->
           forall sizes first,
             sizes = cfg_hidden_layers_sizes_a config
             \/ sizes = cfg_hidden_layers_sizes_b config ->
             head sizes = Some first ->
             Forall (fun size => size = first) sizes)).
Proof.
  unfold __init__, _check_tensorflow, _load_params,
    _load_nn_architecture_params, list_Z_eqb.
  destruct tf_imported; [| split; [intros [c Hc]; discriminate
                                   | intros [Hf _]; discriminate]].
  destruct (cfg_share_embedding config) eqn:Hshare; simpl.
  - destruct (decide (cfg_hidden_layers_sizes_a config
                      = cfg_hidden_layers_sizes_b config)) as [Heq | Hne].
    2:{ rewrite (bool_decide_eq_false_2 _ Hne). simpl.
        split; [intros [c Hc]; discriminate |].
        intros (_ & Hs & _). exfalso. apply Hne, Hs. reflexivity. }
    rewrite (bool_decide_eq_true_2 _ Heq). simpl.
    destruct (cfg_gpu_lstm config), (cfg_fused_lstm config),
      (cfg_transformer config); simpl;
      try (split; [intros [c Hc]; discriminate
                  | intros (_ & _ & Hflags & _); simpl in Hflags; lia]).
    all: repeat match goal with
           | |- context [any_differs_from_first ?l] =>
             let Hd := fresh "Hd" in
             destruct (any_differs_from_first l) eqn:Hd
           end; simpl.
    all: try (split; [intros _; repeat split; auto; try (simpl; lia);
                      try (intros _ sizes first [-> | ->]);
                      try discriminate;
                      try (apply any_differs_from_first_false; assumption)
                     | intros _; eexists; reflexivity]).
    all: split; [intros [c Hc]; discriminate |].
    all: intros (_ & _ & _ & Hsizes).
    all: try (assert (Hno : any_differs_from_first
                              (cfg_hidden_layers_sizes_a config) = false)
               by (apply any_differs_from_first_false; intros first Hf;
                   exact (Hsizes eq_refl _ first (or_introl eq_refl) Hf));
              congruence).
    all: assert (Hno : any_differs_from_first
                         (cfg_hidden_layers_sizes_b config) = false)
        by (apply any_differs_from_first_false; intros first Hf;
            exact (Hsizes eq_refl _ first (or_intror eq_refl) Hf));
      congruence.
  - destruct (cfg_gpu_lstm config), (cfg_fused_lstm config),
      (cfg_transformer config); simpl;
      try (split; [intros [c Hc]; discriminate
                  | intros (_ & _ & Hflags & _); simpl in Hflags; lia]).
    all: repeat match goal with
           | |- context [any_differs_from_first ?l] =>
             let Hd := fresh "Hd" in
             destruct (any_differs_from_first l) eqn:Hd
           end; simpl.
    all: try (split; [intros _; repeat split; auto; try (simpl; lia);
                      try discriminate;
                      try (intros _ sizes first [-> | ->]);
                      try discriminate;
                      try (apply any_differs_from_first_false; assumption)
                     | intros _; eexists; reflexivity]).
    all: split; [intros [c Hc]; discriminate |].
    all: intros (_ & _ & _ & Hsizes).
    all: try (assert (Hno : any_differs_from_first
                              (cfg_hidden_layers_sizes_a config) = false)
               by (apply any_differs_from_first_false; intros first Hf;
                   exact (Hsizes eq_refl _ first (or_introl eq_refl) Hf));
              congruence).
    all: assert (Hno : any_differs_from_first
                         (cfg_hidden_layers_sizes_b config) = false)
        by (apply any_differs_from_first_false; intros first Hf;
            exact (Hsizes eq_refl _ first (or_intror eq_refl) Hf));
      congruence.
Qed.

End Construction.

(** X2: After the loaders have run, the evaluation period is at least 1
    whenever there is at least one epoch (so the training loop's
    [(ep + 1) % evaluate_every_num_epochs] never divides by zero),
    [gpu_lstm] switches the accuracy evaluation off, and intent
    tokenization stays on only with a non-empty split symbol. *)
Theorem load_attributes_invariants (config : Config) :
  (1 <= cfg_epochs config ->
   1 <= evaluate_every_num_epochs (load_attributes config))
  /\ (cfg_gpu_lstm config = true ->
      evaluate_on_num_examples (load_attributes config) = 0)
  /\ (intent_tokenization_flag (load_attributes config) = true ->
      cfg_intent_tokenization_flag config = true
      /\ intent_split_symbol (load_attributes config) <> "").
Proof.
  unfold load_attributes. cbn [evaluate_every_num_epochs
    evaluate_on_num_examples intent_tokenization_flag intent_split_symbol].
  split; [| split].
  - intros Hep. destruct (Z.ltb_spec (cfg_evaluate_every_num_epochs config) 1); lia.
  - intros ->. reflexivity.
  - destruct (cfg_intent_tokenization_flag config); [| discriminate].
    destruct (bool_decide (cfg_intent_split_symbol config = "")) eqn:Hd;
      [discriminate |].
    intros _. split; [reflexivity |]. now apply bool_decide_eq_false in Hd.
Qed.

Lemma load_attributes_invariants_witness :
  1 <= evaluate_every_num_epochs
         (load_attributes
            (config_with [] false false true false (BatchList [2; 4]) 2
                         "cosine" 20))
  /\ evaluate_on_num_examples
       (load_attributes
          (config_with [] false false true false (BatchList [2; 4]) 2
                       "cosine" 20)) = 0
  /\ intent_split_symbol
       (load_attributes
          (config_with [] false false true false (BatchList [2; 4]) 2
                       "cosine" 20)) <> "".
Proof.
  destruct (load_attributes_invariants
              (config_with [] false false true false (BatchList [2; 4]) 2
                           "cosine" 20)) as (H1 & H2 & H3).
  split; [apply H1; simpl; lia |].
  split; [apply H2; reflexivity |].
  exact (proj2 (H3 eq_refl)).
Defined.

(** ** Batch size, further *)







(** X4: A [batch_size] that is not a list is returned as it is at every
    epoch, odd or even; a list too short for the branch taken raises
    [IndexError]: fewer than two entries with more than one epoch, no
    entry otherwise. *)
Theorem batch_size_scalar_and_short_lists (h : Hyper) (epoch : Z) :
  (forall b, batch_size h = BatchInt b ->
             _linearly_increasing_batch_size h epoch = ok b)
  /\ (forall l, batch_size h = BatchList l -> 1 < epochs h ->
                (length l < 2)%nat ->
                _linearly_increasing_batch_size h epoch = err IndexError)
  /\ (batch_size h = BatchList [] ->
      _linearly_increasing_batch_size h epoch = err IndexError).
Proof.
  unfold _linearly_increasing_batch_size. split; [| split].
  - intros b ->. reflexivity.
  - intros l -> Hep Hlen. destruct (Z.ltb_spec 1 (epochs h)); [| lia].
    destruct l as [| x [| y l]]; simpl in Hlen; try reflexivity; lia.
  - intros ->. destruct (1 <? epochs h); reflexivity.
Qed.

Lemma batch_size_scalar_and_short_lists_witness :
  _linearly_increasing_batch_size
    (load_attributes
       (config_with [] false false false false (BatchInt 7) 5 "cosine" 20)) 3
  = ok 7
  /\ _linearly_increasing_batch_size
       (load_attributes
          (config_with [] false false false false (BatchList [8]) 5 "cosine" 20)) 3
     = err IndexError.
Proof.
  split.
  - exact (proj1 (batch_size_scalar_and_short_lists
                    (load_attributes
                       (config_with [] false false false false (BatchInt 7) 5
                                    "cosine" 20)) 3) 7 eq_refl).
  - exact (proj1 (proj2 (batch_size_scalar_and_short_lists
                    (load_attributes
                       (config_with [] false false false false (BatchList [8]) 5
                                    "cosine" 20)) 3))
                 [8] eq_refl ltac:(simpl; lia) ltac:(simpl; lia)).
Defined.

(** ** Intent dictionary and training data *)

Section Dictionary.
Context `{External}.

Lemma sorted_NoDup (s : gset string) : NoDup (sorted s).
Proof.
  unfold sorted. rewrite (merge_sort_Permutation _ _). apply NoDup_elements.
Qed.

Lemma elem_of_zip_seq {A} (l : list A) (k : A) (v start : nat) :
  (k, v) ∈ zip l (seq start (length l))
  <-> exists i, v = (start + i)%nat /\ l !! i = Some k.
Proof.
  revert start. induction l as [| x l IH]; intros start; simpl.
  - split; [intros Hin; now apply elem_of_nil in Hin |].
    intros (i & _ & Hi). discriminate.
  - rewrite elem_of_cons, IH. split.
    + intros [Heq | (i & -> & Hi)].
      * injection Heq as -> ->. exists 0%nat. split; [lia | reflexivity].
      * exists (S i). split; [lia | exact Hi].
    + intros ([| i] & -> & Hi).
      * injection Hi as ->. left. f_equal. lia.
      * right. exists i. split; [lia | exact Hi].
Qed.

Lemma dict_get_elem (d : list (string * nat)) (key : string) (v : nat) :
  dict_get d key = Some v -> (key, v) ∈ d.
Proof.
  induction d as [| [k x] d IH]; simpl; [discriminate |].
  destruct (bool_decide (k = key)) eqn:Hk.
  - apply bool_decide_eq_true in Hk as ->. intros Heq. injection Heq as ->. left.
  - intros Hget. right. exact (IH Hget).
Qed.

Lemma dict_get_NoDup (d : list (string * nat)) (key : string) (v : nat) :
  NoDup (map fst d) -> (key, v) ∈ d -> dict_get d key = Some v.
Proof.
  induction d as [| [k x] d IH]; simpl; intros Hnd Hin.
  - now apply elem_of_nil in Hin.
  - apply NoDup_cons in Hnd as [Hk Hnd].
    apply elem_of_cons in Hin as [Heq | Hin].
    + injection Heq as -> ->. now rewrite bool_decide_eq_true_2.
    + rewrite bool_decide_eq_false_2; [exact (IH Hnd Hin) |].
      intros ->. apply Hk, list_elem_of_In, in_map_iff.
      exists (key, v). split; [reflexivity | now apply list_elem_of_In].
Qed.

Lemma intent_dict_keys (training_data : TrainingData) :
  map fst (_create_intent_dict training_data)
  = sorted (distinct_intents training_data).
Proof.
  unfold _create_intent_dict.
  change (map fst ?l) with (fst <$> l). apply fst_zip. now rewrite length_seq.
Qed.

Lemma intent_dict_values (training_data : TrainingData) :
  map snd (_create_intent_dict training_data)
  = seq 0 (size (distinct_intents training_data)).
Proof.
  unfold _create_intent_dict.
  change (map snd ?l) with (snd <$> l).
  rewrite snd_zip by now rewrite length_seq. now rewrite sorted_length.
Qed.

Lemma intent_dict_lookup (training_data : TrainingData) label idx :
  dict_get (_create_intent_dict training_data) label = Some idx
  <-> sorted (distinct_intents training_data) !! idx = Some label.
Proof.
  split.
  - intros Hget. apply dict_get_elem in Hget. unfold _create_intent_dict in Hget.
    apply elem_of_zip_seq in Hget as (i & -> & Hi). exact Hi.
  - intros Hi. apply dict_get_NoDup.
    + rewrite intent_dict_keys. apply sorted_NoDup.
    + unfold _create_intent_dict. apply elem_of_zip_seq. now exists idx.
Qed.

Lemma invert_dict_lookup (training_data : TrainingData) label idx :
  invert_dict (_create_intent_dict training_data) !! idx = Some label
  <-> sorted (distinct_intents training_data) !! idx = Some label.
Proof.
  unfold invert_dict.
  rewrite <- elem_of_list_to_map.
  - rewrite <- intent_dict_lookup. split.
    + intros Hin. apply list_elem_of_In, in_map_iff in Hin as ([k v] & Heq & Hin).
      simpl in Heq. injection Heq as -> ->.
      apply dict_get_NoDup; [| now apply list_elem_of_In].
      rewrite intent_dict_keys. apply sorted_NoDup.
    + intros Hget. apply dict_get_elem in Hget.
      apply list_elem_of_In, in_map_iff. exists (label, idx).
      split; [reflexivity | now apply list_elem_of_In].
  - change (fst <$> map ?f ?l) with (map fst (map f l)).
    rewrite map_map. simpl.
    change (map (fun x => snd x) ?l) with (map snd l).
    rewrite intent_dict_values. apply NoDup_seq.
Qed.

(** X5: The intent dictionary and its inverse are mutually inverse
    bijections between the labels that occur in the data and the ids
    [0 .. n-1]: [inv_intent_dict[intent_dict[label]] == label] and back. *)
Theorem intent_dict_round_trip (training_data : TrainingData) :
  (forall label idx,
      dict_get (_create_intent_dict training_data) label = Some idx
      <-> invert_dict (_create_intent_dict training_data) !! idx = Some label)
  /\ (forall label,
        In label (map ex_intent training_data)
        <-> is_Some (dict_get (_create_intent_dict training_data) label))
  /\ (forall idx,
        (idx < size (distinct_intents training_data))%nat
        <-> is_Some (invert_dict (_create_intent_dict training_data) !! idx)).
Proof.
  split; [| split].
  - intros label idx. now rewrite intent_dict_lookup, invert_dict_lookup.
  - intros label. rewrite <- sorted_elem_of. split.
    + intros Hin. apply list_elem_of_lookup in Hin as [idx Hidx].
      exists idx. now apply intent_dict_lookup.
    + intros [idx Hidx]. apply intent_dict_lookup in Hidx.
      now apply list_elem_of_lookup_2 in Hidx.
  - intros idx. rewrite <- sorted_length. split.
    + intros Hlt. apply lookup_lt_is_Some in Hlt as [label Hl].
      exists label. now apply invert_dict_lookup.
    + intros [label Hl]. apply invert_dict_lookup in Hl.
      now apply lookup_lt_Some in Hl.
Qed.

(** X6: The dictionary depends only on the set of labels: reordering or
    repeating examples does not change any intent's id; its items list
    the labels in ascending order with the ids [0, 1, ..., n-1]. *)
Theorem intent_dict_canonical (training_data training_data' : TrainingData) :
  ((forall label, In label (map ex_intent training_data)
                  <-> In label (map ex_intent training_data')) ->
   _create_intent_dict training_data = _create_intent_dict training_data')
  /\ Sorted str_le (map fst (_create_intent_dict training_data))
  /\ map snd (_create_intent_dict training_data)
     = seq 0 (size (distinct_intents training_data)).
Proof.
  split; [| split].
  - intros Hsame. unfold _create_intent_dict.
    assert (Hset : distinct_intents training_data
                   = distinct_intents training_data').
    { apply set_eq. intros label. unfold distinct_intents.
      rewrite !elem_of_list_to_set, !list_elem_of_In. apply Hsame. }
    now rewrite Hset.
  - rewrite intent_dict_keys. unfold sorted. apply Sorted_merge_sort.
    intros a b. unfold str_le. apply String.leb_total.
  - apply intent_dict_values.
Qed.


Lemma py_insert_at_end {A} (x : A) (l : list A) :
  py_insert (List.length l) x l = (l ++ [x])%list.
Proof. unfold py_insert. now rewrite take_ge, drop_ge by lia. Qed.

Lemma encoded_in_dictionary_order (training_data : TrainingData)
      (labels : list string) :
  forall acc,
    fold_left
      (fun acc kv =>
         match acc with
         | inl e => inl e
         | inr encoded =>
           match _find_example_for_intent (fst kv) training_data with
           | None => err AttributeError
           | Some ex => ok (py_insert (snd kv) (ex_intent_features ex) encoded)
           end
         end)
      (zip labels (seq (List.length acc) (List.length labels))) (ok acc)
    = match mapM (fun label =>
                    ex_intent_features
                      <$> _find_example_for_intent label training_data) labels with
      | Some rows => ok (acc ++ rows)%list
      | None => err AttributeError
      end.
Proof.
  induction labels as [| label labels IH]; intros acc; simpl.
  - now rewrite app_nil_r.
  - destruct (_find_example_for_intent label training_data) as [ex |]; simpl.
    + rewrite py_insert_at_end.
      replace (S (List.length acc)) with (List.length (acc ++ [ex_intent_features ex])%list)
        by (rewrite length_app; simpl; lia).
      rewrite IH.
      destruct (mapM _ labels); simpl; [now rewrite <- app_assoc | reflexivity].
    + clear IH. generalize (zip labels (seq (S (List.length acc)) (List.length labels))).
      intros l. induction l as [| kv l IHl]; [reflexivity | exact IHl].
Qed.

(** X7: Row [idx] of the encoded intents belongs to the intent with id
    [idx]: with intent tokenization it holds the intent features of the
    first training example carrying that intent, without it the one-hot
    row of [np.eye]; there is one row per distinct intent. *)
Theorem encoded_intents_rows (h : Hyper) (training_data : TrainingData)
        (encoded : list array) :
  _create_encoded_intents h (_create_intent_dict training_data) training_data
  = ok encoded ->
  List.length encoded = size (distinct_intents training_data)
  /\ forall label idx,
       dict_get (_create_intent_dict training_data) label = Some idx ->
       encoded !! idx
       = if intent_tokenization_flag h then
           ex_intent_features
             <$> _find_example_for_intent label training_data
         else
           Some (Vec (map (fun j => if (idx =? j)%nat then 1%Q else 0%Q)
                          (seq 0 (size (distinct_intents training_data))))).
Proof.
  unfold _create_encoded_intents.
  destruct (intent_tokenization_flag h).
  - unfold _create_intent_dict at 1. cbv zeta.
    pose proof (encoded_in_dictionary_order training_data
                  (sorted (distinct_intents training_data)) []) as Hfold.
    cbn [List.length app] in Hfold. rewrite Hfold. clear Hfold.
    destruct (mapM _ (sorted (distinct_intents training_data)))
      as [rows |] eqn:Hrows; [| discriminate].
    intros Heq. injection Heq as <-. simpl.
    split.
    + apply length_mapM in Hrows. now rewrite <- Hrows, sorted_length.
    + intros label idx Hget. apply intent_dict_lookup in Hget.
      apply mapM_Some in Hrows.
      destruct (Forall2_lookup_l _ _ _ _ _ Hrows Hget) as (row & Hrow & Hfind).
      now rewrite Hrow, Hfind.
  - intros Heq. injection Heq as <-.
    rewrite length_map, np_eye_length, _create_intent_dict_length.
    split; [reflexivity |].
    intros label idx Hget. apply intent_dict_lookup in Hget.
    apply lookup_lt_Some in Hget. rewrite sorted_length in Hget.
    unfold np_eye.
    change (map ?f ?l) with (f <$> l) at 1.
    rewrite list_lookup_fmap.
    change (map ?f ?l) with (f <$> l) at 1.
    rewrite list_lookup_fmap, lookup_seq_lt by exact Hget. reflexivity.
Qed.


Lemma lookup_map_Some {A B} (f : A -> B) (l : list A) (i : nat) (x : A) :
  l !! i = Some x -> map f l !! i = Some (f x).
Proof.
  intros Hx. change (map f l) with (f <$> l).
  now rewrite list_lookup_fmap, Hx.
Qed.

(** X8: The three training arrays are aligned with the training examples:
    position [i] holds the text features of example [i], the id its
    intent has in the dictionary (always below the number of intents),
    and as target row either the example's own intent features (intent
    tokenization) or the encoded row of its intent. *)
Theorem prepared_data_aligned (h : Hyper) (training_data : TrainingData)
        (encoded X Y : list array) (intents_for_X : list nat) :
  _prepare_data_for_training h encoded training_data
    (_create_intent_dict training_data) = ok (X, Y, intents_for_X) ->
  List.length X = List.length training_data
  /\ List.length Y = List.length training_data
  /\ List.length intents_for_X = List.length training_data
  /\ forall i ex,
       training_data !! i = Some ex ->
       X !! i = Some (ex_text_features ex)
       /\ exists idx,
            intents_for_X !! i = Some idx
            /\ dict_get (_create_intent_dict training_data) (ex_intent ex)
               = Some idx
            /\ (idx < size (distinct_intents training_data))%nat
            /\ Y !! i = if intent_tokenization_flag h
                        then Some (ex_intent_features ex)
                        else encoded !! idx.
Proof.
  unfold _prepare_data_for_training.
  destruct (mapM _ training_data) as [ids |] eqn:Hids; [| discriminate].
  pose proof (length_mapM _ _ _ Hids) as Hlen.
  apply mapM_Some in Hids.
  assert (Hrow : forall i ex, training_data !! i = Some ex ->
            exists idx, ids !! i = Some idx
              /\ dict_get (_create_intent_dict training_data) (ex_intent ex)
                 = Some idx
              /\ (idx < size (distinct_intents training_data))%nat).
  { intros i ex Hex.
    destruct (Forall2_lookup_l _ _ _ _ _ Hids Hex) as (idx & Hidx & Hget).
    exists idx. repeat split; try assumption.
    apply intent_dict_lookup, lookup_lt_Some in Hget.
    now rewrite sorted_length in Hget. }
  destruct (intent_tokenization_flag h).
  - intros Heq. injection Heq as <- <- <-.
    rewrite !length_map. split; [| split; [| split]]; try congruence.
    intros i ex Hex. split.
    + now apply lookup_map_Some.
    + destruct (Hrow i ex Hex) as (idx & ? & ? & ?).
      exists idx. repeat split; try assumption.
      now apply lookup_map_Some.
  - destruct (mapM _ ids) as [rows |] eqn:Hrows; [| discriminate].
    pose proof (length_mapM _ _ _ Hrows) as Hlen'.
    apply mapM_Some in Hrows.
    intros Heq. injection Heq as <- <- <-.
    rewrite !length_map. split; [| split; [| split]]; try congruence.
    intros i ex Hex. split.
    + now apply lookup_map_Some.
    + destruct (Hrow i ex Hex) as (idx & Hidx & ? & ?).
      exists idx. repeat split; try assumption.
      destruct (Forall2_lookup_l _ _ _ _ _ Hrows Hidx) as (row & Hrow' & Henc).
      congruence.
Qed.

End Dictionary.

Lemma intent_dict_canonical_witness :
  _create_intent_dict greet_bye
  = _create_intent_dict
      [example "bye" [0; 1; 0]%Q [0; 1]%Q; example "greet" [1; 0; 0]%Q [1; 0]%Q].
Proof.
  apply (proj1 (intent_dict_canonical greet_bye
                  [example "bye" [0; 1; 0]%Q [0; 1]%Q;
                   example "greet" [1; 0; 0]%Q [1; 0]%Q])).
  intros label. simpl. tauto.
Defined.


Lemma encoded_intents_rows_witness :
  exists encoded,
    _create_encoded_intents tokenized_hyper (_create_intent_dict greet_bye)
                            greet_bye = ok encoded
    /\ List.length encoded = size (distinct_intents greet_bye).
Proof.
  eexists. split; [vm_compute; reflexivity |].
  apply (encoded_intents_rows tokenized_hyper greet_bye).
  vm_compute. reflexivity.
Defined.

Lemma prepared_data_aligned_witness :
  exists X Y ids,
    _prepare_data_for_training tokenized_hyper [] greet_bye
      (_create_intent_dict greet_bye) = ok (X, Y, ids)
    /\ List.length X = List.length greet_bye.
Proof.
  eexists _, _, _. split; [vm_compute; reflexivity |].
  refine (proj1 (prepared_data_aligned tokenized_hyper greet_bye [] _ _ _ _)).
  vm_compute. reflexivity.
Defined.

(** ** Negative sampling, continued *)

Lemma zip_seq_map {A} (f : nat -> A) (n s : nat) :
  zip (seq s n) (map f (seq s n)) = map (fun j => (j, f j)) (seq s n).
Proof.
  revert s. induction n as [| n IH]; intros s; simpl; [reflexivity |].
  now rewrite IH.
Qed.

Lemma support_elem (f : nat -> Q) (p : Q -> bool) (n j : nat) :
  In j (map fst (List.filter (fun jw => p (snd jw))
                             (zip (seq 0 n) (map f (seq 0 n)))))
  <-> (j < n)%nat /\ p (f j) = true.
Proof.
  rewrite zip_seq_map, in_map_iff. split.
  - intros ([k w] & <- & Hin). apply filter_In in Hin as [Hin Hp].
    apply in_map_iff in Hin as (k' & [= <- <-] & Hk). apply in_seq in Hk.
    simpl in *. split; [lia | exact Hp].
  - intros [Hj Hp]. exists (j, f j). split; [reflexivity |].
    apply filter_In. split; [| exact Hp].
    apply in_map_iff. exists j. split; [reflexivity |]. apply in_seq. lia.
Qed.

Lemma off_diagonal_weight (i j : nat) :
  negb (Qle_bool (1 - (if (i =? j)%nat then 1 else 0)) 0) = true <-> j <> i.
Proof.
  destruct (Nat.eqb_spec i j) as [-> | Hne].
  - split; [discriminate | congruence].
  - split; [congruence | reflexivity].
Qed.

(** X9: The negatives drawn in [train]: in a batch of at least two rows,
    every row gets exactly three ids, each the position of another row
    of the batch, whatever random numbers the sampler consumes. *)
Theorem train_negs_ids_other_rows (b_in_value : list array)
        (rand : nat -> nat -> nat) (i : nat) :
  (2 <= List.length b_in_value)%nat ->
  (i < List.length b_in_value)%nat ->
  List.length (train_negs_ids b_in_value rand) = List.length b_in_value
  /\ exists negs,
       train_negs_ids b_in_value rand !! i = Some negs
       /\ List.length negs = 3%nat
       /\ forall j, j ∈ negs -> (j < List.length b_in_value)%nat /\ j <> i.
Proof.
  intros Hn Hi. unfold train_negs_ids, tf_random_categorical_log.
  set (n := List.length b_in_value) in *.
  split.
  { now rewrite length_imap, length_map, np_eye_length. }
  rewrite list_lookup_imap.
  change (map ?f ?l) with (f <$> l) at 1.
  rewrite list_lookup_fmap. unfold np_eye.
  change (map ?f ?l) with (f <$> l) at 1.
  rewrite list_lookup_fmap, lookup_seq_lt by exact Hi.
  eexists. split; [reflexivity |]. cbv beta zeta.
  change (?f <$> ?l) with (map f l). rewrite map_map.
  match goal with
  | |- context [seq 0 (List.length ?r)] =>
    replace (List.length r) with n by (now rewrite length_map, length_seq)
  end.
  set (support := map fst (List.filter _ _)).
  split; [now rewrite length_map, length_seq |].
  assert (Hsupp : forall j, In j support <-> (j < n)%nat /\ j <> i).
  { intros j. unfold support.
    rewrite (support_elem
               (fun j => 1 - (if (i =? j)%nat then 1 else 0))%Q
               (fun w => negb (Qle_bool w 0)) n j).
    now rewrite off_diagonal_weight. }
  assert (Hlen : (0 < List.length support)%nat).
  { destruct support as [| s0 rest] eqn:Hs; [| simpl; lia].
    exfalso. destruct i as [| i'].
    - apply (proj2 (Hsupp 1%nat)). split; [lia | discriminate].
    - apply (proj2 (Hsupp 0%nat)). split; [lia | discriminate]. }
  intros j Hj. apply list_elem_of_In, in_map_iff in Hj as (k & <- & _).
  apply Hsupp, list_elem_of_In, list_elem_of_lookup_total_2.
  apply Nat.mod_upper_bound. lia.
Qed.

Lemma train_negs_ids_other_rows_witness :
  exists negs,
    train_negs_ids [Vec [1%Q]; Vec [2%Q]; Vec [3%Q]] (fun _ k => k) !! 1%nat
    = Some negs
    /\ forall j, j ∈ negs -> (j < 3)%nat /\ j <> 1%nat.
Proof.
  destruct (train_negs_ids_other_rows [Vec [1%Q]; Vec [2%Q]; Vec [3%Q]]
              (fun _ k => k) 1) as (_ & negs & Hrow & _ & Hnegs).
  - simpl. lia.
  - simpl. lia.
  - exists negs. split; [exact Hrow | exact Hnegs].
Defined.

Lemma for_each_Forall2 {A B} (f : A -> result B) (l : list A) (ys : list B) :
  for_each f l = ok ys -> Forall2 (fun x y => f x = ok y) l ys.
Proof.
  revert ys. induction l as [| x l IH]; intros ys Hl; simpl in Hl.
  - injection Hl as <-. constructor.
  - destruct (f x) as [e | y] eqn:Hx; [discriminate |].
    destruct (for_each f l) as [e | ys'] eqn:Hl'; [discriminate |].
    injection Hl as <-. constructor; [exact Hx | now apply IH].
Qed.

Lemma comprehension_none {A} (cond : A -> result bool) (l : list A) :
  (forall x, x ∈ l -> cond x = ok false) -> comprehension cond l = ok [].
Proof.
  induction l as [| x l IH]; intros Hall; simpl; [reflexivity |].
  rewrite (Hall x) by left.
  rewrite IH; [reflexivity |]. intros y Hy. apply Hall. now right.
Qed.

(** X10: [_create_batch_b] without the IoU table: the result has one entry
    per batch row; entry [b] is the row's own intent followed by
    [num_neg] rows of the encoded intents, none of them the row of the
    intent id of [b]. *)
Theorem _create_batch_b_rows (c : Classifier) (batch_pos_b : list array)
        (intent_ids : list nat) (rnd : nat -> nat -> nat)
        (out : list (list array)) :
  use_iou (hp c) = false ->
  _create_batch_b c batch_pos_b intent_ids rnd = ok out ->
  List.length out = List.length batch_pos_b
  /\ forall b entry,
       out !! b = Some entry ->
       exists pos negs encoded intent_id,
         entry = pos :: negs
         /\ batch_pos_b !! b = Some pos
         /\ encoded_all_intents c = Some encoded
         /\ intent_ids !! b = Some intent_id
         /\ Z.of_nat (List.length negs) = num_neg (hp c)
         /\ forall neg, neg ∈ negs ->
              exists i, encoded !! i = Some neg /\ i <> intent_id.
Proof.
  unfold _create_batch_b. intros Hiou Hout.
  destruct (num_neg (hp c) <? 0) eqn:Hneg; [discriminate |].
  apply Z.ltb_ge in Hneg.
  apply for_each_Forall2 in Hout.
  pose proof (Forall2_length _ _ _ Hout) as Hlen. rewrite length_seq in Hlen.
  split; [now symmetry |].
  intros b entry Hentry.
  destruct (Forall2_lookup_r _ _ _ _ _ Hout Hentry) as (b' & Hb' & Hrow).
  apply lookup_seq in Hb' as [-> Hb]. simpl in Hrow.
  destruct (_create_batch_b_negs c intent_ids rnd b) as [e | ids] eqn:Hids;
    [discriminate |].
  destruct (mapM _ ids) as [batch_neg_b |] eqn:Hrows; [| discriminate].
  destruct (batch_pos_b !! b) as [pos |] eqn:Hpos; [| discriminate].
  injection Hrow as <-.
  unfold _create_batch_b_negs in Hids.
  destruct (encoded_all_intents c) as [encoded |]; [| discriminate].
  destruct (intent_ids !! b) as [intent_id |]; [| discriminate].
  rewrite Hiou in Hids.
  destruct (comprehension _ _) as [e | negative_indexes] eqn:Hpool;
    [discriminate |].
  exists pos, batch_neg_b, encoded, intent_id.
  repeat split; try reflexivity.
  - apply length_mapM in Hrows. rewrite <- Hrows.
    unfold np_random_choice in Hids.
    destruct (num_neg (hp c) <? 0); [discriminate |].
    destruct negative_indexes as [| x a].
    + destruct (num_neg (hp c) =? 0) eqn:Hz; [| discriminate].
      injection Hids as <-. apply Z.eqb_eq in Hz. now rewrite Hz.
    + injection Hids as <-. rewrite length_map, length_seq. lia.
  - intros neg Hneg'. apply mapM_Some in Hrows.
    apply list_elem_of_lookup in Hneg' as (k & Hk).
    destruct (Forall2_lookup_r _ _ _ _ _ Hrows Hk) as (i & Hi & Hrow).
    exists i. split; [exact Hrow |].
    apply list_elem_of_lookup_2 in Hi.
    apply (np_random_choice_elem _ _ _ _ Hids) in Hi.
    destruct (comprehension_kept _ _ _ Hpool i Hi) as [_ Hcond].
    injection Hcond as Hcond. now apply negb_true_iff, Nat.eqb_neq in Hcond.
Qed.

(** X11: [_negs_from_batch] without the IoU table: entry [b] of the result
    holds [num_neg] one-hot rows, each marking a batch position whose
    row differs from row [b]. *)
Theorem _negs_from_batch_rows (c : Classifier) (batch_pos_b : list array)
        (intent_ids : list nat) (rnd : nat -> nat -> nat)
        (out : list (list (list Q))) :
  use_iou (hp c) = false ->
  _negs_from_batch c batch_pos_b intent_ids rnd = ok out ->
  List.length out = List.length batch_pos_b
  /\ forall b negs row_b,
       out !! b = Some negs -> batch_pos_b !! b = Some row_b ->
       Z.of_nat (List.length negs) = num_neg (hp c)
       /\ forall one_hot, one_hot ∈ negs ->
            exists j row_j,
              one_hot = np_eye (List.length batch_pos_b) !!! j
              /\ batch_pos_b !! j = Some row_j
              /\ array_equal row_j row_b = false.
Proof.
  unfold _negs_from_batch. intros Hiou Hout.
  apply for_each_Forall2 in Hout.
  pose proof (Forall2_length _ _ _ Hout) as Hlen. rewrite length_seq in Hlen.
  split; [now symmetry |].
  intros b negs row_b Hnegs Hb.
  destruct (Forall2_lookup_r _ _ _ _ _ Hout Hnegs) as (b' & Hb' & Hrow).
  apply lookup_seq in Hb' as [-> _]. simpl in Hrow.
  destruct (_negs_from_batch_ids c batch_pos_b intent_ids rnd b)
    as [e | negs_ids] eqn:Hids; [discriminate |].
  injection Hrow as <-.
  unfold _negs_from_batch_ids in Hids. rewrite Hiou in Hids.
  destruct (comprehension _ _) as [e | negative_indexes] eqn:Hpool;
    [discriminate |].
  split.
  - rewrite length_map. unfold np_random_choice in Hids.
    destruct (num_neg (hp c) <? 0) eqn:Hneg; [discriminate |].
    apply Z.ltb_ge in Hneg.
    destruct negative_indexes as [| x a].
    + destruct (num_neg (hp c) =? 0) eqn:Hz; [| discriminate].
      injection Hids as <-. apply Z.eqb_eq in Hz. now rewrite Hz.
    + injection Hids as <-. rewrite length_map, length_seq. lia.
  - intros one_hot Hin.
    apply list_elem_of_In, in_map_iff in Hin as (j & <- & Hj).
    apply list_elem_of_In in Hj.
    apply (np_random_choice_elem _ _ _ _ Hids) in Hj.
    destruct (comprehension_kept _ _ _ Hpool j Hj) as [_ Hcond].
    rewrite Hb in Hcond.
    destruct (batch_pos_b !! j) as [row_j |] eqn:Hrow_j; [| discriminate].
    injection Hcond as Hcond. apply negb_true_iff in Hcond.
    exists j, row_j. repeat split; [exact Hrow_j | exact Hcond].
Qed.

(** X12: A batch whose rows are all equal offers [_negs_from_batch] no
    negative to draw from: with a positive [num_neg] and no IoU table
    the call raises numpy's [ValueError] instead of returning. *)
Theorem _negs_from_batch_uniform_batch_raises (c : Classifier)
        (batch_pos_b : list array) (intent_ids : list nat)
        (rnd : nat -> nat -> nat) :
  use_iou (hp c) = false ->
  0 < num_neg (hp c) ->
  batch_pos_b <> [] ->
  (forall i j row_i row_j,
      batch_pos_b !! i = Some row_i -> batch_pos_b !! j = Some row_j ->
      array_equal row_i row_j = true) ->
  _negs_from_batch c batch_pos_b intent_ids rnd
  = err (ValueError "'a' cannot be empty unless no samples are taken").
Proof.
  intros Hiou Hneg Hne Hsame. unfold _negs_from_batch.
  destruct batch_pos_b as [| row0 rest]; [congruence |].
  cbn [List.length seq for_each].
  unfold _negs_from_batch_ids. rewrite Hiou.
  rewrite comprehension_none.
  - unfold np_random_choice.
    destruct (num_neg (hp c) <? 0) eqn:Hlt; [apply Z.ltb_lt in Hlt; lia |].
    destruct (num_neg (hp c) =? 0) eqn:Hz; [apply Z.eqb_eq in Hz; lia |].
    reflexivity.
  - intros i Hi. apply elem_of_seq in Hi as [_ Hi].
    destruct (lookup_lt_is_Some_2 (row0 :: rest) i) as [row_i Hrow];
      [simpl in *; lia |].
    rewrite Hrow. cbn [lookup list_lookup].
    now rewrite (Hsame i 0%nat row_i row0 Hrow eq_refl).
Qed.

Lemma _create_batch_b_rows_witness :
  exists out,
    _create_batch_b sampling_classifier [Vec [1; 0]%Q; Vec [0; 1]%Q]
                    [0; 1]%nat (fun _ k => k) = ok out
    /\ List.length out = 2%nat.
Proof.
  eexists. split; [vm_compute; reflexivity |].
  refine (proj1 (_create_batch_b_rows sampling_classifier
                   [Vec [1; 0]%Q; Vec [0; 1]%Q] [0; 1]%nat (fun _ k => k)
                   _ _ _)).
  - vm_compute. reflexivity.
  - vm_compute. reflexivity.
Defined.

Lemma _negs_from_batch_rows_witness :
  exists out,
    _negs_from_batch sampling_classifier [Vec [1; 0]%Q; Vec [0; 1]%Q]
                     [0; 1]%nat (fun _ k => k) = ok out
    /\ List.length out = 2%nat.
Proof.
  eexists. split; [vm_compute; reflexivity |].
  refine (proj1 (_negs_from_batch_rows sampling_classifier
                   [Vec [1; 0]%Q; Vec [0; 1]%Q] [0; 1]%nat (fun _ k => k)
                   _ _ _)).
  - vm_compute. reflexivity.
  - vm_compute. reflexivity.
Defined.

Lemma _negs_from_batch_uniform_batch_raises_witness :
  _negs_from_batch sampling_classifier [Vec [1; 0]%Q; Vec [1; 0]%Q]
                   [0; 0]%nat (fun _ k => k)
  = err (ValueError "'a' cannot be empty unless no samples are taken").
Proof.
  apply _negs_from_batch_uniform_batch_raises.
  - vm_compute. reflexivity.
  - vm_compute. reflexivity.
  - discriminate.
  - intros [| [| i]] [| [| j]] row_i row_j Hi Hj; simpl in Hi, Hj;
      try discriminate; injection Hi as <-; injection Hj as <-;
      vm_compute; reflexivity.
Defined.

(** X13: The candidates [_tf_sample_neg] hands to the similarity.  In a
    training run on at least two rows, row [i] gets its own embedding
    first and then the embeddings its ids select; in any other run every
    row gets the whole batch in order, so its own embedding is candidate
    [i] and not candidate 0. *)
Theorem _tf_sample_neg_candidates (emb_b : mat2) (is_training : bool)
        (neg_ids : list (list nat)) (i : nat) (own : list R) (ids : list nat) :
  emb_b !! i = Some own ->
  neg_ids !! i = Some ids ->
  List.length (_tf_sample_neg emb_b is_training neg_ids)
  = (if is_training && (1 <? List.length neg_ids)%nat
     then Nat.min (List.length emb_b) (List.length neg_ids)
     else List.length emb_b)
  /\ _tf_sample_neg emb_b is_training neg_ids !! i
     = Some (if is_training && (1 <? List.length neg_ids)%nat
             then own :: map (fun j => emb_b !!! j) ids
             else emb_b).
Proof.
  intros Hown Hids. unfold _tf_sample_neg.
  destruct (is_training && (1 <? List.length neg_ids)%nat).
  - split.
    + rewrite !length_zip_with, length_map. lia.
    + apply lookup_zip_with_Some.
      exists own, (map (fun j => emb_b !!! j) ids).
      split; [reflexivity |]. split; [exact Hown |].
      apply lookup_zip_with_Some. exists emb_b, ids.
      split; [reflexivity |]. split; [| exact Hids].
      now apply (lookup_map_Some (fun _ => emb_b)) in Hown.
  - split; [now rewrite length_map |].
    now apply (lookup_map_Some (fun _ => emb_b)) in Hown.
Qed.

Lemma _tf_sample_neg_candidates_witness :
  _tf_sample_neg [[1]; [2]; [3]]%R true [[1; 2]; [0; 2]; [0; 1]]%nat !! 1%nat
  = Some [[2]; [1]; [3]]%R.
Proof.
  exact (proj2 (_tf_sample_neg_candidates [[1]; [2]; [3]]%R true
                  [[1; 2]; [0; 2]; [0; 1]]%nat 1 [2]%R [0; 2]%nat
                  eq_refl eq_refl)).
Defined.

(** ** Similarity and loss, continued *)







Lemma zip_with_Rplus_nonneg (u v : list R) :
  Forall (Rle 0) u -> Forall (Rle 0) v -> Forall (Rle 0) (zip_with Rplus u v).
Proof.
  intros Hu. revert v. induction Hu as [| x u Hx Hu IH]; intros v Hv; simpl;
    [constructor |].
  destruct Hv as [| y v Hy Hv]; constructor; [lra | now apply IH].
Qed.

Lemma zip_with_Rplus_zero (u v : list R) :
  Forall (eq 0%R) u -> Forall (eq 0%R) v -> Forall (eq 0%R) (zip_with Rplus u v).
Proof.
  intros Hu. revert v. induction Hu as [| x u Hx Hu IH]; intros v Hv; simpl;
    [constructor |].
  destruct Hv as [| y v Hy Hv]; constructor; [lra | now apply IH].
Qed.

Lemma reduce_sum_nonneg (v : list R) : Forall (Rle 0) v -> (0 <= reduce_sum v)%R.
Proof. induction 1 as [| x v Hx Hv IH]; simpl; lra. Qed.

Lemma reduce_sum_zero (v : list R) : Forall (eq 0%R) v -> reduce_sum v = 0%R.
Proof. induction 1 as [| x v Hx Hv IH]; simpl; lra. Qed.

Lemma reduce_mean_nonneg (v : list R) : Forall (Rle 0) v -> (0 <= reduce_mean v)%R.
Proof.
  intros Hv. unfold reduce_mean, Rdiv.
  apply Rmult_le_pos; [now apply reduce_sum_nonneg |].
  destruct v as [| x v]; [simpl; rewrite Rinv_0; lra |].
  left. apply Rinv_0_lt_compat, lt_0_INR. simpl. lia.
Qed.

Lemma Forall_map_all {A B} (P : B -> Prop) (f : A -> B) (l : list A) :
  (forall x, P (f x)) -> Forall P (map f l).
Proof. intros Hf. induction l; simpl; constructor; auto. Qed.

Lemma maximum0_nonneg (x : option R) : (0 <= maximum0 x)%R.
Proof. destruct x; simpl; [apply Rmax_l | lra]. Qed.

Lemma fold_left_Rmax_le (c : R) (rest : list R) :
  Forall (fun s => (s <= c)%R) rest ->
  forall x, (x <= c)%R -> (fold_left Rmax rest x <= c)%R.
Proof.
  induction 1 as [| y rest Hy Hrest IH]; intros x Hx; simpl; [exact Hx |].
  apply IH. now apply Rmax_lub.
Qed.

Lemma reduce_max_le (c : R) (row : list R) (m : R) :
  Forall (fun s => (s <= c)%R) row -> reduce_max row = Some m -> (m <= c)%R.
Proof.
  intros Hrow Hm. destruct Hrow as [| x rest Hx Hrest]; [discriminate |].
  injection Hm as <-. now apply fold_left_Rmax_le.
Qed.

(** X15: The loss never falls below the regularization loss: with a
    non-negative [C_emb], every per-example term of [_tf_loss] is a
    hinge and so at least zero.  (On an empty batch TensorFlow's mean
    is not a number, hence the batch is taken non-empty.) *)
Theorem loss_at_least_regularization (h : Hyper) (sim sim_emb : mat2)
        (reg loss : R) :
  (0 <= C_emb h)%R ->
  sim <> [] ->
  loss_value h sim sim_emb reg = ok loss ->
  (reg <= loss)%R.
Proof.
  intros HC _ Hloss. unfold loss_value in Hloss.
  destruct (mapM head sim) as [sim_0 |]; [| discriminate].
  injection Hloss as <-.
  match goal with
  | |- (_ <= reduce_mean ?l + _)%R =>
    assert (Hl : Forall (Rle 0) l); [| pose proof (reduce_mean_nonneg l Hl); lra]
  end.
  apply zip_with_Rplus_nonneg.
  - destruct (use_max_sim_neg h); apply zip_with_Rplus_nonneg;
      try (apply Forall_map_all; intros s; apply Rmax_l).
    + rewrite map_map. apply Forall_map_all. intros row. apply maximum0_nonneg.
    + rewrite map_map. apply Forall_map_all. intros row.
      apply reduce_sum_nonneg, Forall_map_all. intros s. apply Rmax_l.
  - rewrite map_map. apply Forall_map_all. intros row.
    apply Rmult_le_pos; [apply maximum0_nonneg | exact HC].
Qed.

(** X16: When every example meets its margins, that is its true similarity
    is at least [mu_pos], each negative similarity is at most
    [-mu_neg] and no similarity among the intent embeddings is
    positive, the loss is the regularization loss alone. *)
Theorem loss_is_regularization_when_margins_hold (h : Hyper)
        (sim sim_emb : mat2) (reg : R) :
  sim <> [] ->
  Forall (fun row => exists true_sim negatives,
              row = true_sim :: negatives
              /\ (mu_pos h <= true_sim)%R
              /\ Forall (fun s => (mu_neg h + s <= 0)%R) negatives) sim ->
  Forall (Forall (fun s => (s <= 0)%R)) sim_emb ->
  loss_value h sim sim_emb reg = ok reg.
Proof.
  intros _ Hsim Hemb. unfold loss_value.
  assert (Hhead : mapM head sim
                  = Some (map (fun row => hd 0%R row) sim)).
  { clear Hemb. induction Hsim as [| row sim Hrow Hsim IH]; [reflexivity |].
    destruct Hrow as (s0 & rest & -> & _). simpl.
    rewrite IH. reflexivity. }
  rewrite Hhead.
  match goal with
  | |- ok (reduce_mean ?l + _)%R = _ =>
    assert (Hl : Forall (eq 0%R) l);
      [| unfold reduce_mean; rewrite (reduce_sum_zero l Hl); f_equal;
         unfold Rdiv; lra]
  end.
  apply zip_with_Rplus_zero.
  - assert (Hpos : Forall (eq 0%R)
                     (map (fun s => Rmax 0 (mu_pos h - s))
                          (map (fun row => hd 0%R row) sim))).
    { rewrite map_map. clear Hemb Hhead.
      induction Hsim as [| row sim Hrow Hsim IH]; simpl; constructor;
        [| exact IH].
      destruct Hrow as (s0 & rest & -> & Hs0 & _). simpl.
      rewrite Rmax_left; lra. }
    destruct (use_max_sim_neg h); apply zip_with_Rplus_zero; try exact Hpos.
    + rewrite map_map. clear Hemb Hhead Hpos.
      induction Hsim as [| row sim Hrow Hsim IH]; simpl; constructor;
        [| exact IH].
      destruct Hrow as (s0 & rest & -> & _ & Hrest). simpl.
      destruct rest as [| s1 rest']; [reflexivity |].
      cbn [reduce_max option_map maximum0].
      rewrite Rmax_left; [reflexivity |].
      assert (Hle : (fold_left Rmax rest' s1 <= - mu_neg h)%R); [| lra].
      inversion Hrest as [| ? ? Hs1 Hrest']; subst.
      apply fold_left_Rmax_le; [| lra].
      eapply Forall_impl; [exact Hrest' |]. simpl. intros; lra.
    + rewrite map_map. clear Hemb Hhead Hpos.
      induction Hsim as [| row sim Hrow Hsim IH]; simpl; constructor;
        [| exact IH].
      destruct Hrow as (s0 & rest & -> & _ & Hrest). simpl.
      symmetry. apply reduce_sum_zero.
      induction Hrest as [| s rest Hs Hrest IHr]; simpl; constructor;
        [| exact IHr].
      rewrite Rmax_left; lra.
  - rewrite map_map. clear Hsim Hhead.
    induction Hemb as [| row sim_emb Hrow Hemb IH]; simpl; constructor;
      [| exact IH].
    destruct (reduce_max row) as [m |] eqn:Hm; simpl; [| lra].
    pose proof (reduce_max_le 0 row m Hrow Hm).
    rewrite Rmax_left; lra.
Qed.

Lemma loss_at_least_regularization_witness :
  exists loss,
    loss_value tokenized_hyper [[1; 0]%R; [0; 1]%R] [[0]%R; [1]%R] 0 = ok loss
    /\ (0 <= loss)%R.
Proof.
  eexists. split; [reflexivity |].
  eapply (loss_at_least_regularization tokenized_hyper
            [[1; 0]%R; [0; 1]%R] [[0]%R; [1]%R] 0).
  - simpl. lra.
  - discriminate.
  - reflexivity.
Defined.

Lemma loss_is_regularization_when_margins_hold_witness :
  loss_value tokenized_hyper [[1; 0]%R; [1; -1]%R] [[0]%R; [-1]%R] 5 = ok 5%R.
Proof.
  apply loss_is_regularization_when_margins_hold.
  - discriminate.
  - repeat constructor.
    + exists 1%R, [0%R]. split; [reflexivity |].
      split; [simpl; lra | repeat constructor; simpl; lra].
    + exists 1%R, [(-1)%R]. split; [reflexivity |].
      split; [simpl; lra | repeat constructor; simpl; lra].
  - repeat constructor; lra.
Defined.

(** ** Inference, continued *)

Section Ranking.
Context `{External}.

#[local] Instance Rle_is_transitive : Transitive Rle.
Proof. intros x y z. apply Rle_trans. Qed.

#[local] Instance Rle_is_total : Total Rle.
Proof. intros x y. destruct (Rle_or_lt x y); [now left | right; lra]. Qed.

#[local] Instance Rle_is_antisymmetric : AntiSymm eq Rle.
Proof. intros x y. apply Rle_antisym. Qed.

Lemma lookup_total_seq (v : list R) :
  map (fun i => v !!! i) (seq 0 (List.length v)) = v.
Proof.
  apply list_eq. intros i.
  change (map ?f ?l) with (f <$> l). rewrite list_lookup_fmap.
  destruct (v !! i) as [x |] eqn:Hx.
  - rewrite lookup_seq_lt by (now apply lookup_lt_Some in Hx). simpl.
    now rewrite (list_lookup_total_correct _ _ _ Hx).
  - rewrite lookup_seq_ge by (now apply lookup_ge_None in Hx). reflexivity.
Qed.

Lemma StronglySorted_map_lookup (v : list R) (ids : list nat) :
  StronglySorted (fun i j => (v !!! i <= v !!! j)%R) ids ->
  StronglySorted Rle (map (fun i => v !!! i) ids).
Proof.
  induction 1 as [| i ids Hids IH Hi]; simpl; constructor; [exact IH |].
  apply Forall_forall. intros x Hx.
  apply list_elem_of_In, in_map_iff in Hx as (j & <- & Hj).
  exact (proj1 (Forall_forall _ _) Hi j (proj2 (list_elem_of_In _ _) Hj)).
Qed.

Lemma argsort_sorts (v : list R) :
  map (fun i => v !!! i) (argsort v) = np_sort v.
Proof.
  apply (StronglySorted_unique Rle).
  - apply StronglySorted_map_lookup. unfold argsort.
    apply StronglySorted_merge_sort.
    + intros i j k. apply Rle_trans.
    + intros i j. destruct (Rle_or_lt (v !!! i) (v !!! j)); [now left | right; lra].
  - unfold np_sort. apply StronglySorted_merge_sort; apply _.
  - unfold np_sort, argsort.
    rewrite (merge_sort_Permutation Rle v).
    transitivity (map (fun i => v !!! i) (seq 0 (List.length v)));
      [| now rewrite lookup_total_seq].
    change (map ?f ?l) with (f <$> l).
    apply fmap_Permutation, merge_sort_Permutation.
Qed.

Lemma reduce_sum_Permutation (u v : list R) :
  u ≡ₚ v -> reduce_sum u = reduce_sum v.
Proof.
  induction 1 as [| x u v _ IH | x y u | u v t _ IH1 _ IH2]; simpl;
    [reflexivity | now rewrite IH | lra | congruence].
Qed.

Lemma scores_by_id (t : string) (v : list R) :
  (if bool_decide (t = "cosine") then
     map (fun s => if Rlt_dec s 0 then 0%R else s) (reverse (np_sort v))
   else if bool_decide (t = "inner") then
     map (fun x => x / reduce_sum (map exp (reverse (np_sort v))))%R
         (map exp (reverse (np_sort v)))
   else reverse (np_sort v))
  = map (fun i =>
           let s := v !!! i in
           if bool_decide (t = "cosine")
           then (if Rlt_dec s 0 then 0 else s)
           else if bool_decide (t = "inner")
                then exp s / reduce_sum (map exp v)
                else s)%R
        (reverse (argsort v)).
Proof.
  assert (Hsorted : reverse (np_sort v)
                    = map (fun i => v !!! i) (reverse (argsort v))).
  { rewrite <- argsort_sorts. change (map ?f ?l) with (f <$> l).
    now rewrite fmap_reverse. }
  cbv zeta. rewrite Hsorted.
  destruct (bool_decide (t = "cosine")); [now rewrite map_map |].
  destruct (bool_decide (t = "inner")); [| reflexivity].
  rewrite !map_map.
  assert (Hsum : reduce_sum (map (fun x => exp (v !!! x)) (reverse (argsort v)))
                 = reduce_sum (map exp v)).
  { rewrite <- (map_map (fun i => v !!! i) exp), <- Hsorted.
    apply reduce_sum_Permutation.
    change (map ?f ?l) with (f <$> l). apply fmap_Permutation.
    rewrite reverse_Permutation. unfold np_sort.
    apply merge_sort_Permutation. }
  now rewrite Hsum.
Qed.

(** X17: The two results of [_calculate_message_sim_all] line up: the ids
    are a permutation of the intent positions, and the score at each
    rank is the one of the id at that rank: its raw similarity clipped
    at zero under cosine similarity, its softmax share over all intents
    under inner similarity. *)
Theorem scores_paired_with_their_ids (X : list array) (w : World)
        vars op values raw :
  session (self w) = Some vars ->
  sim_all (self w) = Some op ->
  all_intents_embed_values (self w) = Some values ->
  t_run op {| env_a := X; env_b := [];
              env_all_intents_embed := values;
              env_is_training := false; env_vars := vars;
              env_rand := random_draws 0 0 |} = ok raw ->
  exists intent_ids message_sim,
    _calculate_message_sim_all X w = (Returned (intent_ids, message_sim), w)
    /\ intent_ids ≡ₚ seq 0 (List.length (concat raw))
    /\ message_sim
       = map (fun i =>
                let s := concat raw !!! i in
                if bool_decide (similarity_type (hp (self w)) = "cosine")
                then (if Rlt_dec s 0 then 0 else s)
                else if bool_decide (similarity_type (hp (self w)) = "inner")
                     then exp s / reduce_sum (map exp (concat raw))
                     else s)%R
             intent_ids.
Proof.
  intros Hsession Hop Hvalues Hrun.
  eexists _, _. split;
    [exact (_calculate_message_sim_all_run X w _ _ _ _ Hsession Hop Hvalues Hrun) |].
  split.
  - rewrite reverse_Permutation. unfold argsort.
    apply merge_sort_Permutation.
  - apply scores_by_id.
Qed.

Lemma name_ranking_named (c : Classifier) (d : gmap nat string)
      (ranking : list (nat * R)) (w : World) :
  inv_intent_dict c = Some d ->
  Forall (fun p => is_Some (d !! fst p)) ranking ->
  name_ranking c ranking w
  = (Returned (map (fun p => {| pred_name := d !! fst p;
                                pred_confidence := snd p |}) ranking), w).
Proof.
  intros Hd. induction 1 as [| [intent_idx score] ranking [n Hn] _ IH].
  - reflexivity.
  - simpl in Hn. simpl. unfold bind at 1. unfold inv_intent_name, bind.
    rewrite Hd. simpl. rewrite Hn. simpl. rewrite IH. reflexivity.
Qed.

Lemma zip_map_r {A B} (f : A -> B) (l : list A) :
  zip l (map f l) = map (fun x => (x, f x)) l.
Proof. induction l as [| x l IH]; simpl; [reflexivity | now rewrite IH]. Qed.

Lemma take_map {A B} (f : A -> B) (n : nat) (l : list A) :
  take n (map f l) = map f (take n l).
Proof.
  revert n. induction l as [| x l IH]; intros [| n]; simpl; try reflexivity.
  now rewrite IH.
Qed.

(** X18: What [process] reports for a message with non-zero features on a
    trained instance that knows a name for every intent: the ranking
    lists the first [INTENT_RANKING_LENGTH] ids in the order of
    [_calculate_message_sim_all] (all of them when there are fewer),
    each under its own name and with its own score, and the reported
    intent is the entry of the first id. *)
Theorem process_names_each_score (message : Message) (w : World)
        vars op values raw d :
  session (self w) = Some vars ->
  sim_all (self w) = Some op ->
  all_intents_embed_values (self w) = Some values ->
  t_run op {| env_a := [msg_text_features message]; env_b := [];
              env_all_intents_embed := values;
              env_is_training := false; env_vars := vars;
              env_rand := random_draws 0 0 |} = ok raw ->
  inv_intent_dict (self w) = Some d ->
  (forall i, (i < List.length (concat raw))%nat -> is_Some (d !! i)) ->
  array_any (msg_text_features message) = true ->
  concat raw <> [] ->
  let entry i :=
      {| pred_name := d !! i;
         pred_confidence :=
           let s := concat raw !!! i in
           if bool_decide (similarity_type (hp (self w)) = "cosine")
           then (if Rlt_dec s 0 then 0 else s)
           else if bool_decide (similarity_type (hp (self w)) = "inner")
                then exp s / reduce_sum (map exp (concat raw))
                else s |}%R in
  exists id0 ids,
    reverse (argsort (concat raw)) = id0 :: ids
    /\ process message w
       = (Returned (message_set message (entry id0)
                      (map entry (take INTENT_RANKING_LENGTH (id0 :: ids)))), w)
    /\ List.length (take INTENT_RANKING_LENGTH (id0 :: ids))
       = Nat.min INTENT_RANKING_LENGTH (List.length (concat raw)).
Proof.
  intros Hsession Hop Hvalues Hrun Hd Hnames Hany Hraw entry.
  pose proof (_calculate_message_sim_all_run _ w _ _ _ _
                Hsession Hop Hvalues Hrun) as Hcalc.
  rewrite scores_by_id in Hcalc.
  assert (Hlen : List.length (reverse (argsort (concat raw)))
                 = List.length (concat raw)).
  { now rewrite length_reverse, argsort_length. }
  assert (Hids : Forall (fun i => is_Some (d !! i))
                        (reverse (argsort (concat raw)))).
  { apply Forall_forall. intros i Hi. apply Hnames, argsort_bound.
    now rewrite elem_of_reverse in Hi. }
  destruct (reverse (argsort (concat raw))) as [| id0 ids] eqn:Hids_eq.
  { destruct (concat raw); [congruence | discriminate]. }
  exists id0, ids. split; [reflexivity |].
  split; [| rewrite length_take, Hlen; reflexivity].
  destruct (Forall_inv Hids) as [name0 Hname0].
  cbv zeta in Hcalc.
  set (score := fun i : nat => if bool_decide _ then _ else _) in Hcalc.
  apply wp_run. unfold process. do 2 wp_step. rewrite Hsession. wp_step.
  unfold wp at 1. rewrite Hcalc. cbn [fst snd].
  rewrite Hany. cbn [List.length Nat.ltb Nat.leb andb].
  change (map score (id0 :: ids)) with (score id0 :: map score ids).
  cbv iota.
  change (score id0 :: map score ids) with (map score (id0 :: ids)).
  apply wp_bind. unfold wp at 1. unfold inv_intent_name, bind, required.
  rewrite Hd. cbn [ret fst snd]. rewrite Hname0. cbn [ret fst snd].
  apply wp_bind. unfold wp at 1.
  rewrite zip_map_r, take_map.
  rewrite (name_ranking_named (self w) d _ w Hd).
  - cbn [fst snd]. apply wp_ret. split; [| reflexivity].
    rewrite map_map. cbn [fst snd]. unfold entry. rewrite Hname0.
    reflexivity.
  - apply Forall_forall. intros [i s] Hin.
    apply list_elem_of_In, in_map_iff in Hin as (j & [= <- <-] & Hj).
    apply list_elem_of_In, elem_of_take in Hj as (k & Hk & _).
    apply list_elem_of_lookup_2 in Hk.
    exact (proj1 (Forall_forall _ _) Hids j Hk).
Qed.

(** X19: All-zero features are never given a label: on a trained instance
    whose similarity op evaluates, [process] reports the null intent
    with an empty ranking and leaves the component as it was. *)
Theorem process_zero_features (message : Message) (w : World)
        vars op values raw :
  session (self w) = Some vars ->
  sim_all (self w) = Some op ->
  all_intents_embed_values (self w) = Some values ->
  t_run op {| env_a := [msg_text_features message]; env_b := [];
              env_all_intents_embed := values;
              env_is_training := false; env_vars := vars;
              env_rand := random_draws 0 0 |} = ok raw ->
  array_any (msg_text_features message) = false ->
  process message w = (Returned (message_set message null_intent []), w).
Proof.
  intros Hsession Hop Hvalues Hrun Hany.
  pose proof (_calculate_message_sim_all_run _ w _ _ _ _
                Hsession Hop Hvalues Hrun) as Hcalc.
  apply wp_run. unfold process. do 2 wp_step. rewrite Hsession. wp_step.
  unfold wp at 1. rewrite Hcalc. cbn [fst snd].
  rewrite Hany. cbn [andb]. apply wp_ret. split; reflexivity.
Qed.

Lemma bind_reads_only {A B} (m : M A) (k : A -> M B) (w : World) :
  (snd (m w) = w /\ fst (m w) <> Exited) ->
  (forall a, fst (m w) = Returned a ->
             snd (k a w) = w /\ fst (k a w) <> Exited) ->
  snd (bind m k w) = w /\ fst (bind m k w) <> Exited.
Proof.
  unfold bind. destruct (m w) as [[a | e |] w']; cbn [fst snd];
    intros [-> Hm] Hk; [now apply Hk | split; [reflexivity | discriminate] |
                        congruence].
Qed.

Lemma required_reads_only {A} (e : exn) (o : option A) (w : World) :
  snd (required e o w) = w /\ fst (required e o w) <> Exited.
Proof. destruct o; split; (reflexivity || discriminate). Qed.

Lemma lift_reads_only {A} (r : result A) (w : World) :
  snd (lift r w) = w /\ fst (lift r w) <> Exited.
Proof. destruct r; split; (reflexivity || discriminate). Qed.

Lemma _calculate_message_sim_all_reads_only (X : list array) (w : World) :
  snd (_calculate_message_sim_all X w) = w
  /\ fst (_calculate_message_sim_all X w) <> Exited.
Proof.
  unfold _calculate_message_sim_all.
  apply bind_reads_only; [split; [reflexivity | discriminate] |]. intros c _.
  apply bind_reads_only; [apply required_reads_only |]. intros vars _.
  apply bind_reads_only; [apply required_reads_only |]. intros op _.
  apply bind_reads_only; [apply required_reads_only |]. intros values _.
  apply bind_reads_only; [apply lift_reads_only |]. intros message_sim _.
  split; [reflexivity | discriminate].
Qed.

Lemma inv_intent_name_reads_only (c : Classifier) (i : nat) (w : World) :
  snd (inv_intent_name c i w) = w /\ fst (inv_intent_name c i w) <> Exited.
Proof.
  unfold inv_intent_name.
  apply bind_reads_only; [apply required_reads_only |]. intros d _.
  apply required_reads_only.
Qed.

Lemma name_ranking_reads_only (c : Classifier) (ranking : list (nat * R))
      (w : World) :
  snd (name_ranking c ranking w) = w /\ fst (name_ranking c ranking w) <> Exited.
Proof.
  induction ranking as [| [intent_idx score] ranking IH]; simpl.
  - split; [reflexivity | discriminate].
  - apply bind_reads_only; [apply inv_intent_name_reads_only |]. intros n _.
    apply bind_reads_only; [exact IH |]. intros more _.
    split; [reflexivity | discriminate].
Qed.

(** X20: [process] only reads the component: whatever the message and the
    state, the call returns or raises but never leaves the interpreter,
    leaves the instance and the files untouched, and logs nothing
    except the one error message of an instance without a session. *)
Theorem process_reads_only (message : Message) (w : World) :
  fst (process message w) <> Exited
  /\ self (snd (process message w)) = self w
  /\ files (snd (process message w)) = files w
  /\ logged (snd (process message w))
     = match session (self w) with
       | Some _ => logged w
       | None =>
         (logged w ++ [(ERROR, "There is no trained tf.session: component is either not trained or didn't receive enough training data")])%list
       end.
Proof.
  destruct (session (self w)) as [vars |] eqn:Hsession.
  - assert (Hm : snd (process message w) = w
                 /\ fst (process message w) <> Exited).
    { unfold process.
      apply bind_reads_only; [split; [reflexivity | discriminate] |].
      intros c [= <-]. rewrite Hsession.
      apply bind_reads_only; [apply _calculate_message_sim_all_reads_only |].
      intros [intent_ids message_sim] _. cbn [fst snd].
      destruct (array_any (msg_text_features message)
                && (0 <? List.length intent_ids)%nat);
        [| split; [reflexivity | discriminate]].
      destruct intent_ids as [| id0 ids];
        [split; [reflexivity | discriminate] |].
      destruct message_sim as [| sim0 sims];
        [split; [reflexivity | discriminate] |].
      apply bind_reads_only; [apply inv_intent_name_reads_only |]. intros name0 _.
      apply bind_reads_only; [apply name_ranking_reads_only |]. intros ranking _.
      split; [reflexivity | discriminate]. }
    destruct Hm as [Hw Hx]. rewrite Hw. repeat split. exact Hx.
  - unfold process, bind, get_self. rewrite Hsession.
    cbn. repeat split. discriminate.
Qed.

End Ranking.

Lemma scores_paired_with_their_ids_witness :
  exists intent_ids message_sim,
    _calculate_message_sim_all [msg_text_features greeting] toy_trained
    = (Returned (intent_ids, message_sim), toy_trained)
    /\ intent_ids ≡ₚ [0; 1]%nat.
Proof.
  destruct (scores_paired_with_their_ids [msg_text_features greeting]
              toy_trained 7%nat toy_sim_all [[[1; 0]%R; [0; 1]%R]]
              (fst (sim_values "cosine" [[1; 0]%R] [[[1; 0]%R; [0; 1]%R]]))
              eq_refl eq_refl eq_refl eq_refl)
    as (intent_ids & message_sim & Hrun & Hperm & _).
  exists intent_ids, message_sim. split; [exact Hrun | exact Hperm].
Defined.

Lemma process_names_each_score_witness :
  exists intent ranking,
    process greeting toy_trained
    = (Returned (message_set greeting intent ranking), toy_trained)
    /\ List.length ranking = 2%nat.
Proof.
  destruct (process_names_each_score greeting toy_trained 7%nat toy_sim_all
              [[[1; 0]%R; [0; 1]%R]]
              (fst (sim_values "cosine" [[1; 0]%R] [[[1; 0]%R; [0; 1]%R]]))
              (invert_dict (_create_intent_dict greet_bye))
              eq_refl eq_refl eq_refl eq_refl eq_refl)
    as (id0 & ids & _ & Hprocess & Hlen).
  - intros i Hi. simpl in Hi.
    destruct i as [| [| i]]; [| | lia]; vm_compute; eexists; reflexivity.
  - reflexivity.
  - discriminate.
  - eexists _, _. split; [exact Hprocess |].
    rewrite length_map. exact Hlen.
Defined.

Lemma process_zero_features_witness :
  process silence toy_trained
  = (Returned (message_set silence null_intent []), toy_trained).
Proof.
  exact (process_zero_features silence toy_trained 7%nat toy_sim_all
           [[[1; 0]%R; [0; 1]%R]]
           (fst (sim_values "cosine" [[1; 0]%R] [[[1; 0]%R; [0; 1]%R]]))
           eq_refl eq_refl eq_refl eq_refl eq_refl).
Defined.

(** ** Persistence, continued *)

Section PersistFailures.
Context `{External}.

(** X21: A model directory that cannot be created, for a reason other than
    its being there already, makes [persist] raise the [OSError] of
    [os.makedirs]; nothing is written and the instance is unchanged. *)
Theorem persist_directory_error (model_dir : string) (w : World)
        (vars : Variables) (errno : Z) :
  session (self w) = Some vars ->
  os_makedirs (os_path_dirname (os_path_join model_dir (name ++ ".ckpt")))
  = Some errno ->
  errno <> EEXIST ->
  persist model_dir w = (Raised (OSError errno), w).
Proof.
  intros Hsession Hdir Herrno. apply wp_run.
  unfold persist. do 2 wp_step. rewrite Hsession, Hdir.
  apply Z.eqb_neq in Herrno. rewrite Herrno.
  do 2 wp_step. split; reflexivity.
Qed.

(** X22: [persist] is not atomic: when a placeholder is missing, or its last
    dimension is unknown, the call raises after the checkpoint has been
    written and the graph's collections have been reset, and before any
    of the four pickle files is written. *)
Theorem persist_stops_after_checkpoint (model_dir : string) (w : World)
        (vars : Variables) (g : Graph) :
  session (self w) = Some vars ->
  graph (self w) = Some g ->
  (os_makedirs (os_path_dirname (os_path_join model_dir (name ++ ".ckpt")))
   = None
   \/ os_makedirs (os_path_dirname (os_path_join model_dir (name ++ ".ckpt")))
      = Some EEXIST) ->
  (a_in (self w) ≫= t_last_dim = None \/ b_in (self w) ≫= t_last_dim = None) ->
  exists e g',
    persist model_dir w
    = (Raised e,
       {| self := set_graph (Some g') (self w);
          logged := logged w;
          files := <[os_path_join model_dir (name ++ ".ckpt")
                     := Checkpoint vars g']> (files w) |})
    /\ (e = AttributeError \/ e = TypeError).
Proof.
  intros Hsession Hgraph Hdir Hmissing.
  assert (Hrun : exists e g',
    wp (persist model_dir)
       (fun o w' =>
          o = Raised e
          /\ w' = {| self := set_graph (Some g') (self w);
                     logged := logged w;
                     files := <[os_path_join model_dir (name ++ ".ckpt")
                                := Checkpoint vars g']> (files w) |}) w
    /\ (e = AttributeError \/ e = TypeError)).
  { destruct (a_in (self w)) as [a |] eqn:Ha;
      [destruct (t_last_dim a) as [a_dim |] eqn:Hadim;
       [destruct (b_in (self w)) as [b |] eqn:Hb;
        [destruct (t_last_dim b) as [b_dim |] eqn:Hbdim |] |] |].
    1: { exfalso. cbn in Hmissing. rewrite Hadim, Hbdim in Hmissing.
         destruct Hmissing; discriminate. }
    all: eexists _, _; split;
      [unfold persist; do 2 wp_step; rewrite Hsession, Hgraph, ?Ha, ?Hb;
       destruct Hdir as [Hdir | Hdir]; rewrite Hdir;
       change (EEXIST =? EEXIST) with true; cbv iota;
       repeat first [ rewrite Hadim | rewrite Hbdim
                    | wp_step; try discriminate;
                      repeat match goal with
                             | Heq : Some _ = Some _ |- _ =>
                               injection Heq as <-
                             end ];
       (split; reflexivity) |].
    all: auto. }
  destruct Hrun as (e & g' & Hrun & He).
  exists e, g'. split; [| exact He]. apply wp_run. exact Hrun.
Qed.

End PersistFailures.

Lemma persist_directory_error_witness :
  @persist read_only_disk "models" trained_on_read_only_disk
  = (Raised (OSError 13), trained_on_read_only_disk).
Proof.
  apply (@persist_directory_error read_only_disk "models"
           trained_on_read_only_disk 7%nat 13).
  - reflexivity.
  - reflexivity.
  - discriminate.
Defined.

Lemma persist_stops_after_checkpoint_witness :
  exists e w',
    persist "models" half_built = (Raised e, w')
    /\ files w' !! "models/intent_classifier_tensorflow_embedding.ckpt"
       <> None
    /\ files w' !! "models/intent_classifier_tensorflow_embedding_inv_intent_dict.pkl"
       = None.
Proof.
  destruct (persist_stops_after_checkpoint "models" half_built 7%nat
              {| collections := ["word_embed"; "mine"] |}
              eq_refl eq_refl (or_introl eq_refl) (or_introl eq_refl))
    as (e & g' & Hrun & _).
  eexists e, _. split; [exact Hrun |]. cbn [files]. split.
  - rewrite lookup_insert_eq. discriminate.
  - rewrite lookup_insert_ne by (vm_compute; discriminate). reflexivity.
Defined.

Section PersistTwice.
Context `{External}.







End PersistTwice.


(** ** Training, continued *)

Section TrainingErrors.
Context `{External}.






Lemma train_epochs_empty_first (train_init_op val_init_op : InitOp)
      (loss : Tensor R) (train_op : env Variables -> result Variables)
      (rest : list nat) (train_acc last_loss : R) (batch_size : Z)
      (w : World) :
  _linearly_increasing_batch_size (hp (self w)) 0 = ok batch_size ->
  iterator_batches train_init_op (Some batch_size) 0 = ok [] ->
  wp (train_epochs train_init_op val_init_op loss train_op
                   (0%nat :: rest) train_acc last_loss)
     (fun o w' => o = Raised ZeroDivisionError /\ w' = w) w.
Proof.
  intros Hbatch Hempty. cbn [train_epochs]. do 2 wp_step.
  change (Z.of_nat 0) with 0. rewrite Hbatch. apply wp_bind, wp_lift.
  cbv beta iota delta [ok].
  rewrite Hempty. apply wp_bind, wp_lift. cbv beta iota delta [ok].
  cbn [train_batches]. do 2 wp_step. cbn [snd]. wp_step; [| discriminate].
  wp_step. split; reflexivity.
Qed.

(** X25: An epoch whose iterator yields no batch divides the epoch loss by
    zero: [_train_tf_dataset] raises [ZeroDivisionError] in its first
    epoch when the data set is empty, after it has run the variable
    initializer. *)
Theorem _train_tf_dataset_empty_epoch (train_init_op val_init_op : InitOp)
        (loss : Tensor R) (train_op : env Variables -> result Variables)
        (w : World) (vars : Variables) (batch_size : Z) :
  session (self w) = Some vars ->
  0 < epochs (hp (self w)) ->
  _linearly_increasing_batch_size (hp (self w)) 0 = ok batch_size ->
  iterator_batches train_init_op (Some batch_size) 0 = ok [] ->
  fst (_train_tf_dataset train_init_op val_init_op loss train_op w)
  = Raised ZeroDivisionError
  /\ session (self (snd (_train_tf_dataset train_init_op val_init_op
                                           loss train_op w)))
     = Some (global_variables_initializer vars).
Proof.
  intros Hsession Hepochs Hbatch Hempty.
  change (wp (_train_tf_dataset train_init_op val_init_op loss train_op)
             (fun o w' => o = Raised ZeroDivisionError
                          /\ session (self w')
                             = Some (global_variables_initializer vars)) w).
  unfold _train_tf_dataset. do 2 wp_step. rewrite Hsession.
  do 2 wp_step; [| discriminate].
  match goal with Heq : Some _ = Some _ |- _ => injection Heq as <- end.
  destruct (Z.to_nat (epochs (hp (self w)))) as [| n] eqn:Hn; [lia |].
  cbn [seq]. do 2 wp_step. do 2 wp_step.
  all: wp_step.
  all: apply wp_bind.
  all: eapply wp_mono;
    [| apply (train_epochs_empty_first _ _ _ _ _ _ _ batch_size);
       [exact Hbatch | exact Hempty]].
  all: intros o w' [-> ->]; split; reflexivity.
Qed.

End TrainingErrors.


Lemma _train_tf_dataset_empty_epoch_witness :
  fst (@_train_tf_dataset read_only_disk tt tt
         {| t_rank := 0; t_last_dim := None; t_run := fun _ => ok 0%R |}
         (fun _ => ok 0%nat) trained_on_read_only_disk)
  = Raised ZeroDivisionError.
Proof.
  apply (@_train_tf_dataset_empty_epoch read_only_disk tt tt
           {| t_rank := 0; t_last_dim := None; t_run := fun _ => ok 0%R |}
           (fun _ => ok 0%nat) trained_on_read_only_disk 7%nat 2).
  - reflexivity.
  - vm_compute. reflexivity.
  - vm_compute. reflexivity.
  - reflexivity.
Defined.

(** ** Sequence masks *)

Lemma tf_sign_positive (m : Q) : (0 < m)%Q -> tf_sign m = 1.
Proof.
  intros Hm. unfold tf_sign.
  now rewrite (proj1 (Qgt_alt m 0) Hm).
Qed.

Lemma tf_sign_zero (m : Q) : (m == 0)%Q -> tf_sign m = 0.
Proof.
  intros Hm. unfold tf_sign. now rewrite (proj1 (Qeq_alt m 0) Hm).
Qed.

Lemma tf_sign_nonneg (m : Q) : (0 <= m)%Q -> tf_sign m = 0 \/ tf_sign m = 1.
Proof.
  intros Hm. unfold tf_sign.
  destruct (Qcompare m 0) eqn:Hc; [now left | | now right].
  apply Qlt_alt in Hc. exfalso. exact (Qlt_not_le _ _ Hc Hm).
Qed.

Lemma product_of_zeros (padding : list Z) :
  Forall (eq 0) padding ->
  fold_right Z.mul 1 (map (fun m => 1 - m) padding) = 1.
Proof. induction 1 as [| m padding <- _ IH]; simpl; [reflexivity | lia]. Qed.

Lemma product_with_one (before padding : list Z) :
  fold_right Z.mul 1 (map (fun m => 1 - m) (before ++ 1 :: padding)) = 0.
Proof.
  induction before as [| m before IH]; simpl; [reflexivity |].
  rewrite IH. lia.
Qed.

Lemma last_of_mask_cons (m : Z) (mask : list Z) :
  last_of_mask (m :: mask)
  = m * fold_right Z.mul 1 (map (fun m => 1 - m) mask) :: last_of_mask mask.
Proof. reflexivity. Qed.

Lemma last_of_zeros (padding : list Z) :
  Forall (eq 0) padding ->
  last_of_mask padding = repeat 0 (List.length padding).
Proof.
  induction 1 as [| m padding <- _ IH]; [reflexivity |].
  rewrite last_of_mask_cons, IH. reflexivity.
Qed.

Lemma last_of_mask_one_hot (before padding : list Z) :
  Forall (eq 0) padding ->
  last_of_mask (before ++ 1 :: padding)
  = (repeat 0 (List.length before) ++ 1 :: repeat 0 (List.length padding))%list.
Proof.
  intros Hpad. induction before as [| m before IH].
  - simpl. rewrite last_of_mask_cons, product_of_zeros, last_of_zeros
      by exact Hpad. reflexivity.
  - cbn [app List.length repeat].
    rewrite last_of_mask_cons, product_with_one, IH. f_equal. lia.
Qed.

Lemma sum_one_hot (a b : nat) :
  fold_right Z.add 0 (repeat 0 a ++ 1 :: repeat 0 b) = 1.
Proof.
  induction a as [| a IH]; simpl.
  - induction b as [| b IHb]; simpl; [reflexivity | lia].
  - exact IH.
Qed.

Lemma cumsum_zeros (b : nat) : tf_cumsum_reverse (repeat 0 b) = repeat 0 b.
Proof.
  induction b as [| b IH]; simpl; [reflexivity |]. rewrite IH. f_equal.
  clear IH. induction b as [| b IH]; simpl; lia.
Qed.

Lemma cumsum_one_hot (a b : nat) :
  tf_cumsum_reverse (repeat 0 a ++ 1 :: repeat 0 b)
  = (repeat 1 (S a) ++ repeat 0 b)%list.
Proof.
  induction a as [| a IH].
  - simpl. rewrite cumsum_zeros. f_equal.
    induction b as [| b IHb]; simpl; lia.
  - change (repeat 0 (S a) ++ 1 :: repeat 0 b)%list
      with (0 :: (repeat 0 a ++ 1 :: repeat 0 b))%list.
    cbn [tf_cumsum_reverse]. rewrite IH, sum_one_hot. reflexivity.
Qed.

Lemma sum_prefix_mask (a b : nat) :
  fold_right Z.add 0 (repeat 1 a ++ repeat 0 b) = Z.of_nat a.
Proof.
  induction a as [| a IH].
  - simpl. induction b as [| b IHb]; simpl; lia.
  - cbn [repeat app fold_right]. rewrite IH. lia.
Qed.

(** X26: The masks of [_create_tf_rnn_embed] on a zero-padded row: when
    the last token with a positive feature is followed by all-zero
    tokens only, and no earlier token has a negative maximum, [last]
    marks exactly that token, the second [mask] is 1 up to it and 0
    after it (all-zero tokens before it included), and [real_length]
    is its position plus one. *)
Theorem rnn_embed_masks (before padding : list (list Q)) (token : list Q) :
  Forall (fun t => exists m, token_max t = Some m /\ (0 <= m)%Q) before ->
  (exists m, token_max token = Some m /\ (0 < m)%Q) ->
  Forall (fun t => exists m, token_max t = Some m /\ (m == 0)%Q) padding ->
  rnn_embed_last (before ++ token :: padding)
  = (repeat 0 (List.length before) ++ 1 :: repeat 0 (List.length padding))%list
  /\ rnn_embed_mask (before ++ token :: padding)
     = (repeat 1 (S (List.length before))
               ++ repeat 0 (List.length padding))%list
  /\ rnn_embed_real_length (before ++ token :: padding)
     = Z.of_nat (S (List.length before)).
Proof.
  intros Hbefore (m & Hm & Hpos) Hpadding.
  assert (Hpad : Forall (eq 0) (rnn_embed_sign padding)).
  { unfold rnn_embed_sign.
    induction Hpadding as [| t padding (z & Ht & Hz) _ IH];
      simpl; constructor; [now rewrite Ht, tf_sign_zero | exact IH]. }
  assert (Hsign : rnn_embed_sign (before ++ token :: padding)
                  = (rnn_embed_sign before ++ 1 :: rnn_embed_sign padding)%list).
  { unfold rnn_embed_sign. rewrite map_app. cbn [map].
    now rewrite Hm, tf_sign_positive. }
  assert (Hlast : rnn_embed_last (before ++ token :: padding)
                  = (repeat 0 (List.length before)
                            ++ 1 :: repeat 0 (List.length padding))%list).
  { unfold rnn_embed_last. rewrite Hsign, last_of_mask_one_hot by exact Hpad.
    unfold rnn_embed_sign. now rewrite !length_map. }
  split; [exact Hlast |].
  unfold rnn_embed_real_length, rnn_embed_mask. rewrite Hlast, cumsum_one_hot.
  split; [reflexivity |]. apply sum_prefix_mask.
Qed.

(** X27: The masks of [_create_tf_gpu_predict_embed] on a row padded with
    -1: the tokens whose maximum is above -1 count, the padding does
    not, so [real_length] is the number of real tokens and [last] marks
    the final one. *)
Theorem gpu_predict_masks (real padding : list (list Q)) (token : list Q) :
  Forall (fun t => exists m, token_max t = Some m /\ (-1 < m)%Q)
         (real ++ [token]) ->
  Forall (fun t => exists m, token_max t = Some m /\ (m == -1)%Q) padding ->
  gpu_predict_mask ((real ++ [token]) ++ padding)
  = (repeat 1 (S (List.length real)) ++ repeat 0 (List.length padding))%list
  /\ gpu_predict_real_length ((real ++ [token]) ++ padding)
     = Z.of_nat (S (List.length real))
  /\ gpu_predict_last ((real ++ [token]) ++ padding)
     = (repeat 0 (List.length real) ++ 1 :: repeat 0 (List.length padding))%list.
Proof.
  intros Hreal Hpadding.
  assert (Hones : forall l,
             Forall (fun t => exists m, token_max t = Some m /\ (-1 < m)%Q) l ->
             gpu_predict_mask l = repeat 1 (List.length l)).
  { induction 1 as [| t l (m & Hm & Hpos) _ IH]; [reflexivity |].
    unfold gpu_predict_mask in *. cbn [map List.length repeat].
    rewrite Hm, IH, tf_sign_positive; [reflexivity |].
    apply (Qplus_lt_l _ _ (-1)). ring_simplify. exact Hpos. }
  assert (Hzeros : gpu_predict_mask padding = repeat 0 (List.length padding)).
  { induction Hpadding as [| t l (m & Hm & Hz) _ IH]; [reflexivity |].
    unfold gpu_predict_mask in *. cbn [map List.length repeat].
    rewrite Hm, IH, tf_sign_zero; [reflexivity |].
    rewrite Hz. reflexivity. }
  assert (Hmask : gpu_predict_mask ((real ++ [token]) ++ padding)
                  = (repeat 1 (S (List.length real))
                            ++ repeat 0 (List.length padding))%list).
  { unfold gpu_predict_mask. rewrite map_app.
    fold (gpu_predict_mask (real ++ [token])). fold (gpu_predict_mask padding).
    rewrite Hones, Hzeros by exact Hreal.
    rewrite length_app. cbn [List.length]. now rewrite Nat.add_1_r. }
  split; [exact Hmask |]. split.
  - unfold gpu_predict_real_length. rewrite Hmask. apply sum_prefix_mask.
  - unfold gpu_predict_last. rewrite Hmask.
    replace (repeat 1 (S (List.length real)) ++ repeat 0 (List.length padding))%list
      with (repeat 1 (List.length real) ++ 1 :: repeat 0 (List.length padding))%list.
    + rewrite last_of_mask_one_hot.
      * now rewrite !repeat_length.
      * clear. induction (List.length padding); simpl; constructor; auto.
    + rewrite <- Nat.add_1_r, repeat_app, <- app_assoc. reflexivity.
Qed.

Lemma rnn_embed_masks_witness :
  rnn_embed_real_length
    ([[1; 0]%Q; [0; 0]%Q] ++ [0; 2]%Q :: [[0; 0]%Q; [0; 0]%Q]) = 3.
Proof.
  apply (rnn_embed_masks [[1; 0]%Q; [0; 0]%Q] [[0; 0]%Q; [0; 0]%Q] [0; 2]%Q).
  - repeat constructor; eexists; (split; [reflexivity |]); vm_compute;
      discriminate.
  - eexists. split; [reflexivity |]. vm_compute. reflexivity.
  - repeat constructor; eexists; (split; [reflexivity |]); vm_compute;
      reflexivity.
Defined.

Lemma gpu_predict_masks_witness :
  gpu_predict_real_length
    (([[1; 0]%Q] ++ [[0; 0]%Q]) ++ [[-1; -1]%Q; [-1; -1]%Q]) = 2.
Proof.
  apply (gpu_predict_masks [[1; 0]%Q] [[-1; -1]%Q; [-1; -1]%Q] [0; 0]%Q).
  - repeat constructor; eexists; (split; [reflexivity |]); vm_compute;
      reflexivity.
  - repeat constructor; eexists; (split; [reflexivity |]); vm_compute;
      reflexivity.
Defined.

(** ** Building the graph *)

Section GraphBuilding.
Context `{External}.


Lemma tocoo_in_bounds (m : list (list Q)) (r c : nat) (v : Q) :
  In (r, c, v) (tocoo m) ->
  exists row, m !! r = Some row /\ row !! c = Some v /\ Qeq_bool v 0 = false.
Proof.
  unfold tocoo. intros Hin. apply in_concat in Hin as (entries & Hentries & Hin).
  apply list_elem_of_In, elem_of_lookup_imap in Hentries
    as (r' & row & -> & Hrow).
  apply in_map_iff in Hin as ([c' v'] & [= <- <- <-] & Hin).
  apply filter_In in Hin as [Hin Hnz]. cbn [snd] in Hnz.
  apply negb_true_iff in Hnz.
  exists row. split; [exact Hrow |]. split; [| exact Hnz].
  apply list_elem_of_In, list_elem_of_lookup in Hin as (k & Hk).
  apply lookup_zip_with_Some in Hk as (c'' & v'' & [= <- <-] & Hc & Hv).
  apply lookup_seq in Hc as [-> _]. exact Hv.
Qed.

Lemma py_max_upper_bound (l : list Z) (m x : Z) :
  py_max l = ok m -> In x l -> x <= m.
Proof.
  destruct l as [| y l]; [discriminate |]. intros [= <-].
  assert (Hge : forall l acc, acc <= fold_left Z.max l acc).
  { clear. induction l as [| z l IH]; intros acc; simpl; [lia |].
    specialize (IH (Z.max acc z)). lia. }
  assert (Hall : forall l acc x, In x l -> x <= fold_left Z.max l acc).
  { clear -Hge. induction l as [| z l IH]; intros acc x; simpl; [tauto |].
    intros [-> | Hin]; [| now apply IH].
    specialize (Hge l (Z.max acc x)). lia. }
  intros [<- | Hin]; [apply Hge | now apply Hall].
Qed.

(** X29: The sparse tensor [train] builds from a list of sparse matrices:
    every index has a value (the two lists are equally long), the
    dense shape counts the matrices, and with the sequence length
    [train] passes, the largest row count, every index names an
    existing matrix, one of its rows within the sequence length, and a
    non-zero entry of that row. *)
Theorem _to_sparse_tensor_in_bounds (array_of_sparse : list array)
        (seq_len : Z) (t : SparseTensor) :
  py_max (map shape0 array_of_sparse) = ok seq_len ->
  _to_sparse_tensor array_of_sparse seq_len = ok t ->
  List.length (st_indices t) = List.length (st_data t)
  /\ fst (fst (st_dense_shape t)) = Z.of_nat (List.length array_of_sparse)
  /\ snd (fst (st_dense_shape t)) = seq_len
  /\ forall i r c,
       In (i, r, c) (st_indices t) ->
       (i < List.length array_of_sparse)%nat
       /\ Z.of_nat r < seq_len
       /\ exists m row v,
            array_of_sparse !! i = Some (Mat m)
            /\ m !! r = Some row /\ row !! c = Some v
            /\ Qeq_bool v 0 = false.
Proof.
  intros Hmax. unfold _to_sparse_tensor.
  destruct (for_each _ array_of_sparse) as [e | coo] eqn:Hcoo; [discriminate |].
  destruct array_of_sparse as [| x0 rest] eqn:Hxs; [discriminate |].
  rewrite <- Hxs in *. intros [= <-]. cbn [st_indices st_data st_dense_shape fst snd].
  apply for_each_Forall2 in Hcoo.
  split; [| split; [reflexivity | split; [reflexivity |]]].
  - clear Hcoo Hmax Hxs.
    assert (Hgen : forall s,
               List.length
                 (concat (imap (fun i x =>
                                  map (fun e => (s + i, fst (fst e), snd (fst e)))%nat x)
                               coo))
               = List.length (concat (map (map snd) coo))).
    { induction coo as [| x coo IH]; intros s; [reflexivity |].
      cbn [imap map concat]. rewrite !length_app, !length_map. f_equal.
      rewrite <- (IH (S s)). f_equal. f_equal. apply imap_ext.
      intros i y _. apply map_ext. intros e. cbn. f_equal. f_equal. lia. }
    exact (Hgen 0%nat).
  - intros i r c Hin. apply in_concat in Hin as (entries & Hentries & Hin).
    apply list_elem_of_In, elem_of_lookup_imap in Hentries
      as (i' & x & -> & Hx).
    apply in_map_iff in Hin as ([[r' c'] v] & [= <- <- <-] & Hin).
    cbn [fst snd].
    destruct (Forall2_lookup_r _ _ _ _ _ Hcoo Hx) as (a & Ha & Hfa).
    destruct a as [vec | m]; [discriminate |]. injection Hfa as <-.
    apply tocoo_in_bounds in Hin as (row & Hrow & Hv & Hnz).
    split; [now apply lookup_lt_Some in Ha |]. split.
    + assert (Hr : Z.of_nat r' < shape0 (Mat m)).
      { apply lookup_lt_Some in Hrow. cbn [shape0]. lia. }
      assert (Hle : shape0 (Mat m) <= seq_len).
      { apply (py_max_upper_bound _ _ _ Hmax), in_map.
        apply list_elem_of_In. exact (list_elem_of_lookup_2 _ _ _ Ha). }
      lia.
    + now exists m, row, v.
Qed.

End GraphBuilding.


Lemma _to_sparse_tensor_in_bounds_witness :
  exists t,
    _to_sparse_tensor [Mat [[1; 0]%Q]; Mat [[0; 2]%Q; [3; 0]%Q]] 2 = ok t
    /\ List.length (st_indices t) = List.length (st_data t).
Proof.
  eexists. split; [reflexivity |].
  refine (proj1 (_to_sparse_tensor_in_bounds
                   [Mat [[1; 0]%Q]; Mat [[0; 2]%Q; [3; 0]%Q]] 2 _ _ _)).
  - reflexivity.
  - reflexivity.
Defined.
